(** * neuroloopy dashboard relay: [src/neuroloopy/dashboard/server.js]

    A shallow embedding of the Express/WebSocket relay of the dashboard
    and the properties of its ingestion, replay, broadcast and status
    paths.  ([server.js] at the root of the repository is an earlier copy
    of the same file with three of the five channels.)

    The file has three parts: the fragment of JavaScript the server
    relies on (values, ToString, [parseFloat], [parseInt], [Boolean],
    [JSON.stringify], [Date.prototype.toISOString]); the server itself,
    as computations in a state-and-exception monad over the process
    state; and the lemmas and theorems. *)

From Stdlib Require Import List ZArith NArith Bool Ascii String Lia DecimalString.
From Stdlib Require DecimalFacts DecimalPos DecimalN.
Import ListNotations.

Open Scope string_scope.

Set Warnings "-register-all".

(* ===================================================================== *)
(** ** JavaScript values *)
(* ===================================================================== *)

(** A JavaScript number.  A finite number is written as the decimal
    [(-1)^neg * mantissa / 10^scale], in canonical form when [scale = 0]
    or [mantissa] is not a multiple of ten.  A Number value is an IEEE 754
    double; it is named here by the decimal Number::toString prints for
    it, the shortest one that reads back as that double
    ([JS.is_double]).  The same type holds the exact value of a numeric
    literal before it is rounded ([JS.to_double]).  The server does no
    arithmetic on numbers: it parses, stores, prints and compares them. *)
Inductive JSNumber : Type :=
| NaN
| Infinity (neg : bool)
| Finite (neg : bool) (mantissa : N) (scale : N).

(** Values that reach the server: the JSON data model plus [undefined],
    which is what reading a missing property yields.  Objects keep their
    properties in insertion order, as [JSON.stringify] observes it.  A
    string is held as the bytes of its UTF-8 encoding, an unpaired
    surrogate as the three bytes the same scheme gives its code point. *)
Inductive JSValue : Type :=
| JUndefined
| JNull
| JBool (b : bool)
| JNumber (n : JSNumber)
| JString (s : string)
| JArray (elems : list JSValue)
| JObject (props : list (string * JSValue)).

(** Result of evaluating something that may throw. *)
Inductive Completion (A : Type) : Type :=
| Normal (a : A)
| Throw (error : string).
Arguments Normal {A} a.
Arguments Throw {A} error.

Definition bindC {A B} (c : Completion A) (k : A -> Completion B) : Completion B :=
  match c with
  | Normal a => k a
  | Throw e => Throw e
  end.

Definition TypeError : string := "TypeError".

Module JS.

(** *** Characters and digit strings *)

Definition is_digit (c : ascii) : bool :=
  let n := nat_of_ascii c in (48 <=? n)%nat && (n <=? 57)%nat.

Definition digit_value (c : ascii) : N := N_of_ascii c - 48.

(** Value of a hexadecimal digit, if [c] is one. *)
Definition hex_digit_value (c : ascii) : option N :=
  let n := N_of_ascii c in
  if (48 <=? n)%N && (n <=? 57)%N then Some (n - 48)%N
  else if (97 <=? n)%N && (n <=? 102)%N then Some (n - 87)%N
  else if (65 <=? n)%N && (n <=? 70)%N then Some (n - 55)%N
  else None.

(** StrWhiteSpaceChar, by the bytes of its encoding.  One byte: TAB, LF,
    VT, FF, CR, SP. *)
Definition is_white_space (c : ascii) : bool :=
  let n := nat_of_ascii c in
  ((9 <=? n)%nat && (n <=? 13)%nat) || (n =? 32)%nat.

(** Two bytes: U+00A0. *)
Definition is_white_space2 (c1 c2 : ascii) : bool :=
  (nat_of_ascii c1 =? 194)%nat && (nat_of_ascii c2 =? 160)%nat.

(** Three bytes: U+1680, U+2000 to U+200A, U+2028, U+2029, U+202F,
    U+205F, U+3000 and U+FEFF. *)
Definition is_white_space3 (c1 c2 c3 : ascii) : bool :=
  let n1 := nat_of_ascii c1 in
  let n2 := nat_of_ascii c2 in
  let n3 := nat_of_ascii c3 in
  ((n1 =? 225)%nat && (n2 =? 154)%nat && (n3 =? 128)%nat)
  || ((n1 =? 226)%nat && (n2 =? 128)%nat
      && (((128 <=? n3)%nat && (n3 <=? 138)%nat)
          || (n3 =? 168)%nat || (n3 =? 169)%nat || (n3 =? 175)%nat))
  || ((n1 =? 226)%nat && (n2 =? 129)%nat && (n3 =? 159)%nat)
  || ((n1 =? 227)%nat && (n2 =? 128)%nat && (n3 =? 128)%nat)
  || ((n1 =? 239)%nat && (n2 =? 187)%nat && (n3 =? 191)%nat).

(** Drops the leading white space. *)
Fixpoint trim_start (s : string) : string :=
  match s with
  | String c1 rest1 =>
      if is_white_space c1 then trim_start rest1
      else
        match rest1 with
        | String c2 rest2 =>
            if is_white_space2 c1 c2 then trim_start rest2
            else
              match rest2 with
              | String c3 rest3 =>
                  if is_white_space3 c1 c2 c3 then trim_start rest3 else s
              | EmptyString => s
              end
        | EmptyString => s
        end
  | EmptyString => s
  end.

(** Longest prefix of decimal digits, and what follows it. *)
Fixpoint span_digits (s : string) : string * string :=
  match s with
  | String c rest =>
      if is_digit c
      then let '(ds, tl) := span_digits rest in (String c ds, tl)
      else (EmptyString, s)
  | EmptyString => (EmptyString, EmptyString)
  end.

(** Value of a string of decimal digits, most significant first. *)
Fixpoint digits_value_from (acc : N) (s : string) : N :=
  match s with
  | String c rest => digits_value_from (10 * acc + digit_value c) rest
  | EmptyString => acc
  end.

Definition digits_value (s : string) : N := digits_value_from 0 s.

(** Longest prefix of digits in radix 16, already evaluated; [None] when
    there is no digit at all. *)
Fixpoint hex_prefix_value (acc : option N) (s : string) : option N :=
  match s with
  | String c rest =>
      match hex_digit_value c with
      | Some d =>
          hex_prefix_value
            (Some (16 * match acc with Some a => a | None => 0 end + d)%N) rest
      | None => acc
      end
  | EmptyString => acc
  end.

(** Removes an optional sign: [(negative, rest)]. *)
Definition split_sign (s : string) : bool * string :=
  match s with
  | String "-" rest => (true, rest)
  | String "+" rest => (false, rest)
  | _ => (false, s)
  end.

Definition string_of_N (n : N) : string :=
  NilZero.string_of_uint (N.to_uint n).

Fixpoint repeat_char (c : ascii) (n : nat) : string :=
  match n with
  | O => EmptyString
  | S k => String c (repeat_char c k)
  end.

(** Drops the trailing zeros of a digit string. *)
Fixpoint strip_trailing_zeros (s : string) : string :=
  match s with
  | String c rest =>
      match strip_trailing_zeros rest with
      | EmptyString => if Ascii.eqb c "0" then EmptyString else String c EmptyString
      | tl => String c tl
      end
  | EmptyString => EmptyString
  end.

(** *** Numbers *)

(** Canonical form of [mantissa / 10^scale]. *)
Fixpoint reduce_scale (fuel : nat) (mantissa scale : N) : N * N :=
  match fuel with
  | O => (mantissa, scale)
  | S k =>
      if (scale =? 0)%N then (mantissa, scale)
      else if (mantissa mod 10 =? 0)%N
           then reduce_scale k (mantissa / 10)%N (scale - 1)%N
           else (mantissa, scale)
  end.

Definition mkFinite (neg : bool) (mantissa scale : N) : JSNumber :=
  if (mantissa =? 0)%N then Finite neg 0 0
  else let '(m, s) := reduce_scale (N.to_nat scale) mantissa scale in
       Finite neg m s.

(** [digits * 10^exponent] for a digit string and a decimal exponent. *)
Definition decimal_value (neg : bool) (digits : N) (exponent : Z) : JSNumber :=
  if (0 <=? exponent)%Z
  then mkFinite neg (digits * 10 ^ Z.to_N exponent)%N 0
  else mkFinite neg digits (Z.to_N (- exponent)).

(** The Number for an integer of the size of a count of objects in
    memory, far below 2^53, where every integer is a double. *)
Definition of_Z (z : Z) : JSNumber := Finite (z <? 0)%Z (Z.abs_N z) 0.

(** *** Rounding to a double *)

Definition same_number (x y : JSNumber) : bool :=
  match x, y with
  | NaN, NaN => true
  | Infinity a, Infinity b => Bool.eqb a b
  | Finite a m s, Finite b m' s' => Bool.eqb a b && (m =? m')%N && (s =? s')%N
  | _, _ => false
  end.

(** [num / den] rounded to the nearest integer, a tie to the even one. *)
Definition div_nearest_even (num den : N) : N :=
  let q := (num / den)%N in
  match (2 * (num mod den) ?= den)%N with
  | Lt => q
  | Eq => if N.even q then q else (q + 1)%N
  | Gt => (q + 1)%N
  end.

(** The [e] with [2^e <= num / den < 2^(e+1)], for positive [num] and
    [den]. *)
Definition binary_exponent (num den : N) : Z :=
  let e := (Z.of_N (N.log2 num) - Z.of_N (N.log2 den))%Z in
  if (0 <=? e)%Z
  then if (den * 2 ^ Z.to_N e <=? num)%N then e else (e - 1)%Z
  else if (den <=? num * 2 ^ Z.to_N (- e))%N then e else (e - 1)%Z.

(** The double nearest to [m / 10^scale], a tie to the one with the even
    significand, written as the exact decimal of its value [M * 2^q]:
    a significand [M] of 53 bits at most and [q] no less than -1074,
    where the doubles are subnormal and a value of at most half of
    [2^-1074] rounds to zero; what rounds to [2^1024] or more is an
    infinity. *)
Definition nearest_double (neg : bool) (m scale : N) : JSNumber :=
  if (m =? 0)%N then Finite neg 0 0
  else
    let den := (10 ^ scale)%N in
    let e := binary_exponent m den in
    let q := Z.max (e - 52) (-1074) in
    let M := if (0 <=? q)%Z then div_nearest_even m (den * 2 ^ Z.to_N q)
             else div_nearest_even (m * 2 ^ Z.to_N (- q)) den in
    if (971 <? q)%Z || ((q =? 971)%Z && (2 ^ 53 <=? M)%N) then Infinity neg
    else if (0 <=? q)%Z then mkFinite neg (M * 2 ^ Z.to_N q) 0
    else mkFinite neg (M * 5 ^ Z.to_N (- q)) (Z.to_N (- q)).

(** The decimal [c] denotes the double whose exact value is [x]. *)
Definition reads_as (x c : JSNumber) : bool :=
  match c with
  | Finite neg m scale => same_number (nearest_double neg m scale) x
  | _ => false
  end.

Definition digit_count (m : N) : nat := String.length (string_of_N m).

(** The decimal of at most [k] significant digits that reads as the
    double [m / 10^scale], if there is one: the value cut to [k] digits
    or the next decimal up, the closer of the two when both do. *)
Definition shortest_at (k : nat) (neg : bool) (m scale : N) : option JSNumber :=
  let unit := (10 ^ N.of_nat (digit_count m - k))%N in
  let lo := (m / unit)%N in
  let down := mkFinite neg (lo * unit) scale in
  let up := mkFinite neg ((lo + 1) * unit) scale in
  let x := Finite neg m scale in
  match reads_as x down, reads_as x up with
  | true, true =>
      Some match (2 * (m mod unit) ?= unit)%N with
           | Lt => down
           | Eq => if N.even lo then down else up
           | Gt => up
           end
  | true, false => Some down
  | false, true => Some up
  | false, false => None
  end.

Fixpoint shortest_from (fuel k : nat) (neg : bool) (m scale : N) : JSNumber :=
  match fuel with
  | O => Finite neg m scale
  | S fuel' =>
      match shortest_at k neg m scale with
      | Some c => c
      | None => shortest_from fuel' (S k) neg m scale
      end
  end.

(** The digits Number::toString prints for a double: the decimal with
    the fewest significant digits that reads back as it.  The search
    ends at the latest with all the digits of the exact value. *)
Definition shortest_decimal (x : JSNumber) : JSNumber :=
  match x with
  | Finite neg m scale =>
      if (m =? 0)%N then x else shortest_from (digit_count m) 1 neg m scale
  | _ => x
  end.

(** The Number value for a mathematical value. *)
Definition to_double (x : JSNumber) : JSNumber :=
  match x with
  | Finite neg m scale => shortest_decimal (nearest_double neg m scale)
  | _ => x
  end.

(** [x] names a Number value. *)
Definition is_double (x : JSNumber) : bool := same_number (to_double x) x.

(** Number::toString with radix 10. *)
Definition Number_toString (x : JSNumber) : string :=
  match x with
  | NaN => "NaN"
  | Infinity neg => if neg then "-Infinity" else "Infinity"
  | Finite neg m scale =>
      if (m =? 0)%N then "0"
      else
        let all := string_of_N m in
        let s := strip_trailing_zeros all in
        let k := Z.of_nat (String.length s) in
        let n := (Z.of_nat (String.length all) - Z.of_N scale)%Z in
        let body :=
          if ((k <=? n) && (n <=? 21))%Z then
            s ++ repeat_char "0" (Z.to_nat (n - k))
          else if ((0 <? n) && (n <=? 21))%Z then
            substring 0 (Z.to_nat n) s ++ "."
              ++ substring (Z.to_nat n) (Z.to_nat (k - n)) s
          else if ((-6 <? n) && (n <=? 0))%Z then
            "0." ++ repeat_char "0" (Z.to_nat (- n)) ++ s
          else
            let e := (n - 1)%Z in
            let exp := (if (e <? 0)%Z then "-" else "+")
                         ++ string_of_N (Z.abs_N e) in
            if (k =? 1)%Z then s ++ "e" ++ exp
            else substring 0 1 s ++ "."
                   ++ substring 1 (Z.to_nat (k - 1)) s ++ "e" ++ exp
        in (if neg then "-" else "") ++ body
  end.

(** *** Conversions *)

Definition has_own_property (props : list (string * JSValue)) (name : string) : bool :=
  existsb (fun p => String.eqb (fst p) name) props.

Fixpoint lookup (props : list (string * JSValue)) (name : string) : JSValue :=
  match props with
  | (k, v) :: rest => if String.eqb k name then v else lookup rest name
  | [] => JUndefined
  end.

(** [Array.prototype.join]: [undefined] and [null] elements print as the
    empty string, every other element through [toString]. *)
Definition join_elements (toString : JSValue -> Completion string) (sep : string)
  : list JSValue -> Completion string :=
  fix go (elems : list JSValue) : Completion string :=
    match elems with
    | [] => Normal ""
    | e :: rest =>
        bindC (match e with
               | JUndefined | JNull => Normal ""
               | _ => toString e
               end) (fun next =>
        match rest with
        | [] => Normal next
        | _ => bindC (go rest) (fun tl => Normal (next ++ sep ++ tl))
        end)
    end.

(** ToString.  An array prints through [join(",")].  A plain object
    prints as [[object Object]] through [Object.prototype.toString],
    unless it has an own property named [toString]: a JSON value is
    never callable, [Object.prototype.valueOf] returns the object
    itself, and OrdinaryToPrimitive ends in a TypeError. *)
Fixpoint ToString (v : JSValue) : Completion string :=
  match v with
  | JUndefined => Normal "undefined"
  | JNull => Normal "null"
  | JBool b => Normal (if b then "true" else "false")
  | JNumber n => Normal (Number_toString n)
  | JString s => Normal s
  | JArray elems => join_elements ToString "," elems
  | JObject props =>
      if has_own_property props "toString" then Throw TypeError
      else Normal "[object Object]"
  end.

(** [arr.join(sep)] on a value known to be an array. *)
Definition Array_join (elems : list JSValue) (sep : string) : Completion string :=
  join_elements ToString sep elems.

(** ToBoolean. *)
Definition ToBoolean (v : JSValue) : bool :=
  match v with
  | JUndefined | JNull => false
  | JBool b => b
  | JNumber NaN => false
  | JNumber (Infinity _) => true
  | JNumber (Finite _ m _) => negb (m =? 0)%N
  | JString s => negb (String.eqb s "")
  | JArray _ | JObject _ => true
  end.

Definition Array_isArray (v : JSValue) : bool :=
  match v with
  | JArray _ => true
  | _ => false
  end.

(** [v === undefined]. *)
Definition is_undefined (v : JSValue) : bool :=
  match v with
  | JUndefined => true
  | _ => false
  end.

(** Property read [v.name] for the names the server uses ([value],
    [rep], [params], [sent], [timestamp]), none of which is defined on a
    built-in prototype: an object yields its own property or
    [undefined], [null] and [undefined] throw, anything else yields
    [undefined]. *)
Definition Get (v : JSValue) (name : string) : Completion JSValue :=
  match v with
  | JUndefined | JNull => Throw TypeError
  | JObject props => Normal (lookup props name)
  | _ => Normal JUndefined
  end.

(** Exponent part of a decimal literal: [e], an optional sign and at
    least one digit.  Returns the exponent, 0 when there is no
    well-formed exponent part. *)
Definition parse_exponent (s : string) : Z :=
  match s with
  | String c rest =>
      if Ascii.eqb c "e" || Ascii.eqb c "E" then
        let '(neg, rest') := split_sign rest in
        let '(ds, _) := span_digits rest' in
        match ds with
        | EmptyString => 0%Z
        | _ => if neg then (- Z.of_N (digits_value ds))%Z
               else Z.of_N (digits_value ds)
        end
      else 0%Z
  | EmptyString => 0%Z
  end.

(** The mathematical value of the longest prefix of [s] that is a
    StrDecimalLiteral, [NaN] when no prefix is one. *)
Definition read_decimal_prefix (s : string) : JSNumber :=
  let '(neg, s1) := split_sign s in
  if prefix "Infinity" s1 then Infinity neg
  else
    let '(int_digits, s2) := span_digits s1 in
    let '(frac_digits, s3) :=
      match s2 with
      | String "." rest => span_digits rest
      | _ => (EmptyString, s2)
      end in
    match int_digits, frac_digits with
    | EmptyString, EmptyString => NaN
    | _, _ =>
        decimal_value neg (digits_value (int_digits ++ frac_digits))
          (parse_exponent s3 - Z.of_nat (String.length frac_digits))
    end.

Definition parse_decimal_prefix (s : string) : JSNumber :=
  to_double (read_decimal_prefix s).

(** [parseFloat(v)]: ToString, drop leading white space, read a decimal
    literal, round to a double. *)
Definition parseFloat (v : JSValue) : Completion JSNumber :=
  bindC (ToString v) (fun s => Normal (parse_decimal_prefix (trim_start s))).

(** [0x] or [0X] at the start of [s]: what follows it. *)
Definition strip_hex_prefix (s : string) : option string :=
  match s with
  | String c (String x rest) =>
      if Ascii.eqb c "0" && (Ascii.eqb x "x" || Ascii.eqb x "X")
      then Some rest else None
  | _ => None
  end.

(** The integer in front of [s]: a sign, radix 16 after [0x] or [0X],
    the longest run of digits; [NaN] when there is no digit. *)
Definition read_int_prefix (s : string) : JSNumber :=
  let '(neg, s1) := split_sign s in
  match strip_hex_prefix s1 with
  | Some rest =>
      match hex_prefix_value None rest with
      | Some n => Finite neg n 0
      | None => NaN
      end
  | None =>
      let '(ds, _) := span_digits s1 in
      match ds with
      | EmptyString => NaN
      | _ => Finite neg (digits_value ds) 0
      end
  end.

Definition parse_int_prefix (s : string) : JSNumber :=
  to_double (read_int_prefix s).

(** [parseInt(v)] with no radix argument: ToString, drop leading white
    space, read the integer, round to a double (V8 reads every digit). *)
Definition parseInt (v : JSValue) : Completion JSNumber :=
  bindC (ToString v) (fun s => Normal (parse_int_prefix (trim_start s))).

(** *** JSON.stringify *)

Definition quote_char : ascii := ascii_of_nat 34.
Definition backslash_char : ascii := ascii_of_nat 92.

Definition hex_digit (n : nat) : ascii :=
  if (n <? 10)%nat then ascii_of_nat (48 + n) else ascii_of_nat (87 + n).

(** One character of a string inside QuoteJSONString. *)
Definition escape_char (c : ascii) : string :=
  let n := nat_of_ascii c in
  let esc (x : ascii) := String backslash_char (String x EmptyString) in
  if (n =? 34)%nat then esc quote_char
  else if (n =? 92)%nat then esc backslash_char
  else if (n =? 8)%nat then esc "b"%char
  else if (n =? 12)%nat then esc "f"%char
  else if (n =? 10)%nat then esc "n"%char
  else if (n =? 13)%nat then esc "r"%char
  else if (n =? 9)%nat then esc "t"%char
  else if (n <? 32)%nat then
    String backslash_char
      ("u00" ++ String (hex_digit (n / 16)) (String (hex_digit (n mod 16)) EmptyString))
  else String c EmptyString.

(** An unpaired surrogate, U+D800 to U+DFFF: the bytes [ED], [A0] to
    [BF], [80] to [BF]. *)
Definition is_lone_surrogate (c1 c2 c3 : ascii) : bool :=
  (nat_of_ascii c1 =? 237)%nat
  && (160 <=? nat_of_ascii c2)%nat && (nat_of_ascii c2 <=? 191)%nat
  && (128 <=? nat_of_ascii c3)%nat && (nat_of_ascii c3 <=? 191)%nat.

(** Its escape: a backslash, [u] and the four hexadecimal digits of the
    code point, which begin with [d]. *)
Definition surrogate_escape (c2 c3 : ascii) : string :=
  let low := ((nat_of_ascii c2 - 128) * 64 + (nat_of_ascii c3 - 128))%nat in
  String backslash_char
    ("ud" ++ String (hex_digit (low / 256))
               (String (hex_digit (low / 16 mod 16))
                  (String (hex_digit (low mod 16)) EmptyString))).

Fixpoint escape_string (s : string) : string :=
  match s with
  | String c1 rest1 =>
      match rest1 with
      | String c2 (String c3 rest3) =>
          if is_lone_surrogate c1 c2 c3
          then surrogate_escape c2 c3 ++ escape_string rest3
          else escape_char c1 ++ escape_string rest1
      | _ => escape_char c1 ++ escape_string rest1
      end
  | EmptyString => EmptyString
  end.

Definition QuoteJSONString (s : string) : string :=
  String quote_char (escape_string s ++ String quote_char EmptyString).

Definition comma_separated (parts : list string) : string :=
  String.concat "," parts.

(** SerializeJSONProperty: [None] stands for [undefined].  An
    [undefined] property is left out of an object and printed as [null]
    in an array; a number that is not finite prints as [null].
    Properties are printed in the order of the list, which is the order
    JavaScript uses for the objects the server builds (none of their
    keys is an array index). *)
Fixpoint SerializeJSONProperty (v : JSValue) : option string :=
  match v with
  | JUndefined => None
  | JNull => Some "null"
  | JBool b => Some (if b then "true" else "false")
  | JNumber (Finite neg m scale) => Some (Number_toString (Finite neg m scale))
  | JNumber _ => Some "null"
  | JString s => Some (QuoteJSONString s)
  | JArray elems =>
      Some ("[" ++ comma_separated
                     (map (fun e => match SerializeJSONProperty e with
                                    | Some s => s
                                    | None => "null"
                                    end) elems) ++ "]")
  | JObject props =>
      Some ("{" ++ comma_separated
                     ((fix members (ps : list (string * JSValue)) : list string :=
                         match ps with
                         | [] => []
                         | (k, x) :: rest =>
                             match SerializeJSONProperty x with
                             | Some s => (QuoteJSONString k ++ ":" ++ s) :: members rest
                             | None => members rest
                             end
                         end) props) ++ "}")
  end.

(** [JSON.stringify(v)]: a string, or [undefined]. *)
Definition JSON_stringify (v : JSValue) : JSValue :=
  match SerializeJSONProperty v with
  | Some s => JString s
  | None => JUndefined
  end.

(** *** Date.prototype.toISOString *)

(** Decimal rendering of [n], left-padded with zeros to [width]. *)
Definition pad (width : nat) (n : Z) : string :=
  let s := string_of_N (Z.to_N n) in
  repeat_char "0" (width - String.length s) ++ s.

(** Civil date [(year, month, day)] of a day number counted from
    1970-01-01, proleptic Gregorian calendar. *)
Definition civil_from_days (days : Z) : Z * Z * Z :=
  let z := (days + 719468)%Z in
  let era := (z / 146097)%Z in
  let doe := (z - era * 146097)%Z in
  let yoe := ((doe - doe / 1460 + doe / 36524 - doe / 146096) / 365)%Z in
  let doy := (doe - (365 * yoe + yoe / 4 - yoe / 100))%Z in
  let mp := ((5 * doy + 2) / 153)%Z in
  let d := (doy - (153 * mp + 2) / 5 + 1)%Z in
  let m := (if (mp <? 10)%Z then mp + 3 else mp - 9)%Z in
  let y := (yoe + era * 400 + (if (m <=? 2)%Z then 1 else 0))%Z in
  (y, m, d).

(** [new Date(t).toISOString()] for a time value [t] in milliseconds
    since the epoch: [YYYY-MM-DDTHH:mm:ss.sssZ], with a signed six-digit
    year outside 0..9999. *)
Definition toISOString (t : Z) : string :=
  let '(y, m, d) := civil_from_days (t / 86400000) in
  let ms := (t mod 86400000)%Z in
  let year :=
    if ((0 <=? y) && (y <=? 9999))%Z then pad 4 y
    else (if (y <? 0)%Z then "-" else "+") ++ pad 6 (Z.abs y) in
  year ++ "-" ++ pad 2 m ++ "-" ++ pad 2 d ++ "T"
    ++ pad 2 (ms / 3600000) ++ ":" ++ pad 2 (ms / 60000 mod 60) ++ ":"
    ++ pad 2 (ms / 1000 mod 60) ++ "." ++ pad 3 (ms mod 1000) ++ "Z".

End JS.

(* ===================================================================== *)
(** ** The server process *)
(* ===================================================================== *)

(** The five keys of [latestData], which are also the [type] tags of the
    pushed messages and the paths of the POST endpoints. *)
Inductive Channel : Type :=
| ClfData
| McData
| FeedbackStatus
| RunNumber
| FeedbackNumber.

Definition all_channels : list Channel :=
  [ClfData; McData; FeedbackStatus; RunNumber; FeedbackNumber].

Definition channel_name (ch : Channel) : string :=
  match ch with
  | ClfData => "clf_data"
  | McData => "mc_data"
  | FeedbackStatus => "feedback_status"
  | RunNumber => "run_number"
  | FeedbackNumber => "feedback_number"
  end.

(** Name of the payload property of a channel's record. *)
Definition payload_field (ch : Channel) : string :=
  match ch with
  | ClfData | RunNumber | FeedbackNumber => "value"
  | McData => "params"
  | FeedbackStatus => "sent"
  end.

(** [let latestData = { clf_data: null, ... }]: each entry holds [null]
    or the object last assigned to it. *)
Record LatestData : Type := mkLatestData {
  clf_data : JSValue;
  mc_data : JSValue;
  feedback_status : JSValue;
  run_number : JSValue;
  feedback_number : JSValue
}.

Definition entry (ch : Channel) (ld : LatestData) : JSValue :=
  match ch with
  | ClfData => clf_data ld
  | McData => mc_data ld
  | FeedbackStatus => feedback_status ld
  | RunNumber => run_number ld
  | FeedbackNumber => feedback_number ld
  end.

Definition set_entry (ch : Channel) (v : JSValue) (ld : LatestData) : LatestData :=
  match ch with
  | ClfData => mkLatestData v (mc_data ld) (feedback_status ld) (run_number ld) (feedback_number ld)
  | McData => mkLatestData (clf_data ld) v (feedback_status ld) (run_number ld) (feedback_number ld)
  | FeedbackStatus => mkLatestData (clf_data ld) (mc_data ld) v (run_number ld) (feedback_number ld)
  | RunNumber => mkLatestData (clf_data ld) (mc_data ld) (feedback_status ld) v (feedback_number ld)
  | FeedbackNumber => mkLatestData (clf_data ld) (mc_data ld) (feedback_status ld) (run_number ld) v
  end.

(** The object [res.json(latestData)] serialises. *)
Definition latestData_object (ld : LatestData) : JSValue :=
  JObject [("clf_data", clf_data ld); ("mc_data", mc_data ld);
           ("feedback_status", feedback_status ld);
           ("run_number", run_number ld); ("feedback_number", feedback_number ld)].

(** A [ws] connection object, by identity. *)
Definition WebSocket : Type := nat.

Inductive ReadyState : Type := CONNECTING | OPEN | CLOSING | CLOSED.

Definition is_OPEN (rs : ReadyState) : bool :=
  match rs with
  | OPEN => true
  | _ => false
  end.

(** What the process does that an observer outside it can see, in the
    order it happens. *)
Inductive Event : Type :=
| ConsoleLog (line : string)
| ConsoleError (label : string) (error : string)
| Assigned (ch : Channel) (record : JSValue)
| Stringified (data : JSValue)
| Sent (ws : WebSocket) (message : JSValue).

(** The process: the two module-level variables of the server, the ready
    state the transport keeps for every connection object, the system
    clock in milliseconds since the epoch, and the trace so far. *)
Record Process : Type := mkProcess {
  latestData : LatestData;
  clients : list WebSocket;
  readyState : WebSocket -> ReadyState;
  clock : Z;
  trace : list Event
}.

Record Response : Type := mkResponse {
  status : nat;
  json : JSValue
}.

(** *** Computations *)

(** A piece of handler code: it runs on the process, may change it, and
    completes normally or throws; what it changed before throwing stays
    changed. *)
Definition Handler (A : Type) : Type := Process -> Completion A * Process.

Definition ret {A} (a : A) : Handler A := fun p => (Normal a, p).

Definition bind {A B} (m : Handler A) (k : A -> Handler B) : Handler B :=
  fun p =>
    match m p with
    | (Normal a, p') => k a p'
    | (Throw e, p') => (Throw e, p')
    end.

Declare Scope handler_scope.
Delimit Scope handler_scope with handler.
Notation "x <- m ;; k" := (bind m (fun x => k))
  (at level 61, m at next level, right associativity) : handler_scope.
Notation "m ;; k" := (bind m (fun _ => k))
  (at level 61, right associativity) : handler_scope.
Open Scope handler_scope.

Definition lift {A} (c : Completion A) : Handler A := fun p => (c, p).

Definition try_catch {A} (body : Handler A) (on_error : string -> Handler A) : Handler A :=
  fun p =>
    match body p with
    | (Normal a, p') => (Normal a, p')
    | (Throw e, p') => on_error e p'
    end.

Definition emit (e : Event) : Handler unit :=
  fun p => (Normal tt,
            mkProcess (latestData p) (clients p) (readyState p) (clock p) (trace p ++ [e])).

Definition read_latestData : Handler LatestData := fun p => (Normal (latestData p), p).

Definition read_clients : Handler (list WebSocket) := fun p => (Normal (clients p), p).

(** [clients.size]. *)
Definition clients_size : Handler JSValue :=
  fun p => (Normal (JNumber (JS.of_Z (Z.of_nat (List.length (clients p))))), p).

(** [ws.readyState]. *)
Definition read_readyState (ws : WebSocket) : Handler ReadyState :=
  fun p => (Normal (readyState p ws), p).

(** [latestData.<ch> = record]. *)
Definition assign (ch : Channel) (record : JSValue) : Handler unit :=
  fun p => (Normal tt,
            mkProcess (set_entry ch record (latestData p)) (clients p) (readyState p)
              (clock p) (trace p ++ [Assigned ch record])).

Definition console_log (line : string) : Handler unit := emit (ConsoleLog line).

Definition console_error (label error : string) : Handler unit :=
  emit (ConsoleError label error).

(** [JSON.stringify(data)]. *)
Definition stringify (data : JSValue) : Handler JSValue :=
  emit (Stringified data) ;; ret (JS.JSON_stringify data).

(** [ws.send(message)]. *)
Definition send (ws : WebSocket) (message : JSValue) : Handler unit :=
  emit (Sent ws message).

(** [new Date().toISOString()], evaluated [elapsed] milliseconds after
    the clock was last looked at. *)
Definition new_Date_toISOString (elapsed : N) : Handler string :=
  fun p =>
    let now := (clock p + Z.of_N elapsed)%Z in
    (Normal (JS.toISOString now),
     mkProcess (latestData p) (clients p) (readyState p) now (trace p)).

(** [clients.add(ws)], [clients.delete(ws)] on a [Set], which keeps
    insertion order and holds every member once. *)
Definition Set_add (ws : WebSocket) (s : list WebSocket) : list WebSocket :=
  if existsb (Nat.eqb ws) s then s else s ++ [ws].

Definition Set_delete (ws : WebSocket) (s : list WebSocket) : list WebSocket :=
  filter (fun x => negb (Nat.eqb ws x)) s.

Definition clients_add (ws : WebSocket) : Handler unit :=
  fun p => (Normal tt,
            mkProcess (latestData p) (Set_add ws (clients p)) (readyState p)
              (clock p) (trace p)).

Definition clients_delete (ws : WebSocket) : Handler unit :=
  fun p => (Normal tt,
            mkProcess (latestData p) (Set_delete ws (clients p)) (readyState p)
              (clock p) (trace p)).

(** [set.forEach(f)]. *)
Fixpoint forEach (s : list WebSocket) (f : WebSocket -> Handler unit) : Handler unit :=
  match s with
  | [] => ret tt
  | x :: rest => f x ;; forEach rest f
  end.

(** [arr.map(f)] for a callback that may throw. *)
Fixpoint mapC (f : JSValue -> Completion JSValue) (l : list JSValue)
  : Completion (list JSValue) :=
  match l with
  | [] => Normal []
  | x :: rest =>
      bindC (f x) (fun y => bindC (mapC f rest) (fun ys => Normal (y :: ys)))
  end.

(** [v.join(sep)] and [v.map(f)]: only an array has these methods among
    the values a request carries. *)
Definition method_join (v : JSValue) (sep : string) : Completion string :=
  match v with
  | JArray elems => JS.Array_join elems sep
  | _ => Throw TypeError
  end.

Definition method_map (v : JSValue) (f : JSValue -> Completion JSValue)
  : Completion JSValue :=
  match v with
  | JArray elems => bindC (mapC f elems) (fun ys => Normal (JArray ys))
  | _ => Throw TypeError
  end.

Definition number (c : Completion JSNumber) : Completion JSValue :=
  bindC c (fun n => Normal (JNumber n)).

(** *** Responses *)

Definition error_response (code : nat) (message : string) : Response :=
  mkResponse code (JObject [("error", JString message)]).

(** [res.json({ success: true, message })], status 200. *)
Definition success_response (message : string) : Response :=
  mkResponse 200 (JObject [("success", JBool true); ("message", JString message)]).

Definition internal_server_error : Response :=
  error_response 500 "Internal server error".

(** *** WebSocket side *)

(** [function broadcast(data)]. *)
Definition broadcast (data : JSValue) : Handler unit :=
  message <- stringify data ;;
  members <- read_clients ;;
  forEach members (fun client =>
    state <- read_readyState client ;;
    if is_OPEN state then send client message else ret tt).

(** [wss.on('connection', (ws) => ...)], up to the registration of the
    two listeners. *)
Definition on_connection (ws : WebSocket) : Handler unit :=
  console_log "New WebSocket client connected" ;;
  clients_add ws ;;
  (ld <- read_latestData ;;
   if JS.ToBoolean (clf_data ld) then
     value <- lift (JS.Get (clf_data ld) "value") ;;
     timestamp <- lift (JS.Get (clf_data ld) "timestamp") ;;
     message <- stringify (JObject [("type", JString "clf_data");
                                    ("value", value); ("timestamp", timestamp)]) ;;
     send ws message
   else ret tt) ;;
  (ld <- read_latestData ;;
   if JS.ToBoolean (mc_data ld) then
     params <- lift (JS.Get (mc_data ld) "params") ;;
     timestamp <- lift (JS.Get (mc_data ld) "timestamp") ;;
     message <- stringify (JObject [("type", JString "mc_data");
                                    ("params", params); ("timestamp", timestamp)]) ;;
     send ws message
   else ret tt) ;;
  (ld <- read_latestData ;;
   if JS.ToBoolean (feedback_status ld) then
     sent <- lift (JS.Get (feedback_status ld) "sent") ;;
     timestamp <- lift (JS.Get (feedback_status ld) "timestamp") ;;
     message <- stringify (JObject [("type", JString "feedback_status");
                                    ("sent", sent); ("timestamp", timestamp)]) ;;
     send ws message
   else ret tt) ;;
  (ld <- read_latestData ;;
   if JS.ToBoolean (run_number ld) then
     value <- lift (JS.Get (run_number ld) "value") ;;
     timestamp <- lift (JS.Get (run_number ld) "timestamp") ;;
     message <- stringify (JObject [("type", JString "run_number");
                                    ("value", value); ("timestamp", timestamp)]) ;;
     send ws message
   else ret tt) ;;
  (ld <- read_latestData ;;
   if JS.ToBoolean (feedback_number ld) then
     value <- lift (JS.Get (feedback_number ld) "value") ;;
     timestamp <- lift (JS.Get (feedback_number ld) "timestamp") ;;
     message <- stringify (JObject [("type", JString "feedback_number");
                                    ("value", value); ("timestamp", timestamp)]) ;;
     send ws message
   else ret tt).

(** [ws.on('close', ...)]. *)
Definition on_close (ws : WebSocket) : Handler unit :=
  console_log "WebSocket client disconnected" ;;
  clients_delete ws.

(** [ws.on('error', ...)]. *)
Definition on_error (ws : WebSocket) (error : string) : Handler unit :=
  console_error "WebSocket error:" error ;;
  clients_delete ws.

(** *** HTTP side *)

(** [app.post('/clf_data', ...)]. *)
Definition post_clf_data (body : JSValue) (elapsed : N) : Handler Response :=
  try_catch
    (value <- lift (JS.Get body "value") ;;
     rep <- lift (JS.Get body "rep") ;;
     if JS.is_undefined value || JS.is_undefined rep then
       ret (error_response 400 "Missing required fields: value, rep")
     else
       rep_text <- lift (JS.ToString rep) ;;
       value_text <- lift (JS.ToString value) ;;
       console_log ("Received classifier data - Rep: " ++ rep_text
                      ++ ", Value: " ++ value_text) ;;
       v <- lift (number (JS.parseFloat value)) ;;
       r <- lift (number (JS.parseInt rep)) ;;
       t <- new_Date_toISOString elapsed ;;
       assign ClfData (JObject [("value", v); ("rep", r); ("timestamp", JString t)]) ;;
       ld <- read_latestData ;;
       value' <- lift (JS.Get (clf_data ld) "value") ;;
       rep' <- lift (JS.Get (clf_data ld) "rep") ;;
       timestamp' <- lift (JS.Get (clf_data ld) "timestamp") ;;
       broadcast (JObject [("type", JString "clf_data"); ("value", value');
                           ("rep", rep'); ("timestamp", timestamp')]) ;;
       ret (success_response "Classifier data received"))
    (fun error =>
       console_error "Error processing classifier data:" error ;;
       ret internal_server_error).

(** [app.post('/mc_data', ...)]. *)
Definition post_mc_data (body : JSValue) (elapsed : N) : Handler Response :=
  try_catch
    (params <- lift (JS.Get body "params") ;;
     rep <- lift (JS.Get body "rep") ;;
     if negb (JS.ToBoolean params) || negb (JS.Array_isArray params)
        || JS.is_undefined rep then
       ret (error_response 400 "Missing required fields: params (array), rep")
     else
       rep_text <- lift (JS.ToString rep) ;;
       params_text <- lift (method_join params ", ") ;;
       console_log ("Received motion correction data - Rep: " ++ rep_text
                      ++ ", Params: [" ++ params_text ++ "]") ;;
       ps <- lift (method_map params (fun p => number (JS.parseFloat p))) ;;
       r <- lift (number (JS.parseInt rep)) ;;
       t <- new_Date_toISOString elapsed ;;
       assign McData (JObject [("params", ps); ("rep", r); ("timestamp", JString t)]) ;;
       ld <- read_latestData ;;
       params' <- lift (JS.Get (mc_data ld) "params") ;;
       rep' <- lift (JS.Get (mc_data ld) "rep") ;;
       timestamp' <- lift (JS.Get (mc_data ld) "timestamp") ;;
       broadcast (JObject [("type", JString "mc_data"); ("params", params');
                           ("rep", rep'); ("timestamp", timestamp')]) ;;
       ret (success_response "Motion correction data received"))
    (fun error =>
       console_error "Error processing motion correction data:" error ;;
       ret internal_server_error).

(** [app.post('/feedback_status', ...)]. *)
Definition post_feedback_status (body : JSValue) (elapsed : N) : Handler Response :=
  try_catch
    (sent <- lift (JS.Get body "sent") ;;
     rep <- lift (JS.Get body "rep") ;;
     if JS.is_undefined sent || JS.is_undefined rep then
       ret (error_response 400 "Missing required fields: sent (boolean), rep")
     else
       rep_text <- lift (JS.ToString rep) ;;
       sent_text <- lift (JS.ToString sent) ;;
       console_log ("Received neurofeedback status - Rep: " ++ rep_text
                      ++ ", Sent: " ++ sent_text) ;;
       r <- lift (number (JS.parseInt rep)) ;;
       t <- new_Date_toISOString elapsed ;;
       assign FeedbackStatus (JObject [("sent", JBool (JS.ToBoolean sent)); ("rep", r);
                                       ("timestamp", JString t)]) ;;
       ld <- read_latestData ;;
       sent' <- lift (JS.Get (feedback_status ld) "sent") ;;
       rep' <- lift (JS.Get (feedback_status ld) "rep") ;;
       timestamp' <- lift (JS.Get (feedback_status ld) "timestamp") ;;
       broadcast (JObject [("type", JString "feedback_status"); ("sent", sent');
                           ("rep", rep'); ("timestamp", timestamp')]) ;;
       ret (success_response "Neurofeedback status received"))
    (fun error =>
       console_error "Error processing neurofeedback status:" error ;;
       ret internal_server_error).

(** [app.post('/run_number', ...)]. *)
Definition post_run_number (body : JSValue) (elapsed : N) : Handler Response :=
  try_catch
    (value <- lift (JS.Get body "value") ;;
     rep <- lift (JS.Get body "rep") ;;
     if JS.is_undefined value || JS.is_undefined rep then
       ret (error_response 400 "Missing required fields: value, rep")
     else
       rep_text <- lift (JS.ToString rep) ;;
       value_text <- lift (JS.ToString value) ;;
       console_log ("Received run number - Rep: " ++ rep_text
                      ++ ", Value: " ++ value_text) ;;
       v <- lift (number (JS.parseInt value)) ;;
       r <- lift (number (JS.parseInt rep)) ;;
       t <- new_Date_toISOString elapsed ;;
       assign RunNumber (JObject [("value", v); ("rep", r); ("timestamp", JString t)]) ;;
       ld <- read_latestData ;;
       value' <- lift (JS.Get (run_number ld) "value") ;;
       rep' <- lift (JS.Get (run_number ld) "rep") ;;
       timestamp' <- lift (JS.Get (run_number ld) "timestamp") ;;
       broadcast (JObject [("type", JString "run_number"); ("value", value');
                           ("rep", rep'); ("timestamp", timestamp')]) ;;
       ret (success_response "Run number received"))
    (fun error =>
       console_error "Error processing run number:" error ;;
       ret internal_server_error).

(** [app.post('/feedback_number', ...)]. *)
Definition post_feedback_number (body : JSValue) (elapsed : N) : Handler Response :=
  try_catch
    (value <- lift (JS.Get body "value") ;;
     rep <- lift (JS.Get body "rep") ;;
     if JS.is_undefined value || JS.is_undefined rep then
       ret (error_response 400 "Missing required fields: value, rep")
     else
       rep_text <- lift (JS.ToString rep) ;;
       value_text <- lift (JS.ToString value) ;;
       console_log ("Received feedback number - Rep: " ++ rep_text
                      ++ ", Value: " ++ value_text) ;;
       v <- lift (number (JS.parseInt value)) ;;
       r <- lift (number (JS.parseInt rep)) ;;
       t <- new_Date_toISOString elapsed ;;
       assign FeedbackNumber (JObject [("value", v); ("rep", r); ("timestamp", JString t)]) ;;
       ld <- read_latestData ;;
       value' <- lift (JS.Get (feedback_number ld) "value") ;;
       rep' <- lift (JS.Get (feedback_number ld) "rep") ;;
       timestamp' <- lift (JS.Get (feedback_number ld) "timestamp") ;;
       broadcast (JObject [("type", JString "feedback_number"); ("value", value');
                           ("rep", rep'); ("timestamp", timestamp')]) ;;
       ret (success_response "Feedback number received"))
    (fun error =>
       console_error "Error processing feedback number:" error ;;
       ret internal_server_error).

(** The POST routes. *)
Definition submit (ch : Channel) : JSValue -> N -> Handler Response :=
  match ch with
  | ClfData => post_clf_data
  | McData => post_mc_data
  | FeedbackStatus => post_feedback_status
  | RunNumber => post_run_number
  | FeedbackNumber => post_feedback_number
  end.

(** [app.get('/api/latest-data', ...)]. *)
Definition get_latest_data : Handler Response :=
  ld <- read_latestData ;;
  ret (mkResponse 200 (latestData_object ld)).

(** One entry of the [latestData] property of the health report:
    [latestData.c ? { f: latestData.c.f, rep: latestData.c.rep,
    timestamp: latestData.c.timestamp } : null]. *)
Definition health_entry (ch : Channel) : Handler JSValue :=
  ld <- read_latestData ;;
  if JS.ToBoolean (entry ch ld) then
    payload <- lift (JS.Get (entry ch ld) (payload_field ch)) ;;
    rep <- lift (JS.Get (entry ch ld) "rep") ;;
    timestamp <- lift (JS.Get (entry ch ld) "timestamp") ;;
    ret (JObject [(payload_field ch, payload); ("rep", rep); ("timestamp", timestamp)])
  else ret JNull.

(** [app.get('/health', ...)]. *)
Definition get_health (elapsed : N) : Handler Response :=
  timestamp <- new_Date_toISOString elapsed ;;
  connectedClients <- clients_size ;;
  clf <- health_entry ClfData ;;
  mc <- health_entry McData ;;
  fs <- health_entry FeedbackStatus ;;
  rn <- health_entry RunNumber ;;
  fn <- health_entry FeedbackNumber ;;
  ret (mkResponse 200
         (JObject [("status", JString "ok");
                   ("timestamp", JString timestamp);
                   ("connectedClients", connectedClients);
                   ("latestData",
                    JObject [("clf_data", clf); ("mc_data", mc);
                             ("feedback_status", fs); ("run_number", rn);
                             ("feedback_number", fn)])])).

(** *** The process as a transition system *)

(** What can happen to the process: the events the WebSocket server and
    the sockets emit, the HTTP requests, and the two things that change
    without the server's doing (a socket's ready state, the time). *)
Inductive Input : Type :=
| Connection (ws : WebSocket)
| SocketClose (ws : WebSocket)
| SocketError (ws : WebSocket) (error : string)
| Post (ch : Channel) (body : JSValue) (elapsed : N)
| GetLatestData
| GetHealth (elapsed : N)
| Transport (ws : WebSocket) (state : ReadyState)
| Tick (elapsed : N).

Definition set_readyState (ws : WebSocket) (state : ReadyState) : Handler unit :=
  fun p => (Normal tt,
            mkProcess (latestData p) (clients p)
              (fun x => if Nat.eqb x ws then state else readyState p x)
              (clock p) (trace p)).

Definition tick (elapsed : N) : Handler unit :=
  fun p => (Normal tt,
            mkProcess (latestData p) (clients p) (readyState p)
              (clock p + Z.of_N elapsed)%Z (trace p)).

Definition respond (h : Handler Response) : Handler (option Response) :=
  r <- h ;; ret (Some r).

Definition silently (h : Handler unit) : Handler (option Response) :=
  h ;; ret None.

(** A connection object is open when the server's connection listener
    runs. *)
Definition step (i : Input) : Handler (option Response) :=
  match i with
  | Connection ws => silently (set_readyState ws OPEN ;; on_connection ws)
  | SocketClose ws => silently (on_close ws)
  | SocketError ws error => silently (on_error ws error)
  | Post ch body elapsed => respond (submit ch body elapsed)
  | GetLatestData => respond get_latest_data
  | GetHealth elapsed => respond (get_health elapsed)
  | Transport ws state => silently (set_readyState ws state)
  | Tick elapsed => silently (tick elapsed)
  end.

(** The process right after [server.js] is loaded, at time [t0]. *)
Definition init (t0 : Z) : Process :=
  mkProcess (mkLatestData JNull JNull JNull JNull JNull) [] (fun _ => CONNECTING) t0 [].

Definition run_step (i : Input) (p : Process) : Process := snd (step i p).

Definition run (inputs : list Input) (p : Process) : Process :=
  fold_left (fun q i => run_step i q) inputs p.

Inductive reachable (t0 : Z) : Process -> Prop :=
| reachable_init : reachable t0 (init t0)
| reachable_step i p : reachable t0 p -> reachable t0 (run_step i p).

(** *** Vocabulary of the statements *)

(** The connections a broadcast reaches: members of [clients] whose
    ready state is [OPEN], in iteration order. *)
Definition open_clients (p : Process) : list WebSocket :=
  filter (fun c => is_OPEN (readyState p c)) (clients p).

Definition is_Sent (e : Event) : bool :=
  match e with
  | Sent _ _ => true
  | _ => false
  end.

Definition is_Stringified (e : Event) : bool :=
  match e with
  | Stringified _ => true
  | _ => false
  end.

(** The messages sent to [ws], oldest first. *)
Fixpoint received (ws : WebSocket) (tr : list Event) : list JSValue :=
  match tr with
  | [] => []
  | Sent x m :: rest => if Nat.eqb x ws then m :: received ws rest else received ws rest
  | _ :: rest => received ws rest
  end.

(** Number of channels with data. *)
Definition populated (ld : LatestData) : nat :=
  List.length (filter (fun ch => JS.ToBoolean (entry ch ld)) all_channels).

(** The coercion each endpoint applies to its payload property. *)
Definition coerce (ch : Channel) (v : JSValue) : Completion JSValue :=
  match ch with
  | ClfData => number (JS.parseFloat v)
  | McData => method_map v (fun p => number (JS.parseFloat p))
  | FeedbackStatus => Normal (JBool (JS.ToBoolean v))
  | RunNumber | FeedbackNumber => number (JS.parseInt v)
  end.

(** A record [{ <payload>, rep, timestamp }] and the message
    [{ type, <payload>, rep, timestamp }] a broadcast carries for it. *)
Definition record_of (ch : Channel) (payload rep : JSValue) (timestamp : string) : JSValue :=
  JObject [(payload_field ch, payload); ("rep", rep); ("timestamp", JString timestamp)].

Definition update_of (ch : Channel) (payload rep : JSValue) (timestamp : string) : JSValue :=
  JObject [("type", JString (channel_name ch)); (payload_field ch, payload);
           ("rep", rep); ("timestamp", JString timestamp)].

(** [v.name] for a value that is neither [null] nor [undefined]. *)
Definition own_property (v : JSValue) (name : string) : JSValue :=
  match v with
  | JObject props => JS.lookup props name
  | _ => JUndefined
  end.

(** The message the connection listener builds for a populated channel. *)
Definition replay_of (ch : Channel) (record : JSValue) : JSValue :=
  JObject [("type", JString (channel_name ch));
           (payload_field ch, own_property record (payload_field ch));
           ("timestamp", own_property record "timestamp")].

(** The trace of the replay to [ws]: for each populated channel, in the
    order of the source, one serialisation and one send. *)
Definition replay_events (ws : WebSocket) (ld : LatestData) : list Event :=
  flat_map
    (fun ch =>
       if JS.ToBoolean (entry ch ld)
       then [Stringified (replay_of ch (entry ch ld));
             Sent ws (JS.JSON_stringify (replay_of ch (entry ch ld)))]
       else [])
    all_channels.

(** The object the health report shows for an entry. *)
Definition health_view (ch : Channel) (v : JSValue) : JSValue :=
  if JS.ToBoolean v
  then JObject [(payload_field ch, own_property v (payload_field ch));
                ("rep", own_property v "rep");
                ("timestamp", own_property v "timestamp")]
  else JNull.

(** Shapes of stored values.  [parseInt] yields an integer, [NaN] or an
    infinity, [parseFloat] any number, [Boolean] a boolean. *)
Definition is_number (v : JSValue) : bool :=
  match v with
  | JNumber _ => true
  | _ => false
  end.

Definition has_no_fraction (x : JSNumber) : bool :=
  match x with
  | Finite _ _ scale => (scale =? 0)%N
  | _ => true
  end.

Definition is_integer_or_not_finite (v : JSValue) : bool :=
  match v with
  | JNumber x => has_no_fraction x
  | _ => false
  end.

Definition payload_shaped (ch : Channel) (v : JSValue) : bool :=
  match ch with
  | ClfData => is_number v
  | McData =>
      match v with
      | JArray elems => forallb is_number elems
      | _ => false
      end
  | FeedbackStatus =>
      match v with
      | JBool _ => true
      | _ => false
      end
  | RunNumber | FeedbackNumber => is_integer_or_not_finite v
  end.

(** An entry of [latestData] is [null] or an object with exactly the
    properties [<payload>, rep, timestamp], in this order, of the shapes
    above. *)
Definition entry_shaped (ch : Channel) (v : JSValue) : bool :=
  match v with
  | JNull => true
  | JObject [(k1, payload); (k2, rep); (k3, JString _)] =>
      String.eqb k1 (payload_field ch) && String.eqb k2 "rep"
      && String.eqb k3 "timestamp"
      && payload_shaped ch payload && is_integer_or_not_finite rep
  | _ => false
  end.

Definition store_shaped (ld : LatestData) : bool :=
  forallb (fun ch => entry_shaped ch (entry ch ld)) all_channels.

(** [p] with [events] appended to its trace. *)
Definition append_trace (events : list Event) (p : Process) : Process :=
  mkProcess (latestData p) (clients p) (readyState p) (clock p) (trace p ++ events).

(** The trace of one call of [broadcast(data)] on [p]. *)
Definition broadcast_events (data : JSValue) (p : Process) : list Event :=
  Stringified data :: map (fun c => Sent c (JS.JSON_stringify data)) (open_clients p).

(** The test an endpoint applies to the two properties it reads before
    it answers 400. *)
Definition missing (ch : Channel) (payload rep : JSValue) : bool :=
  match ch with
  | McData =>
      negb (JS.ToBoolean payload) || negb (JS.Array_isArray payload)
      || JS.is_undefined rep
  | _ => JS.is_undefined payload || JS.is_undefined rep
  end.

Definition missing_message (ch : Channel) : string :=
  match ch with
  | McData => "Missing required fields: params (array), rep"
  | FeedbackStatus => "Missing required fields: sent (boolean), rep"
  | _ => "Missing required fields: value, rep"
  end.

Definition error_label (ch : Channel) : string :=
  match ch with
  | ClfData => "Error processing classifier data:"
  | McData => "Error processing motion correction data:"
  | FeedbackStatus => "Error processing neurofeedback status:"
  | RunNumber => "Error processing run number:"
  | FeedbackNumber => "Error processing feedback number:"
  end.

Definition acknowledgement (ch : Channel) : string :=
  match ch with
  | ClfData => "Classifier data received"
  | McData => "Motion correction data received"
  | FeedbackStatus => "Neurofeedback status received"
  | RunNumber => "Run number received"
  | FeedbackNumber => "Feedback number received"
  end.

(** The process after an accepted submission: the clock has moved to the
    time of the stamp, the entry is replaced, and the trace has grown by
    the log line, the assignment and one broadcast, in this order. *)
Definition accepted_process (ch : Channel) (line : string) (payload rep : JSValue)
    (elapsed : N) (p : Process) : Process :=
  let t := JS.toISOString (clock p + Z.of_N elapsed) in
  mkProcess (set_entry ch (record_of ch payload rep t) (latestData p))
    (clients p) (readyState p) (clock p + Z.of_N elapsed)%Z
    (trace p ++ ConsoleLog line :: Assigned ch (record_of ch payload rep t)
       :: broadcast_events (update_of ch payload rep t) p).

(** The line a POST handler logs once the request has passed the test:
    the template literal prints [rep] first, then the payload. *)
Definition log_line (ch : Channel) (v r : JSValue) : Completion string :=
  bindC (JS.ToString r) (fun rep_text =>
  bindC (match ch with
         | McData => method_join v ", "
         | _ => JS.ToString v
         end) (fun payload_text =>
  Normal
    (match ch with
     | ClfData =>
         "Received classifier data - Rep: " ++ rep_text
           ++ ", Value: " ++ payload_text
     | McData =>
         "Received motion correction data - Rep: " ++ rep_text
           ++ ", Params: [" ++ payload_text ++ "]"
     | FeedbackStatus =>
         "Received neurofeedback status - Rep: " ++ rep_text
           ++ ", Sent: " ++ payload_text
     | RunNumber =>
         "Received run number - Rep: " ++ rep_text
           ++ ", Value: " ++ payload_text
     | FeedbackNumber =>
         "Received feedback number - Rep: " ++ rep_text
           ++ ", Value: " ++ payload_text
     end))).

(** Why a POST handler lands in its [catch]: the body cannot be
    destructured, or the request passed the test and printing it threw. *)
Definition crash_cause (ch : Channel) (body : JSValue) (error : string) : Prop :=
  JS.Get body (payload_field ch) = Throw error \/
  JS.Get body "rep" = Throw error \/
  exists v r,
    JS.Get body (payload_field ch) = Normal v /\
    JS.Get body "rep" = Normal r /\
    missing ch v r = false /\
    log_line ch v r = Throw error.

(** The three ways a POST handler ends. *)
Inductive submit_result (ch : Channel) (body : JSValue) (elapsed : N) (p : Process)
  : Completion Response * Process -> Prop :=
| Rejected v r :
    JS.Get body (payload_field ch) = Normal v ->
    JS.Get body "rep" = Normal r ->
    missing ch v r = true ->
    submit_result ch body elapsed p
      (Normal (error_response 400 (missing_message ch)), p)
| Crashed error :
    crash_cause ch body error ->
    submit_result ch body elapsed p
      (Normal internal_server_error,
       append_trace [ConsoleError (error_label ch) error] p)
| Accepted v r line payload rep :
    JS.Get body (payload_field ch) = Normal v ->
    JS.Get body "rep" = Normal r ->
    missing ch v r = false ->
    log_line ch v r = Normal line ->
    coerce ch v = Normal payload ->
    number (JS.parseInt r) = Normal rep ->
    submit_result ch body elapsed p
      (Normal (success_response (acknowledgement ch)),
       accepted_process ch line payload rep elapsed p).

(** [p] with the clock moved forward. *)
Definition advance (elapsed : N) (p : Process) : Process :=
  mkProcess (latestData p) (clients p) (readyState p)
    (clock p + Z.of_N elapsed)%Z (trace p).

(** The body of the health report. *)
Definition health_report (elapsed : N) (p : Process) : JSValue :=
  JObject [("status", JString "ok");
           ("timestamp", JString (JS.toISOString (clock p + Z.of_N elapsed)));
           ("connectedClients",
            JNumber (JS.of_Z (Z.of_nat (List.length (clients p)))));
           ("latestData",
            JObject
              [("clf_data", health_view ClfData (clf_data (latestData p)));
               ("mc_data", health_view McData (mc_data (latestData p)));
               ("feedback_status",
                health_view FeedbackStatus (feedback_status (latestData p)));
               ("run_number", health_view RunNumber (run_number (latestData p)));
               ("feedback_number",
                health_view FeedbackNumber (feedback_number (latestData p)))])].

(** An entry that holds a record. *)
Definition holds_record (ch : Channel) (v : JSValue) : Prop :=
  exists payload rep t, v = record_of ch payload rep t.

Definition Channel_eq_dec (a b : Channel) : {a = b} + {a <> b}.
Proof. decide equality. Defined.

(** *** Requests and runs used as examples *)

Definition int (z : Z) : JSValue := JNumber (JS.of_Z z).

(** [{ "value": 0.75, "rep": 42 }]. *)
Definition clf_body : JSValue :=
  JObject [("value", JNumber (Finite false 75 2)); ("rep", int 42)].

(** [0.001, -0.002, 0.003, 0.0001, -0.0002]. *)
Definition five_params : list JSValue :=
  [JNumber (Finite false 1 3); JNumber (Finite true 2 3); JNumber (Finite false 3 3);
   JNumber (Finite false 1 4); JNumber (Finite true 2 4)].

(** [{ "params": [0.001, -0.002, 0.003, 0.0001, -0.0002], "rep": 42 }]. *)
Definition five_params_body : JSValue :=
  JObject [("params", JArray five_params); ("rep", int 42)].


(** [{ "value": 0, "rep": 0 }] and [{ "sent": false, "rep": 0 }]. *)
Definition zero_body : JSValue :=
  JObject [("value", int 0); ("rep", int 0)].

Definition not_sent_body : JSValue :=
  JObject [("sent", JBool false); ("rep", int 0)].

(** [{ "params": 0, "rep": 0 }] and [{ "params": [], "rep": 0 }]. *)
Definition zero_params_body : JSValue :=
  JObject [("params", int 0); ("rep", int 0)].

Definition no_params_body : JSValue :=
  JObject [("params", JArray []); ("rep", int 0)].

(** [{ "rep": 42 }] and [{ "params": "1,2,3,4,5,6", "rep": 42 }]. *)
Definition rep_only_body : JSValue := JObject [("rep", int 42)].

Definition params_string_body : JSValue :=
  JObject [("params", JString "1,2,3,4,5,6"); ("rep", int 42)].

(** 2025-08-05T21:27:29.479Z. *)
Definition t_example : Z := 1754429249479.

(** One observer is connected. *)
Definition one_observer : Process := run [Connection 1] (init t_example).

(** Two observers are connected; the second has begun to close and its
    [close] event has not fired yet. *)
Definition one_closing : Process :=
  run [Connection 1; Connection 2; Transport 2 CLOSING] (init t_example).

(** *** Vocabulary of the further properties *)

(** Values ToString can print: no object with an own [toString]
    property, at the top or inside arrays. *)
Fixpoint printable (v : JSValue) : bool :=
  match v with
  | JArray elems => forallb printable elems
  | JObject props => negb (JS.has_own_property props "toString")
  | _ => true
  end.

(** The message a POST handler builds from the entry it has just
    assigned. *)
Definition update_of_record (ch : Channel) (record : JSValue) : JSValue :=
  JObject [("type", JString (channel_name ch));
           (payload_field ch, own_property record (payload_field ch));
           ("rep", own_property record "rep");
           ("timestamp", own_property record "timestamp")].

(** Whether [ws] is connected after an input, given whether it was
    before. *)
Definition tracks (ws : WebSocket) (connected : bool) (i : Input) : bool :=
  match i with
  | Connection x => if Nat.eqb x ws then true else connected
  | SocketClose x | SocketError x _ => if Nat.eqb x ws then false else connected
  | _ => connected
  end.

Definition is_Connection_of (ws : WebSocket) (i : Input) : bool :=
  match i with
  | Connection x => Nat.eqb x ws
  | _ => false
  end.

(** A text frame of the push interface: the serialisation of an object
    whose first property is [type], one of the five channel names. *)
Definition wire_message (m : JSValue) : Prop :=
  exists ch fields text,
    m = JString text /\
    JS.JSON_stringify (JObject (("type", JString (channel_name ch)) :: fields))
    = JString text.

Definition sends_wire_messages (e : Event) : Prop :=
  match e with
  | Sent _ m => wire_message m
  | _ => True
  end.

(** The time a record was stamped at lies between the start of the
    process and now. *)
Definition stamped_between (t0 now : Z) (v : JSValue) : Prop :=
  v = JNull \/
  exists t, (t0 <= t <= now)%Z /\ own_property v "timestamp" = JString (JS.toISOString t).

(** The body of a completed response, [undefined] if the handler threw. *)
Definition json_of (c : Completion Response) : JSValue :=
  match c with
  | Normal r => json r
  | Throw _ => JUndefined
  end.

Definition is_acknowledged (c : Completion Response) : bool :=
  match c with
  | Normal r => (status r =? 200)%nat
  | Throw _ => false
  end.

Definition is_close_of (ws : WebSocket) (i : Input) : bool :=
  match i with
  | SocketClose x | SocketError x _ => Nat.eqb x ws
  | _ => false
  end.

(** The channels with data, in the order the connection listener looks
    at them. *)
Definition populated_channels (ld : LatestData) : list Channel :=
  filter (fun ch => JS.ToBoolean (entry ch ld)) all_channels.

Definition is_Post_to (ch : Channel) (i : Input) : bool :=
  match i with
  | Post ch' _ _ => if Channel_eq_dec ch' ch then true else false
  | _ => false
  end.

(** *** Vocabulary of the round trips *)

Fixpoint all_digits (s : string) : bool :=
  match s with
  | String c rest => JS.is_digit c && all_digits rest
  | EmptyString => true
  end.

(** A finite decimal in canonical form that is not negative zero: no
    trailing zero after the point. *)
Definition canonical (x : JSNumber) : bool :=
  match x with
  | Finite neg m scale =>
      if (m =? 0)%N then negb neg && (scale =? 0)%N
      else (scale =? 0)%N || negb (m mod 10 =? 0)%N
  | _ => false
  end.

(** An integer Number below 10^21 in absolute value, the range in which
    JavaScript prints a number without an exponent; not negative zero. *)
Definition plain_integer (v : JSValue) : bool :=
  match v with
  | JNumber (Finite neg m scale) =>
      (scale =? 0)%N && (m <? 10 ^ 21)%N && negb (neg && (m =? 0)%N)
      && JS.is_double (Finite neg m scale)
  | _ => false
  end.

(** A string at which a run of digits stops. *)
Definition stops (s : string) : bool :=
  match s with
  | String c _ => negb (JS.is_digit c)
  | EmptyString => true
  end.


(** The exponent part printed for [e], if any, and what it reads as. *)
Definition exponent_text (e : option Z) : string :=
  match e with
  | None => ""
  | Some z => "e" ++ (if (z <? 0)%Z then "-" else "+") ++ JS.string_of_N (Z.abs_N z)
  end.

Definition exponent_value (e : option Z) : Z :=
  match e with
  | None => 0
  | Some z => z
  end.

(** The numbers a JSON text can denote, negative zero apart: the finite
    Number values. *)
Definition is_canonical_number (v : JSValue) : bool :=
  match v with
  | JNumber x => canonical x && JS.is_double x
  | _ => false
  end.

(** A payload of the type the README gives for the channel: a number, an
    array of numbers (of any length), a boolean, an integer (below 10^21
    in absolute value). *)
Definition well_typed (ch : Channel) (v : JSValue) : bool :=
  match ch with
  | ClfData => is_canonical_number v
  | McData =>
      match v with
      | JArray elems => forallb is_canonical_number elems
      | _ => false
      end
  | FeedbackStatus =>
      match v with
      | JBool _ => true
      | _ => false
      end
  | RunNumber | FeedbackNumber => plain_integer v
  end.

(* ===================================================================== *)
(** ** The three-channel server: [server.js] at the root *)
(* ===================================================================== *)

(** The copy of the server at the root of the repository has the same
    listeners and the same three POST handlers over a [latestData] with
    three entries; it has no [/run_number] and no [/feedback_number]. *)
Module Legacy.

Record LatestData : Type := mkLatestData {
  clf_data : JSValue;
  mc_data : JSValue;
  feedback_status : JSValue
}.

(** The object [res.json(latestData)] serialises. *)
Definition latestData_object (ld : LatestData) : JSValue :=
  JObject [("clf_data", clf_data ld); ("mc_data", mc_data ld);
           ("feedback_status", feedback_status ld)].

Record Process : Type := mkProcess {
  latestData : LatestData;
  clients : list WebSocket;
  readyState : WebSocket -> ReadyState;
  clock : Z;
  trace : list Event
}.

Definition Handler (A : Type) : Type := Process -> Completion A * Process.

Definition ret {A} (a : A) : Handler A := fun p => (Normal a, p).

Definition bind {A B} (m : Handler A) (k : A -> Handler B) : Handler B :=
  fun p =>
    match m p with
    | (Normal a, p') => k a p'
    | (Throw e, p') => (Throw e, p')
    end.

Declare Scope legacy_scope.
Delimit Scope legacy_scope with legacy.
Notation "x <- m ;; k" := (bind m (fun x => k))
  (at level 61, m at next level, right associativity) : legacy_scope.
Notation "m ;; k" := (bind m (fun _ => k))
  (at level 61, right associativity) : legacy_scope.
Open Scope legacy_scope.

Definition lift {A} (c : Completion A) : Handler A := fun p => (c, p).

Definition try_catch {A} (body : Handler A) (on_error : string -> Handler A) : Handler A :=
  fun p =>
    match body p with
    | (Normal a, p') => (Normal a, p')
    | (Throw e, p') => on_error e p'
    end.

Definition emit (e : Event) : Handler unit :=
  fun p => (Normal tt,
            mkProcess (latestData p) (clients p) (readyState p) (clock p) (trace p ++ [e])).

Definition read_latestData : Handler LatestData := fun p => (Normal (latestData p), p).

Definition read_clients : Handler (list WebSocket) := fun p => (Normal (clients p), p).

Definition clients_size : Handler JSValue :=
  fun p => (Normal (JNumber (JS.of_Z (Z.of_nat (List.length (clients p))))), p).

Definition read_readyState (ws : WebSocket) : Handler ReadyState :=
  fun p => (Normal (readyState p ws), p).

(** [latestData.clf_data = record] and its two siblings. *)
Definition assign_clf_data (record : JSValue) : Handler unit :=
  fun p => (Normal tt,
            mkProcess (mkLatestData record (mc_data (latestData p))
                         (feedback_status (latestData p)))
              (clients p) (readyState p) (clock p)
              (trace p ++ [Assigned ClfData record])).

Definition assign_mc_data (record : JSValue) : Handler unit :=
  fun p => (Normal tt,
            mkProcess (mkLatestData (clf_data (latestData p)) record
                         (feedback_status (latestData p)))
              (clients p) (readyState p) (clock p)
              (trace p ++ [Assigned McData record])).

Definition assign_feedback_status (record : JSValue) : Handler unit :=
  fun p => (Normal tt,
            mkProcess (mkLatestData (clf_data (latestData p)) (mc_data (latestData p))
                         record)
              (clients p) (readyState p) (clock p)
              (trace p ++ [Assigned FeedbackStatus record])).

Definition console_log (line : string) : Handler unit := emit (ConsoleLog line).

Definition console_error (label error : string) : Handler unit :=
  emit (ConsoleError label error).

Definition stringify (data : JSValue) : Handler JSValue :=
  emit (Stringified data) ;; ret (JS.JSON_stringify data).

Definition send (ws : WebSocket) (message : JSValue) : Handler unit :=
  emit (Sent ws message).

Definition new_Date_toISOString (elapsed : N) : Handler string :=
  fun p =>
    let now := (clock p + Z.of_N elapsed)%Z in
    (Normal (JS.toISOString now),
     mkProcess (latestData p) (clients p) (readyState p) now (trace p)).

Definition clients_add (ws : WebSocket) : Handler unit :=
  fun p => (Normal tt,
            mkProcess (latestData p) (Set_add ws (clients p)) (readyState p)
              (clock p) (trace p)).

Definition clients_delete (ws : WebSocket) : Handler unit :=
  fun p => (Normal tt,
            mkProcess (latestData p) (Set_delete ws (clients p)) (readyState p)
              (clock p) (trace p)).

Fixpoint forEach (s : list WebSocket) (f : WebSocket -> Handler unit) : Handler unit :=
  match s with
  | [] => ret tt
  | x :: rest => f x ;; forEach rest f
  end.

(** [function broadcast(data)]. *)
Definition broadcast (data : JSValue) : Handler unit :=
  message <- stringify data ;;
  members <- read_clients ;;
  forEach members (fun client =>
    state <- read_readyState client ;;
    if is_OPEN state then send client message else ret tt).

(** [wss.on('connection', (ws) => ...)]. *)
Definition on_connection (ws : WebSocket) : Handler unit :=
  console_log "New WebSocket client connected" ;;
  clients_add ws ;;
  (ld <- read_latestData ;;
   if JS.ToBoolean (clf_data ld) then
     value <- lift (JS.Get (clf_data ld) "value") ;;
     timestamp <- lift (JS.Get (clf_data ld) "timestamp") ;;
     message <- stringify (JObject [("type", JString "clf_data");
                                    ("value", value); ("timestamp", timestamp)]) ;;
     send ws message
   else ret tt) ;;
  (ld <- read_latestData ;;
   if JS.ToBoolean (mc_data ld) then
     params <- lift (JS.Get (mc_data ld) "params") ;;
     timestamp <- lift (JS.Get (mc_data ld) "timestamp") ;;
     message <- stringify (JObject [("type", JString "mc_data");
                                    ("params", params); ("timestamp", timestamp)]) ;;
     send ws message
   else ret tt) ;;
  (ld <- read_latestData ;;
   if JS.ToBoolean (feedback_status ld) then
     sent <- lift (JS.Get (feedback_status ld) "sent") ;;
     timestamp <- lift (JS.Get (feedback_status ld) "timestamp") ;;
     message <- stringify (JObject [("type", JString "feedback_status");
                                    ("sent", sent); ("timestamp", timestamp)]) ;;
     send ws message
   else ret tt).

Definition on_close (ws : WebSocket) : Handler unit :=
  console_log "WebSocket client disconnected" ;;
  clients_delete ws.

Definition on_error (ws : WebSocket) (error : string) : Handler unit :=
  console_error "WebSocket error:" error ;;
  clients_delete ws.

(** [app.post('/clf_data', ...)]. *)
Definition post_clf_data (body : JSValue) (elapsed : N) : Handler Response :=
  try_catch
    (value <- lift (JS.Get body "value") ;;
     rep <- lift (JS.Get body "rep") ;;
     if JS.is_undefined value || JS.is_undefined rep then
       ret (error_response 400 "Missing required fields: value, rep")
     else
       rep_text <- lift (JS.ToString rep) ;;
       value_text <- lift (JS.ToString value) ;;
       console_log ("Received classifier data - Rep: " ++ rep_text
                      ++ ", Value: " ++ value_text) ;;
       v <- lift (number (JS.parseFloat value)) ;;
       r <- lift (number (JS.parseInt rep)) ;;
       t <- new_Date_toISOString elapsed ;;
       assign_clf_data (JObject [("value", v); ("rep", r); ("timestamp", JString t)]) ;;
       ld <- read_latestData ;;
       value' <- lift (JS.Get (clf_data ld) "value") ;;
       rep' <- lift (JS.Get (clf_data ld) "rep") ;;
       timestamp' <- lift (JS.Get (clf_data ld) "timestamp") ;;
       broadcast (JObject [("type", JString "clf_data"); ("value", value');
                           ("rep", rep'); ("timestamp", timestamp')]) ;;
       ret (success_response "Classifier data received"))
    (fun error =>
       console_error "Error processing classifier data:" error ;;
       ret internal_server_error).

(** [app.post('/mc_data', ...)]. *)
Definition post_mc_data (body : JSValue) (elapsed : N) : Handler Response :=
  try_catch
    (params <- lift (JS.Get body "params") ;;
     rep <- lift (JS.Get body "rep") ;;
     if negb (JS.ToBoolean params) || negb (JS.Array_isArray params)
        || JS.is_undefined rep then
       ret (error_response 400 "Missing required fields: params (array), rep")
     else
       rep_text <- lift (JS.ToString rep) ;;
       params_text <- lift (method_join params ", ") ;;
       console_log ("Received motion correction data - Rep: " ++ rep_text
                      ++ ", Params: [" ++ params_text ++ "]") ;;
       ps <- lift (method_map params (fun p => number (JS.parseFloat p))) ;;
       r <- lift (number (JS.parseInt rep)) ;;
       t <- new_Date_toISOString elapsed ;;
       assign_mc_data (JObject [("params", ps); ("rep", r); ("timestamp", JString t)]) ;;
       ld <- read_latestData ;;
       params' <- lift (JS.Get (mc_data ld) "params") ;;
       rep' <- lift (JS.Get (mc_data ld) "rep") ;;
       timestamp' <- lift (JS.Get (mc_data ld) "timestamp") ;;
       broadcast (JObject [("type", JString "mc_data"); ("params", params');
                           ("rep", rep'); ("timestamp", timestamp')]) ;;
       ret (success_response "Motion correction data received"))
    (fun error =>
       console_error "Error processing motion correction data:" error ;;
       ret internal_server_error).

(** [app.post('/feedback_status', ...)]. *)
Definition post_feedback_status (body : JSValue) (elapsed : N) : Handler Response :=
  try_catch
    (sent <- lift (JS.Get body "sent") ;;
     rep <- lift (JS.Get body "rep") ;;
     if JS.is_undefined sent || JS.is_undefined rep then
       ret (error_response 400 "Missing required fields: sent (boolean), rep")
     else
       rep_text <- lift (JS.ToString rep) ;;
       sent_text <- lift (JS.ToString sent) ;;
       console_log ("Received neurofeedback status - Rep: " ++ rep_text
                      ++ ", Sent: " ++ sent_text) ;;
       r <- lift (number (JS.parseInt rep)) ;;
       t <- new_Date_toISOString elapsed ;;
       assign_feedback_status (JObject [("sent", JBool (JS.ToBoolean sent)); ("rep", r);
                                        ("timestamp", JString t)]) ;;
       ld <- read_latestData ;;
       sent' <- lift (JS.Get (feedback_status ld) "sent") ;;
       rep' <- lift (JS.Get (feedback_status ld) "rep") ;;
       timestamp' <- lift (JS.Get (feedback_status ld) "timestamp") ;;
       broadcast (JObject [("type", JString "feedback_status"); ("sent", sent');
                           ("rep", rep'); ("timestamp", timestamp')]) ;;
       ret (success_response "Neurofeedback status received"))
    (fun error =>
       console_error "Error processing neurofeedback status:" error ;;
       ret internal_server_error).

(** [app.get('/api/latest-data', ...)]. *)
Definition get_latest_data : Handler Response :=
  ld <- read_latestData ;;
  ret (mkResponse 200 (latestData_object ld)).

(** One entry of the health report. *)
Definition health_entry (v : JSValue) (field : string) : Handler JSValue :=
  if JS.ToBoolean v then
    payload <- lift (JS.Get v field) ;;
    rep <- lift (JS.Get v "rep") ;;
    timestamp <- lift (JS.Get v "timestamp") ;;
    ret (JObject [(field, payload); ("rep", rep); ("timestamp", timestamp)])
  else ret JNull.

(** [app.get('/health', ...)]. *)
Definition get_health (elapsed : N) : Handler Response :=
  timestamp <- new_Date_toISOString elapsed ;;
  connectedClients <- clients_size ;;
  ld <- read_latestData ;;
  clf <- health_entry (clf_data ld) "value" ;;
  mc <- health_entry (mc_data ld) "params" ;;
  fs <- health_entry (feedback_status ld) "sent" ;;
  ret (mkResponse 200
         (JObject [("status", JString "ok");
                   ("timestamp", JString timestamp);
                   ("connectedClients", connectedClients);
                   ("latestData",
                    JObject [("clf_data", clf); ("mc_data", mc);
                             ("feedback_status", fs)])])).

(** What can happen to the three-channel process. *)
Inductive Input : Type :=
| Connection (ws : WebSocket)
| SocketClose (ws : WebSocket)
| SocketError (ws : WebSocket) (error : string)
| PostClfData (body : JSValue) (elapsed : N)
| PostMcData (body : JSValue) (elapsed : N)
| PostFeedbackStatus (body : JSValue) (elapsed : N)
| GetLatestData
| GetHealth (elapsed : N)
| Transport (ws : WebSocket) (state : ReadyState)
| Tick (elapsed : N).

Definition set_readyState (ws : WebSocket) (state : ReadyState) : Handler unit :=
  fun p => (Normal tt,
            mkProcess (latestData p) (clients p)
              (fun x => if Nat.eqb x ws then state else readyState p x)
              (clock p) (trace p)).

Definition tick (elapsed : N) : Handler unit :=
  fun p => (Normal tt,
            mkProcess (latestData p) (clients p) (readyState p)
              (clock p + Z.of_N elapsed)%Z (trace p)).

Definition respond (h : Handler Response) : Handler (option Response) :=
  r <- h ;; ret (Some r).

Definition silently (h : Handler unit) : Handler (option Response) :=
  h ;; ret None.

Definition step (i : Input) : Handler (option Response) :=
  match i with
  | Connection ws => silently (set_readyState ws OPEN ;; on_connection ws)
  | SocketClose ws => silently (on_close ws)
  | SocketError ws error => silently (on_error ws error)
  | PostClfData body elapsed => respond (post_clf_data body elapsed)
  | PostMcData body elapsed => respond (post_mc_data body elapsed)
  | PostFeedbackStatus body elapsed => respond (post_feedback_status body elapsed)
  | GetLatestData => respond get_latest_data
  | GetHealth elapsed => respond (get_health elapsed)
  | Transport ws state => silently (set_readyState ws state)
  | Tick elapsed => silently (tick elapsed)
  end.

Definition init (t0 : Z) : Process :=
  mkProcess (mkLatestData JNull JNull JNull) [] (fun _ => CONNECTING) t0 [].

Definition run_step (i : Input) (p : Process) : Process := snd (step i p).

Definition run (inputs : list Input) (p : Process) : Process :=
  fold_left (fun q i => run_step i q) inputs p.

End Legacy.

(** The five-channel process that has the entries of a three-channel
    one and nothing in the two channels added since. *)
Definition upgrade (q : Legacy.Process) : Process :=
  mkProcess
    (mkLatestData (Legacy.clf_data (Legacy.latestData q))
       (Legacy.mc_data (Legacy.latestData q))
       (Legacy.feedback_status (Legacy.latestData q)) JNull JNull)
    (Legacy.clients q) (Legacy.readyState q) (Legacy.clock q) (Legacy.trace q).

(** The same input, addressed to the five-channel server. *)
Definition upgrade_input (i : Legacy.Input) : Input :=
  match i with
  | Legacy.Connection ws => Connection ws
  | Legacy.SocketClose ws => SocketClose ws
  | Legacy.SocketError ws error => SocketError ws error
  | Legacy.PostClfData body elapsed => Post ClfData body elapsed
  | Legacy.PostMcData body elapsed => Post McData body elapsed
  | Legacy.PostFeedbackStatus body elapsed => Post FeedbackStatus body elapsed
  | Legacy.GetLatestData => GetLatestData
  | Legacy.GetHealth elapsed => GetHealth elapsed
  | Legacy.Transport ws state => Transport ws state
  | Legacy.Tick elapsed => Tick elapsed
  end.

(** The two entries the five-channel reads add to an object of three. *)
Definition with_new_channels (v : JSValue) : JSValue :=
  match v with
  | JObject props => JObject (props ++ [("run_number", JNull); ("feedback_number", JNull)])
  | _ => v
  end.

(** [q] with [events] appended to its trace. *)
Definition legacy_append_trace (events : list Event) (q : Legacy.Process) : Legacy.Process :=
  Legacy.mkProcess (Legacy.latestData q) (Legacy.clients q) (Legacy.readyState q)
    (Legacy.clock q) (Legacy.trace q ++ events).

(** The response of a step, [None] when it has none or threw. *)
Definition response_of (c : Completion (option Response)) : option Response :=
  match c with
  | Normal r => r
  | Throw _ => None
  end.

Definition is_read (i : Legacy.Input) : bool :=
  match i with
  | Legacy.GetLatestData | Legacy.GetHealth _ => true
  | _ => false
  end.

(** The same two entries, added under [latestData] in a health report. *)
Definition with_new_channels_in_health (v : JSValue) : JSValue :=
  match v with
  | JObject props =>
      JObject (map (fun kv => if String.eqb (fst kv) "latestData"
                              then (fst kv, with_new_channels (snd kv)) else kv) props)
  | _ => v
  end.

(* ===================================================================== *)
(** ** How the handlers run *)
(* ===================================================================== *)

(** *** The JavaScript fragment on concrete values *)

Example parseFloat_of_a_word : JS.parseFloat (JString "abc") = Normal NaN.
Proof. reflexivity. Qed.

Example parseFloat_of_a_number :
  JS.parseFloat (JNumber (Finite false 75 2)) = Normal (Finite false 75 2).
Proof. reflexivity. Qed.

Example parseFloat_reads_a_prefix :
  JS.parseFloat (JString "  -12.50e1 mm") = Normal (Finite true 125 0).
Proof. reflexivity. Qed.

Example parseFloat_of_null : JS.parseFloat JNull = Normal NaN.
Proof. reflexivity. Qed.

Example parseInt_truncates :
  JS.parseInt (JNumber (Finite false 427 1)) = Normal (Finite false 42 0).
Proof. reflexivity. Qed.

Example parseInt_of_a_small_number :
  JS.Number_toString (Finite false 5 7) = "5e-7"
  /\ JS.parseInt (JNumber (Finite false 5 7)) = Normal (Finite false 5 0).
Proof. split; reflexivity. Qed.

Example parseInt_of_hexadecimal : JS.parseInt (JString "0x1F") = Normal (Finite false 31 0).
Proof. reflexivity. Qed.

Example parseInt_of_a_boolean : JS.parseInt (JBool true) = Normal NaN.
Proof. reflexivity. Qed.

Example parseInt_rounds_to_a_double :
  JS.parseInt (JString "9007199254740993") = Normal (Finite false 9007199254740992 0)
  /\ JS.parseInt (JString "9007199254740995") = Normal (Finite false 9007199254740996 0).
Proof. vm_compute. split; reflexivity. Qed.

Example parseInt_of_four_hundred_digits :
  JS.parseInt (JString (JS.repeat_char "9" 400)) = Normal (Infinity false)
  /\ JS.parseInt (JString (String "-" (JS.repeat_char "9" 400))) = Normal (Infinity true).
Proof. vm_compute. split; reflexivity. Qed.

Example parseInt_of_a_large_number :
  JS.Number_toString (Finite false (10 ^ 21) 0) = "1e+21"
  /\ JS.parseInt (JNumber (Finite false (10 ^ 21) 0)) = Normal (Finite false 1 0).
Proof. vm_compute. split; reflexivity. Qed.

Example parseFloat_rounds_to_a_double :
  JS.parseFloat (JString "0.1000000000000000055511151231257827")
  = Normal (Finite false 1 1)
  /\ JS.parseFloat (JString "0.30000000000000004")
     = Normal (Finite false 30000000000000004 17)
  /\ JS.parseFloat (JString "123456789012345678901234567890")
     = Normal (Finite false 123456789012345680000000000000 0).
Proof. vm_compute. repeat apply conj; reflexivity. Qed.

Example parseFloat_overflows_and_underflows :
  JS.parseFloat (JString "1e400") = Normal (Infinity false)
  /\ JS.parseFloat (JString "-1e400") = Normal (Infinity true)
  /\ JS.parseFloat (JString "1e-400") = Normal (Finite false 0 0)
  /\ JS.parseFloat (JString "-1e-400") = Normal (Finite true 0 0)
  /\ JS.parseFloat (JString "1.7976931348623159e308") = Normal (Infinity false)
  /\ JS.parseFloat (JString "2e-324") = Normal (Finite false 0 0).
Proof. vm_compute. repeat apply conj; reflexivity. Qed.

(** U+00A0, U+2003 and U+FEFF in front of a number are skipped. *)
Example leading_white_space_is_skipped :
  let nbsp := String (ascii_of_nat 194) (String (ascii_of_nat 160) "") in
  let em_space :=
    String (ascii_of_nat 226) (String (ascii_of_nat 128) (String (ascii_of_nat 131) "")) in
  let bom :=
    String (ascii_of_nat 239) (String (ascii_of_nat 187) (String (ascii_of_nat 191) "")) in
  JS.parseFloat (JString (nbsp ++ " " ++ bom ++ "7.5")) = Normal (Finite false 75 1)
  /\ JS.parseInt (JString (em_space ++ "8")) = Normal (Finite false 8 0).
Proof. vm_compute. split; reflexivity. Qed.

Example is_double_of_some_decimals :
  JS.is_double (Finite false 1 1) = true
  /\ JS.is_double (Finite true 2 4) = true
  /\ JS.is_double (Finite false 9007199254740992 0) = true
  /\ JS.is_double (Finite false 9007199254740993 0) = false
  /\ JS.is_double (Finite false 10000000000000000055511151231257827 35) = false
  /\ JS.is_double (Finite false 1 400) = false.
Proof. vm_compute. repeat apply conj; reflexivity. Qed.

Example ToString_of_an_array :
  JS.ToString (JArray [int 4; JNull; JArray [int 1; int 2]; JObject []])
  = Normal "4,,1,2,[object Object]".
Proof. reflexivity. Qed.

Example ToString_of_an_object_with_toString :
  JS.ToString (JObject [("toString", int 1)]) = Throw TypeError.
Proof. reflexivity. Qed.

Example stringify_of_NaN :
  JS.JSON_stringify (JArray [JNumber NaN; JUndefined; int 1; JNumber (Finite false 75 2)])
  = JString "[null,null,1,0.75]".
Proof. reflexivity. Qed.

(** A control character and an unpaired surrogate (U+D83D) are escaped,
    other characters (U+00E9, U+2028) are not. *)
Example stringify_of_a_string :
  let e_acute := String (ascii_of_nat 195) (String (ascii_of_nat 169) "") in
  let line_separator :=
    String (ascii_of_nat 226) (String (ascii_of_nat 128) (String (ascii_of_nat 168) "")) in
  let lone :=
    String (ascii_of_nat 237) (String (ascii_of_nat 160) (String (ascii_of_nat 189) "")) in
  JS.QuoteJSONString (String (ascii_of_nat 10) ("a" ++ e_acute ++ line_separator ++ lone))
  = String JS.quote_char
      (String JS.backslash_char ("na" ++ e_acute ++ line_separator
         ++ String JS.backslash_char ("ud83d" ++ String JS.quote_char ""))).
Proof. vm_compute. reflexivity. Qed.

Example toISOString_of_t_example :
  JS.toISOString t_example = "2025-08-05T21:27:29.479Z"
  /\ JS.toISOString 0 = "1970-01-01T00:00:00.000Z"
  /\ JS.toISOString (-1) = "1969-12-31T23:59:59.999Z"
  /\ JS.toISOString 951782400000 = "2000-02-29T00:00:00.000Z".
Proof. repeat split; reflexivity. Qed.

(** *** Sequencing *)

(** A computation that completes normally hands its result on. *)
Lemma bind_normal {A B} (m : Handler A) (k : A -> Handler B) p a p' :
  m p = (Normal a, p') -> bind m k p = k a p'.
Proof. intros H. unfold bind. now rewrite H. Qed.

Lemma append_trace_nil p : append_trace [] p = p.
Proof. destruct p. unfold append_trace. cbn. now rewrite app_nil_r. Qed.

Lemma append_trace_app e1 e2 p :
  append_trace e2 (append_trace e1 p) = append_trace (e1 ++ e2) p.
Proof. unfold append_trace. cbn. now rewrite app_assoc. Qed.

(** [forEach] with a callback that sends [message] to the open sockets
    and does nothing for the others. *)
Lemma forEach_send (f : WebSocket -> Handler unit) message :
  (forall c p, f c p = (Normal tt,
                        if is_OPEN (readyState p c)
                        then append_trace [Sent c message] p else p)) ->
  forall l p,
    forEach l f p
    = (Normal tt,
       append_trace
         (map (fun c => Sent c message)
            (filter (fun c => is_OPEN (readyState p c)) l)) p).
Proof.
  intros Hf. induction l as [|c l IH]; intros p.
  - cbn. now rewrite append_trace_nil.
  - cbn [forEach filter].
    rewrite (bind_normal _ _ _ _ _ (Hf c p)).
    rewrite IH.
    destruct (is_OPEN (readyState p c)); [|reflexivity].
    now rewrite append_trace_app.
Qed.

(** [broadcast] never throws; all it does is extend the trace. *)
Lemma broadcast_spec data p :
  broadcast data p = (Normal tt, append_trace (broadcast_events data p) p).
Proof.
  unfold broadcast, stringify.
  rewrite (bind_normal _ _ p (JS.JSON_stringify data) (append_trace [Stringified data] p))
    by reflexivity.
  rewrite (bind_normal _ _ _ (clients p) (append_trace [Stringified data] p))
    by reflexivity.
  rewrite (forEach_send _ (JS.JSON_stringify data)).
  - now rewrite append_trace_app.
  - intros c q. unfold bind, read_readyState.
    destruct (is_OPEN (readyState q c)); reflexivity.
Qed.

(** Unfolds the sequencing of a POST handler down to the calls that
    decide how it ends. *)
Ltac unfold_handler :=
  cbv beta iota zeta delta
    [bind lift ret try_catch console_log console_error emit assign
     read_latestData new_Date_toISOString
     latestData clients readyState clock trace
     set_entry entry clf_data mc_data feedback_status run_number feedback_number].

Lemma parseFloat_ToString v s :
  JS.ToString v = Normal s ->
  number (JS.parseFloat v) = Normal (JNumber (JS.parse_decimal_prefix (JS.trim_start s))).
Proof. intros H. unfold number, JS.parseFloat. now rewrite H. Qed.

Lemma parseInt_ToString v s :
  JS.ToString v = Normal s ->
  number (JS.parseInt v) = Normal (JNumber (JS.parse_int_prefix (JS.trim_start s))).
Proof. intros H. unfold number, JS.parseInt. now rewrite H. Qed.

(** Every element [join] could print, [parseFloat] can read. *)
Lemma join_then_map elems : forall sep s,
  JS.Array_join elems sep = Normal s ->
  exists ys, mapC (fun p => number (JS.parseFloat p)) elems = Normal ys.
Proof.
  unfold JS.Array_join.
  induction elems as [|x rest IH]; intros sep s H.
  - now exists [].
  - cbn [JS.join_elements] in H. cbn [mapC].
    assert (Hx : exists y, number (JS.parseFloat x) = Normal y).
    { destruct x; try (eexists; reflexivity);
        unfold number, JS.parseFloat;
        match goal with
        | |- context [JS.ToString ?x] =>
            destruct (JS.ToString x); [eexists; reflexivity|discriminate]
        end. }
    destruct Hx as [y Hy]. rewrite Hy. cbn [bindC].
    assert (Hrest : exists ys, mapC (fun p => number (JS.parseFloat p)) rest = Normal ys).
    { destruct rest as [|x' rest']; [now exists []|].
      destruct (match x with JUndefined | JNull => Normal "" | _ => JS.ToString x end);
        [|discriminate].
      cbn [bindC] in H.
      destruct (JS.join_elements JS.ToString sep (x' :: rest')) eqn:E; [|discriminate].
      eapply IH. exact E. }
    destruct Hrest as [ys Hys]. rewrite Hys. now eexists.
Qed.

(** Reads the properties of a record that was just built. *)
Ltac compute_gets := cbn [JS.Get JS.lookup String.eqb Ascii.eqb Bool.eqb].

(** Closes a branch that ended in the [catch] of the handler of [ch]. *)
Ltac crash ch :=
  apply (Crashed ch); unfold crash_cause, log_line; cbn [payload_field];
  first
    [ now left
    | now (right; left)
    | right; right; do 2 eexists;
      repeat (split; [eassumption|]);
      repeat match goal with
             | H : _ = Normal _ |- _ => rewrite H
             | H : _ = Throw _ |- _ => rewrite H
             end; reflexivity ].

(** Closes the branch in which the handler of [ch] acknowledged. *)
Ltac accept ch :=
  compute_gets; rewrite broadcast_spec;
  unfold append_trace, broadcast_events, open_clients, accepted_process;
  cbn [latestData clients readyState clock trace];
  rewrite <- !app_assoc; cbn [app];
  eapply (Accepted ch); eauto using parseFloat_ToString, parseInt_ToString;
  try (unfold log_line;
       repeat match goal with
              | H : _ = Normal _ |- _ => rewrite H
              end; reflexivity).

(** Each POST handler ends in one of the three ways of
    [submit_result]. *)
Lemma post_clf_data_cases body elapsed p :
  submit_result ClfData body elapsed p (post_clf_data body elapsed p).
Proof.
  destruct p as [[e1 e2 e3 e4 e5] cl rs ck tr].
  unfold post_clf_data. unfold_handler.
  destruct (JS.Get body "value") as [v|e] eqn:Hv; [|crash ClfData].
  destruct (JS.Get body "rep") as [r|e] eqn:Hr; [|crash ClfData].
  destruct (JS.is_undefined v || JS.is_undefined r) eqn:Hm.
  { eapply (Rejected ClfData); eauto. }
  destruct (JS.ToString r) as [rt|e] eqn:Hrt; [|crash ClfData].
  destruct (JS.ToString v) as [vt|e] eqn:Hvt; [|crash ClfData].
  rewrite (parseFloat_ToString _ _ Hvt), (parseInt_ToString _ _ Hrt).
  accept ClfData.
Qed.

Lemma post_run_number_cases body elapsed p :
  submit_result RunNumber body elapsed p (post_run_number body elapsed p).
Proof.
  destruct p as [[e1 e2 e3 e4 e5] cl rs ck tr].
  unfold post_run_number. unfold_handler.
  destruct (JS.Get body "value") as [v|e] eqn:Hv; [|crash RunNumber].
  destruct (JS.Get body "rep") as [r|e] eqn:Hr; [|crash RunNumber].
  destruct (JS.is_undefined v || JS.is_undefined r) eqn:Hm.
  { eapply (Rejected RunNumber); eauto. }
  destruct (JS.ToString r) as [rt|e] eqn:Hrt; [|crash RunNumber].
  destruct (JS.ToString v) as [vt|e] eqn:Hvt; [|crash RunNumber].
  rewrite (parseInt_ToString _ _ Hvt), (parseInt_ToString _ _ Hrt).
  accept RunNumber.
Qed.

Lemma post_feedback_number_cases body elapsed p :
  submit_result FeedbackNumber body elapsed p (post_feedback_number body elapsed p).
Proof.
  destruct p as [[e1 e2 e3 e4 e5] cl rs ck tr].
  unfold post_feedback_number. unfold_handler.
  destruct (JS.Get body "value") as [v|e] eqn:Hv; [|crash FeedbackNumber].
  destruct (JS.Get body "rep") as [r|e] eqn:Hr; [|crash FeedbackNumber].
  destruct (JS.is_undefined v || JS.is_undefined r) eqn:Hm.
  { eapply (Rejected FeedbackNumber); eauto. }
  destruct (JS.ToString r) as [rt|e] eqn:Hrt; [|crash FeedbackNumber].
  destruct (JS.ToString v) as [vt|e] eqn:Hvt; [|crash FeedbackNumber].
  rewrite (parseInt_ToString _ _ Hvt), (parseInt_ToString _ _ Hrt).
  accept FeedbackNumber.
Qed.

Lemma post_feedback_status_cases body elapsed p :
  submit_result FeedbackStatus body elapsed p (post_feedback_status body elapsed p).
Proof.
  destruct p as [[e1 e2 e3 e4 e5] cl rs ck tr].
  unfold post_feedback_status. unfold_handler.
  destruct (JS.Get body "sent") as [v|e] eqn:Hv; [|crash FeedbackStatus].
  destruct (JS.Get body "rep") as [r|e] eqn:Hr; [|crash FeedbackStatus].
  destruct (JS.is_undefined v || JS.is_undefined r) eqn:Hm.
  { eapply (Rejected FeedbackStatus); eauto. }
  destruct (JS.ToString r) as [rt|e] eqn:Hrt; [|crash FeedbackStatus].
  destruct (JS.ToString v) as [vt|e] eqn:Hvt; [|crash FeedbackStatus].
  rewrite (parseInt_ToString _ _ Hrt).
  accept FeedbackStatus.
Qed.

Lemma post_mc_data_cases body elapsed p :
  submit_result McData body elapsed p (post_mc_data body elapsed p).
Proof.
  destruct p as [[e1 e2 e3 e4 e5] cl rs ck tr].
  unfold post_mc_data. unfold_handler.
  destruct (JS.Get body "params") as [v|e] eqn:Hv; [|crash McData].
  destruct (JS.Get body "rep") as [r|e] eqn:Hr; [|crash McData].
  destruct (negb (JS.ToBoolean v) || negb (JS.Array_isArray v) || JS.is_undefined r) eqn:Hm.
  { eapply (Rejected McData); eauto. }
  destruct (JS.ToString r) as [rt|e] eqn:Hrt; [|crash McData].
  destruct (method_join v ", ") as [pt|e] eqn:Hpt; [|crash McData].
  destruct v as [| | | | |elems|]; try discriminate Hpt.
  destruct (join_then_map elems ", " pt Hpt) as [ys Hys].
  cbn [method_map]. rewrite Hys, (parseInt_ToString _ _ Hrt). cbn [bindC].
  accept McData.
  cbn [coerce method_map]. now rewrite Hys.
Qed.

Lemma submit_cases ch body elapsed p :
  submit_result ch body elapsed p (submit ch body elapsed p).
Proof.
  destruct ch; cbn [submit].
  - apply post_clf_data_cases.
  - apply post_mc_data_cases.
  - apply post_feedback_status_cases.
  - apply post_run_number_cases.
  - apply post_feedback_number_cases.
Qed.

(** *** The connection listener and the reads *)

Lemma Get_truthy v name :
  JS.ToBoolean v = true -> JS.Get v name = Normal (own_property v name).
Proof. destruct v; cbn; intros H; try discriminate; reflexivity. Qed.

(** Unfolds the sequencing of the connection listener. *)
Ltac unfold_listener :=
  cbv beta iota zeta delta
    [bind lift ret console_log emit stringify send clients_add read_latestData
     latestData clients readyState clock trace
     entry clf_data mc_data feedback_status run_number feedback_number].

(** Splits on the truthiness of an entry; a truthy one can be read. *)
Ltac split_truthy e :=
  let H := fresh "H" in
  destruct (JS.ToBoolean e) eqn:H; [rewrite ?(Get_truthy e) by exact H|].

Lemma on_connection_spec ws p :
  on_connection ws p
  = (Normal tt,
     mkProcess (latestData p) (Set_add ws (clients p)) (readyState p) (clock p)
       (trace p ++ ConsoleLog "New WebSocket client connected"
          :: replay_events ws (latestData p))).
Proof.
  destruct p as [[e1 e2 e3 e4 e5] cl rs ck tr].
  unfold on_connection, replay_events, replay_of.
  cbn [flat_map all_channels entry clf_data mc_data feedback_status run_number
       feedback_number latestData clients readyState clock trace
       payload_field channel_name].
  unfold_listener.
  split_truthy e1; split_truthy e2; split_truthy e3; split_truthy e4; split_truthy e5;
  cbv beta iota; rewrite <- ?app_assoc; reflexivity.
Qed.

Lemma health_entry_spec ch p :
  health_entry ch p = (Normal (health_view ch (entry ch (latestData p))), p).
Proof.
  unfold health_entry, health_view.
  cbv beta iota zeta delta [bind lift ret read_latestData].
  destruct (JS.ToBoolean (entry ch (latestData p))) eqn:H; [|reflexivity].
  now rewrite !(Get_truthy _ _ H).
Qed.

Lemma get_health_spec elapsed p :
  get_health elapsed p = (Normal (mkResponse 200 (health_report elapsed p)), advance elapsed p).
Proof.
  unfold get_health.
  rewrite (bind_normal _ _ p (JS.toISOString (clock p + Z.of_N elapsed)) (advance elapsed p))
    by reflexivity.
  rewrite (bind_normal clients_size _ (advance elapsed p) _ _ eq_refl).
  rewrite (bind_normal _ _ _ _ _ (health_entry_spec ClfData _)).
  rewrite (bind_normal _ _ _ _ _ (health_entry_spec McData _)).
  rewrite (bind_normal _ _ _ _ _ (health_entry_spec FeedbackStatus _)).
  rewrite (bind_normal _ _ _ _ _ (health_entry_spec RunNumber _)).
  rewrite (bind_normal _ _ _ _ _ (health_entry_spec FeedbackNumber _)).
  reflexivity.
Qed.

Lemma entry_shaped_cases ch v :
  entry_shaped ch v = true ->
  v = JNull \/
  exists payload rep t,
    v = record_of ch payload rep t /\
    payload_shaped ch payload = true /\ is_integer_or_not_finite rep = true.
Proof.
  unfold entry_shaped. intros H.
  destruct v as [| | | | | |props]; try discriminate; [now left|right].
  destruct props as [|[k1 payload] [|[k2 rep] [|[k3 t] [|]]]]; try discriminate;
    destruct t; try discriminate.
  repeat (apply andb_prop in H; destruct H as [H ?]).
  apply String.eqb_eq in H. 
  repeat match goal with E : String.eqb _ _ = true |- _ => apply String.eqb_eq in E end.
  subst. unfold record_of. eauto 10.
Qed.

Lemma health_view_shaped ch v : entry_shaped ch v = true -> health_view ch v = v.
Proof.
  intros H. destruct (entry_shaped_cases _ _ H) as [->|(payload & rep & t & -> & _)].
  - reflexivity.
  - destruct ch; reflexivity.
Qed.

(** *** Steps *)

Lemma run_snoc inputs i p : run (inputs ++ [i]) p = run_step i (run inputs p).
Proof. unfold run. now rewrite fold_left_app. Qed.

Lemma run_step_Post ch body elapsed p :
  run_step (Post ch body elapsed) p = snd (submit ch body elapsed p).
Proof.
  unfold run_step, step, respond, bind.
  destruct (submit ch body elapsed p) as [[r|e] p']; reflexivity.
Qed.

Lemma run_step_Connection ws p :
  run_step (Connection ws) p
  = mkProcess (latestData p) (Set_add ws (clients p))
      (fun x => if Nat.eqb x ws then OPEN else readyState p x) (clock p)
      (trace p ++ ConsoleLog "New WebSocket client connected"
         :: replay_events ws (latestData p)).
Proof.
  unfold run_step, step, silently.
  unfold bind at 1. unfold bind at 1.
  cbn [set_readyState]. now rewrite on_connection_spec.
Qed.

Lemma run_step_GetHealth elapsed p :
  run_step (GetHealth elapsed) p = advance elapsed p.
Proof. unfold run_step, step, respond, bind. now rewrite get_health_spec. Qed.

Lemma set_entry_same ch v ld : entry ch (set_entry ch v ld) = v.
Proof. destruct ch; reflexivity. Qed.

Lemma set_entry_other ch ch' v ld :
  ch <> ch' -> entry ch' (set_entry ch v ld) = entry ch' ld.
Proof. destruct ch, ch'; intros H; try reflexivity; now elim H. Qed.

(** What a POST leaves alone. *)
Lemma submit_frame ch body elapsed p :
  clients (snd (submit ch body elapsed p)) = clients p /\
  readyState (snd (submit ch body elapsed p)) = readyState p.
Proof.
  destruct (submit_cases ch body elapsed p); split; reflexivity.
Qed.

(** Rounding to a double keeps an integer an integer. *)
Lemma mkFinite_integer neg m : JS.mkFinite neg m 0 = Finite neg m 0.
Proof. unfold JS.mkFinite. now destruct (N.eqb_spec m 0) as [->|]. Qed.

Lemma reduce_scale_pow10 fuel : forall a t,
  (N.to_nat t <= fuel)%nat -> JS.reduce_scale fuel (a * 10 ^ t) t = (a, 0%N).
Proof.
  induction fuel as [|fuel IH]; intros a t Hf; cbn [JS.reduce_scale].
  - assert (t = 0%N) as -> by lia. now rewrite N.pow_0_r, N.mul_1_r.
  - destruct (N.eqb_spec t 0) as [->|Ht].
    + now rewrite N.pow_0_r, N.mul_1_r.
    + replace (a * 10 ^ t)%N with ((a * 10 ^ (t - 1)) * 10)%N.
      * rewrite N.Div0.mod_mul, N.eqb_refl, N.div_mul by lia. apply IH. lia.
      * rewrite <- N.mul_assoc. f_equal.
        rewrite N.mul_comm, <- N.pow_succ_r'. f_equal. lia.
Qed.

Lemma mkFinite_pow10 neg a t : JS.mkFinite neg (a * 10 ^ t) t = Finite neg a 0.
Proof.
  unfold JS.mkFinite. destruct (N.eqb_spec (a * 10 ^ t) 0) as [E|_].
  - apply N.eq_mul_0 in E as [->|E]; [reflexivity|].
    exfalso. revert E. apply N.pow_nonzero. lia.
  - now rewrite reduce_scale_pow10.
Qed.

Lemma div_nearest_even_1 n : JS.div_nearest_even n 1 = n.
Proof. unfold JS.div_nearest_even. now rewrite N.mod_1_r, N.div_1_r. Qed.

Lemma nearest_double_integer neg m : has_no_fraction (JS.nearest_double neg m 0) = true.
Proof.
  unfold JS.nearest_double. destruct (m =? 0)%N; [reflexivity|].
  rewrite N.pow_0_r. cbv zeta.
  set (q := Z.max (JS.binary_exponent m 1 - 52) (-1074)).
  destruct (Z.leb_spec 0 q) as [Hq|Hq].
  - destruct (_ || _); [reflexivity|]. now rewrite mkFinite_integer.
  - destruct (_ || _); [reflexivity|].
    rewrite div_nearest_even_1, <- N.mul_assoc, <- N.pow_mul_l.
    change (2 * 5)%N with 10%N. now rewrite mkFinite_pow10.
Qed.

Lemma shortest_at_integer k neg m c :
  JS.shortest_at k neg m 0 = Some c -> has_no_fraction c = true.
Proof.
  unfold JS.shortest_at. cbv zeta. rewrite !mkFinite_integer.
  destruct (JS.reads_as _ _), (JS.reads_as _ _); try discriminate;
    intros [= <-]; try reflexivity.
  destruct (_ ?= _)%N; try reflexivity. now destruct (N.even _).
Qed.

Lemma shortest_from_integer fuel : forall k neg m,
  has_no_fraction (JS.shortest_from fuel k neg m 0) = true.
Proof.
  induction fuel as [|fuel IH]; intros k neg m; cbn [JS.shortest_from].
  - reflexivity.
  - destruct (JS.shortest_at k neg m 0) as [c|] eqn:E.
    + eapply shortest_at_integer; eauto.
    + apply IH.
Qed.

Lemma shortest_decimal_integer x :
  has_no_fraction x = true -> has_no_fraction (JS.shortest_decimal x) = true.
Proof.
  destruct x as [|neg|neg m scale]; try reflexivity.
  cbn [has_no_fraction JS.shortest_decimal]. intros H%N.eqb_eq. subst scale.
  destruct (m =? 0)%N; [reflexivity|]. apply shortest_from_integer.
Qed.

Lemma to_double_integer x :
  has_no_fraction x = true -> has_no_fraction (JS.to_double x) = true.
Proof.
  destruct x as [|neg|neg m scale]; try reflexivity.
  cbn [has_no_fraction JS.to_double]. intros H%N.eqb_eq. subst scale.
  apply shortest_decimal_integer, nearest_double_integer.
Qed.

Lemma read_int_prefix_integer s : has_no_fraction (JS.read_int_prefix s) = true.
Proof.
  unfold JS.read_int_prefix.
  destruct (JS.split_sign s) as [neg s1].
  destruct (JS.strip_hex_prefix s1) as [rest|].
  - destruct (JS.hex_prefix_value None rest); reflexivity.
  - destruct (JS.span_digits s1) as [[|c ds] tl]; reflexivity.
Qed.

Lemma parseInt_shaped r rep :
  number (JS.parseInt r) = Normal rep -> is_integer_or_not_finite rep = true.
Proof.
  unfold number, JS.parseInt. destruct (JS.ToString r) as [s|]; [|discriminate].
  cbn [bindC]. intros [= <-]. unfold JS.parse_int_prefix.
  apply to_double_integer, read_int_prefix_integer.
Qed.

Lemma parseFloat_shaped v payload :
  number (JS.parseFloat v) = Normal payload -> is_number payload = true.
Proof.
  unfold number. destruct (JS.parseFloat v); [|discriminate]. now intros [= <-].
Qed.

Lemma mapC_parseFloat_shaped elems : forall ys,
  mapC (fun p => number (JS.parseFloat p)) elems = Normal ys ->
  forallb is_number ys = true.
Proof.
  induction elems as [|x rest IH]; intros ys H; cbn [mapC] in H.
  - now injection H as <-.
  - destruct (number (JS.parseFloat x)) as [y|] eqn:Hy; [|discriminate].
    cbn [bindC] in H.
    destruct (mapC _ rest) as [ys'|]; [|discriminate].
    cbn [bindC] in H. injection H as <-. cbn [forallb].
    rewrite (parseFloat_shaped _ _ Hy). now apply IH.
Qed.

Lemma coerce_shaped ch v payload :
  coerce ch v = Normal payload -> payload_shaped ch payload = true.
Proof.
  destruct ch; cbn [coerce payload_shaped].
  - apply parseFloat_shaped.
  - destruct v; try discriminate. cbn [method_map].
    destruct (mapC _ elems) as [ys|] eqn:E; [|discriminate].
    cbn [bindC]. intros [= <-]. eapply mapC_parseFloat_shaped; eauto.
  - now intros [= <-].
  - apply parseInt_shaped.
  - apply parseInt_shaped.
Qed.

(** What a POST does to [latestData]. *)
Lemma submit_store ch body elapsed p :
  latestData (snd (submit ch body elapsed p)) = latestData p \/
  exists payload rep t,
    payload_shaped ch payload = true /\ is_integer_or_not_finite rep = true /\
    latestData (snd (submit ch body elapsed p))
    = set_entry ch (record_of ch payload rep t) (latestData p).
Proof.
  destruct (submit_cases ch body elapsed p); [now left|now left|right].
  exists payload, rep, (JS.toISOString (clock p + Z.of_N elapsed)).
  split; [eapply coerce_shaped; eassumption|].
  split; [eapply parseInt_shaped; eassumption|reflexivity].
Qed.

(** What each input does to the two module-level variables. *)
Lemma run_step_latestData i p :
  latestData (run_step i p)
  = match i with
    | Post ch body elapsed => latestData (snd (submit ch body elapsed p))
    | _ => latestData p
    end.
Proof.
  destruct i; try reflexivity.
  - now rewrite run_step_Connection.
  - now rewrite run_step_Post.
  - now rewrite run_step_GetHealth.
Qed.

Lemma run_step_clients i p :
  clients (run_step i p)
  = match i with
    | Connection ws => Set_add ws (clients p)
    | SocketClose ws | SocketError ws _ => Set_delete ws (clients p)
    | _ => clients p
    end.
Proof.
  destruct i; try reflexivity.
  - now rewrite run_step_Connection.
  - rewrite run_step_Post. apply submit_frame.
  - now rewrite run_step_GetHealth.
Qed.

(** No input makes the process throw past its handlers. *)
Lemma submit_completes ch body elapsed p :
  exists r, fst (submit ch body elapsed p) = Normal r.
Proof. destruct (submit_cases ch body elapsed p); eexists; reflexivity. Qed.

Lemma step_completes i p : exists r, fst (step i p) = Normal r.
Proof.
  destruct i; cbn [step]; unfold silently, respond; try (eexists; reflexivity).
  - unfold bind at 1. unfold bind at 1. cbn [set_readyState].
    rewrite on_connection_spec. eexists; reflexivity.
  - unfold bind. destruct (submit_completes ch body elapsed p) as [r Hr].
    destruct (submit ch body elapsed p) as [c p']. cbn [fst] in Hr. subst c.
    eexists; reflexivity.
  - unfold bind. rewrite get_health_spec. eexists; reflexivity.
Qed.

(** A submission that ends in the [catch] has logged the error and done
    nothing else. *)
Lemma crashed_submission_keeps_store ch body elapsed p r p' :
  submit ch body elapsed p = (Normal r, p') ->
  status r = 500 ->
  exists error, p' = append_trace [ConsoleError (error_label ch) error] p.
Proof.
  intros H Hs. pose proof (submit_cases ch body elapsed p) as C. rewrite H in C.
  inversion C; subst; try discriminate Hs. eauto.
Qed.

(** *** Invariants of the runs from [init] *)

Lemma entry_shaped_record ch payload rep t :
  payload_shaped ch payload = true -> is_integer_or_not_finite rep = true ->
  entry_shaped ch (record_of ch payload rep t) = true.
Proof.
  intros Hp Hr. unfold entry_shaped, record_of.
  rewrite Hp, Hr, String.eqb_refl. reflexivity.
Qed.

Lemma store_shaped_forall ld :
  store_shaped ld = true <-> forall ch, entry_shaped ch (entry ch ld) = true.
Proof.
  unfold store_shaped. rewrite forallb_forall. split.
  - intros H ch. apply H. destruct ch; cbn; tauto.
  - intros H ch _. apply H.
Qed.

Lemma store_shaped_set_entry ch payload rep t ld :
  payload_shaped ch payload = true -> is_integer_or_not_finite rep = true ->
  store_shaped ld = true ->
  store_shaped (set_entry ch (record_of ch payload rep t) ld) = true.
Proof.
  intros Hp Hr H. rewrite store_shaped_forall in *. intros ch'.
  destruct (Channel_eq_dec ch ch') as [<-|Hne].
  - rewrite set_entry_same. now apply entry_shaped_record.
  - rewrite set_entry_other by assumption. apply H.
Qed.

Lemma run_step_store_shaped i p :
  store_shaped (latestData p) = true -> store_shaped (latestData (run_step i p)) = true.
Proof.
  intros H. rewrite run_step_latestData. destruct i; try assumption.
  destruct (submit_store ch body elapsed p) as [->|(payload & rep & t & Hp & Hr & ->)].
  - assumption.
  - now apply store_shaped_set_entry.
Qed.

Lemma run_store_shaped t0 inputs : store_shaped (latestData (run inputs (init t0))) = true.
Proof.
  induction inputs as [|i inputs IH] using rev_ind.
  - reflexivity.
  - rewrite run_snoc. now apply run_step_store_shaped.
Qed.

Lemma Set_add_NoDup ws s : NoDup s -> NoDup (Set_add ws s).
Proof.
  intros H. unfold Set_add.
  destruct (existsb (Nat.eqb ws) s) eqn:E; [assumption|].
  apply NoDup_app; [assumption|repeat constructor; intros []|].
  intros x Hx [Heq|[]]. subst x.
  assert (existsb (Nat.eqb ws) s = true); [|congruence].
  apply existsb_exists. exists ws. split; [assumption|apply Nat.eqb_refl].
Qed.

Lemma Set_delete_NoDup ws s : NoDup s -> NoDup (Set_delete ws s).
Proof. apply NoDup_filter. Qed.

Lemma run_clients_NoDup t0 inputs : NoDup (clients (run inputs (init t0))).
Proof.
  induction inputs as [|i inputs IH] using rev_ind.
  - constructor.
  - rewrite run_snoc, run_step_clients.
    destruct i; auto using Set_add_NoDup, Set_delete_NoDup.
Qed.

(** *** Printing a request for the log *)

(** Induction on values that goes through arrays and objects. *)
Lemma JSValue_nested_ind (P : JSValue -> Prop) :
  P JUndefined -> P JNull -> (forall b, P (JBool b)) -> (forall n, P (JNumber n)) ->
  (forall s, P (JString s)) ->
  (forall elems, Forall P elems -> P (JArray elems)) ->
  (forall props, Forall (fun kv => P (snd kv)) props -> P (JObject props)) ->
  forall v, P v.
Proof.
  intros Hu Hn Hb Hnum Hs Ha Ho.
  fix IH 1.
  intros [| |b|n|s|elems|props];
    [exact Hu|exact Hn|apply Hb|apply Hnum|apply Hs| |].
  - apply Ha. induction elems as [|x rest IHl]; constructor; [apply IH|exact IHl].
  - apply Ho. induction props as [|[k x] rest IHl]; constructor; [apply IH|exact IHl].
Qed.

Lemma join_elements_printable sep elems :
  Forall (fun x => if printable x then exists s, JS.ToString x = Normal s
                   else JS.ToString x = Throw TypeError) elems ->
  if forallb printable elems
  then exists s, JS.join_elements JS.ToString sep elems = Normal s
  else JS.join_elements JS.ToString sep elems = Throw TypeError.
Proof.
  induction 1 as [|x rest Hx _ IH]; [cbn; eauto|].
  cbn [forallb JS.join_elements].
  destruct (printable x) eqn:Px.
  - destruct Hx as [s Hs].
    assert (E : exists next,
               match x with
               | JUndefined | JNull => Normal ""
               | _ => JS.ToString x
               end = Normal next) by (destruct x; eauto).
    destruct E as [next ->]. cbn [bindC andb].
    destruct rest as [|y rest']; [cbn; eauto|].
    destruct (forallb printable (y :: rest')).
    + destruct IH as [tl ->]. cbn [bindC]. eauto.
    + now rewrite IH.
  - cbn [andb]. destruct x; try discriminate Px; now rewrite Hx.
Qed.

(** ToString completes on the printable values and throws a TypeError on
    the others. *)
Lemma ToString_printable v :
  if printable v then exists s, JS.ToString v = Normal s
  else JS.ToString v = Throw TypeError.
Proof.
  induction v as [| |b|n|s|elems IH|props _] using JSValue_nested_ind;
    try (cbn; eauto; fail).
  - cbn [printable JS.ToString]. now apply join_elements_printable.
  - cbn [printable JS.ToString].
    destruct (JS.has_own_property props "toString"); cbn; eauto.
Qed.

Lemma missing_mc_array v r :
  missing McData v r = false -> exists elems, v = JArray elems.
Proof.
  intros H. cbn [missing] in H.
  apply orb_false_elim in H. destruct H as [H _].
  apply orb_false_elim in H. destruct H as [_ H].
  destruct v; try discriminate H. eauto.
Qed.

Lemma log_line_printable ch v r :
  missing ch v r = false ->
  if printable r && printable v
  then exists line, log_line ch v r = Normal line
  else log_line ch v r = Throw TypeError.
Proof.
  intros Hm. unfold log_line.
  pose proof (ToString_printable r) as Hr.
  destruct (printable r); [destruct Hr as [rt ->]|now rewrite Hr].
  cbn [bindC andb].
  assert (Hv : if printable v
               then exists s, match ch with
                              | McData => method_join v ", "
                              | _ => JS.ToString v
                              end = Normal s
               else match ch with
                    | McData => method_join v ", "
                    | _ => JS.ToString v
                    end = Throw TypeError).
  { destruct ch; try apply ToString_printable.
    destruct (missing_mc_array _ _ Hm) as [elems ->].
    cbn [method_join printable]. unfold JS.Array_join.
    apply join_elements_printable.
    apply Forall_forall. intros x _. apply ToString_printable. }
  destruct (printable v); [destruct Hv as [s ->]; cbn; eauto|now rewrite Hv].
Qed.

(* ===================================================================== *)
(** ** Properties of the relay *)
(* ===================================================================== *)

(** *** Consequences of the case analysis *)

Lemma submit_missing ch body elapsed p v r :
  JS.Get body (payload_field ch) = Normal v ->
  JS.Get body "rep" = Normal r ->
  missing ch v r = true ->
  submit ch body elapsed p = (Normal (error_response 400 (missing_message ch)), p).
Proof.
  intros Hv Hr Hm.
  destruct (submit_cases ch body elapsed p) as [| e [H|[H|(v' & r' & Hv' & Hr' & Hm' & _)]] | v' r' line payload rep Hv' Hr' Hm'].
  - reflexivity.
  - congruence.
  - congruence.
  - congruence.
  - congruence.
Qed.

Lemma submit_accepted ch body elapsed p v r line payload rep :
  JS.Get body (payload_field ch) = Normal v ->
  JS.Get body "rep" = Normal r ->
  missing ch v r = false ->
  log_line ch v r = Normal line ->
  coerce ch v = Normal payload ->
  number (JS.parseInt r) = Normal rep ->
  submit ch body elapsed p
  = (Normal (success_response (acknowledgement ch)),
     accepted_process ch line payload rep elapsed p).
Proof.
  intros Hv Hr Hm Hl Hc Hn.
  destruct (submit_cases ch body elapsed p) as [v' r' Hv' Hr' Hm' | e [H|[H|(v' & r' & Hv' & Hr' & Hm' & Hl')]] | v' r' line' payload' rep' Hv' Hr' Hm' Hl' Hc' Hn'].
  - congruence.
  - congruence.
  - congruence.
  - congruence.
  - repeat f_equal; congruence.
Qed.

(** Inversion of a POST that answered [r] in [p']. *)
Lemma submit_inv ch body elapsed p r p' :
  submit ch body elapsed p = (Normal r, p') ->
  (r = error_response 400 (missing_message ch) /\ p' = p /\
   exists v rv,
     JS.Get body (payload_field ch) = Normal v /\ JS.Get body "rep" = Normal rv /\
     missing ch v rv = true) \/
  (r = internal_server_error /\
   exists error,
     crash_cause ch body error /\
     p' = append_trace [ConsoleError (error_label ch) error] p) \/
  (r = success_response (acknowledgement ch) /\
   exists v rv line payload rep,
     JS.Get body (payload_field ch) = Normal v /\ JS.Get body "rep" = Normal rv /\
     missing ch v rv = false /\ log_line ch v rv = Normal line /\
     coerce ch v = Normal payload /\ number (JS.parseInt rv) = Normal rep /\
     p' = accepted_process ch line payload rep elapsed p).
Proof.
  intros H. pose proof (submit_cases ch body elapsed p) as C. rewrite H in C.
  inversion C; subst.
  - left. eauto 10.
  - right; left. eauto.
  - right; right. split; [reflexivity|]. do 5 eexists. eauto 10.
Qed.

(** C5. A submission that fails validation is answered 400 and leaves the
    process exactly as it was: [latestData] is untouched and the trace
    gains no event, so nothing is serialised and nothing is sent. *)
Theorem rejected_submission_changes_nothing ch body elapsed p r p' :
  submit ch body elapsed p = (Normal r, p') ->
  status r = 400 ->
  p' = p /\ latestData p' = latestData p /\ trace p' = trace p.
Proof.
  intros H Hs.
  destruct (submit_inv _ _ _ _ _ _ H) as [(_ & -> & _)|[(-> & _)|(-> & _)]];
    [auto|discriminate Hs|discriminate Hs].
Qed.

Lemma rejected_submission_changes_nothing_witness :
  submit ClfData rep_only_body 0 one_observer
  = (Normal (error_response 400 "Missing required fields: value, rep"), one_observer)
  /\ status (error_response 400 "Missing required fields: value, rep") = 400
  /\ (one_observer = one_observer
      /\ latestData one_observer = latestData one_observer
      /\ trace one_observer = trace one_observer).
Proof.
  split; [reflexivity|]. split; [reflexivity|].
  apply (rejected_submission_changes_nothing ClfData rep_only_body 0 one_observer
           (error_response 400 "Missing required fields: value, rep") one_observer);
    reflexivity.
Defined.

(** C1, as the code has it. A motion-correction submission whose [params]
    is not an array is answered 400 before anything is changed; the
    length of an array and the type of its elements are not looked at. *)
Theorem mc_data_rejects_non_array props elapsed p :
  JS.Array_isArray (JS.lookup props "params") = false ->
  submit McData (JObject props) elapsed p
  = (Normal (error_response 400 "Missing required fields: params (array), rep"), p).
Proof.
  intros H.
  apply (submit_missing McData (JObject props) elapsed p
           (JS.lookup props "params") (JS.lookup props "rep")); try reflexivity.
  cbn [missing]. rewrite H. cbn [negb]. now rewrite orb_true_r.
Qed.

Lemma mc_data_rejects_non_array_witness :
  JS.Array_isArray (JS.lookup [("params", JString "1,2,3,4,5,6"); ("rep", int 42)] "params")
  = false
  /\ submit McData params_string_body 0 one_observer
     = (Normal (error_response 400 "Missing required fields: params (array), rep"),
        one_observer).
Proof.
  split; [reflexivity|].
  apply (mc_data_rejects_non_array
           [("params", JString "1,2,3,4,5,6"); ("rep", int 42)] 0 one_observer).
  reflexivity.
Defined.

(** C1, as stated, fails: five parameters are accepted, stored and
    broadcast. *)
Lemma five_params_are_accepted :
  let result := submit McData five_params_body 3 one_observer in
  JS.Get five_params_body "params" = Normal (JArray five_params)
  /\ List.length five_params = 5
  /\ fst result = Normal (success_response "Motion correction data received")
  /\ entry McData (latestData one_observer) = JNull
  /\ entry McData (latestData (snd result))
     = record_of McData (JArray five_params) (int 42) "2025-08-05T21:27:29.482Z"
  /\ received 1 (trace one_observer) = []
  /\ received 1 (trace (snd result))
     = [JS.JSON_stringify
          (update_of McData (JArray five_params) (int 42) "2025-08-05T21:27:29.482Z")].
Proof. vm_compute. repeat split. Qed.




(** The bound on the shape of [rep] is met: a [rep] of four hundred
    digits is stored as an infinity. *)
Lemma rep_of_four_hundred_digits_is_stored_as_Infinity :
  let body := JObject [("value", int 1); ("rep", JString (JS.repeat_char "9" 400))] in
  let result := submit ClfData body 3 one_observer in
  fst result = Normal (success_response "Classifier data received")
  /\ entry ClfData (latestData (snd result))
     = record_of ClfData (int 1) (JNumber (Infinity false)) "2025-08-05T21:27:29.482Z".
Proof. vm_compute. split; reflexivity. Qed.

(** C3, at the input where the code departs from it. After
    [{ value: 0.75, rep: 42 }] has been stored, a new connection is
    replayed [{ type, value, timestamp }]: the stored [rep] is not in the
    message, while the observer that was connected at the time of the
    submission was sent [{ type, value, rep, timestamp }]. *)
Theorem replay_leaves_rep_out :
  let p := run [Post ClfData clf_body 3] one_observer in
  let p' := run_step (Connection 7) p in
  entry ClfData (latestData p)
  = record_of ClfData (JNumber (Finite false 75 2)) (int 42) "2025-08-05T21:27:29.482Z"
  /\ received 7 (trace p')
     = [JS.JSON_stringify
          (JObject [("type", JString "clf_data");
                    ("value", JNumber (Finite false 75 2));
                    ("timestamp", JString "2025-08-05T21:27:29.482Z")])]
  /\ received 1 (trace p')
     = [JS.JSON_stringify
          (JObject [("type", JString "clf_data");
                    ("value", JNumber (Finite false 75 2));
                    ("rep", int 42);
                    ("timestamp", JString "2025-08-05T21:27:29.482Z")])].
Proof. vm_compute. repeat split. Qed.

(** What holds of C3 in general: a new connection is sent one message per
    populated channel and none for the others, each built from the
    channel's current entry. *)
Lemma replay_events_count ws ld :
  List.length (filter is_Sent (replay_events ws ld)) = populated ld.
Proof.
  destruct ld as [e1 e2 e3 e4 e5]. unfold replay_events, populated.
  cbn [all_channels flat_map filter entry clf_data mc_data feedback_status
       run_number feedback_number].
  destruct (JS.ToBoolean e1), (JS.ToBoolean e2), (JS.ToBoolean e3),
    (JS.ToBoolean e4), (JS.ToBoolean e5); reflexivity.
Qed.

Lemma connection_replays_populated_channels ws p :
  trace (run_step (Connection ws) p)
  = (trace p ++ ConsoleLog "New WebSocket client connected"
       :: replay_events ws (latestData p))%list
  /\ List.length (filter is_Sent (replay_events ws (latestData p)))
     = populated (latestData p).
Proof. rewrite run_step_Connection. split; [reflexivity|apply replay_events_count]. Qed.



Lemma run_entries t0 inputs ch :
  let v := entry ch (latestData (run inputs (init t0))) in
  v = JNull \/ holds_record ch v.
Proof.
  intros v. pose proof (run_store_shaped t0 inputs) as H.
  rewrite store_shaped_forall in H.
  destruct (entry_shaped_cases _ _ (H ch)) as [E|(payload & rep & t & E & _)].
  - now left.
  - right. now exists payload, rep, t.
Qed.

Lemma run_health_view t0 inputs ch :
  health_view ch (entry ch (latestData (run inputs (init t0))))
  = entry ch (latestData (run inputs (init t0))).
Proof.
  apply health_view_shaped.
  pose proof (run_store_shaped t0 inputs) as H.
  rewrite store_shaped_forall in H. apply H.
Qed.

(** C6. Whatever the process has been through, the health report is
    [{ status, timestamp, connectedClients, latestData }] with the
    current time, the size of [clients] and, under [latestData], the five
    entries as they are: the stored record for a populated channel,
    [null] for one never written.  [/api/latest-data] answers the same
    five entries.  Neither read changes [latestData], [clients] or the
    trace. *)
Theorem health_report_mirrors_latestData t0 inputs elapsed :
  let p := run inputs (init t0) in
  let health := get_health elapsed p in
  let latest := get_latest_data p in
  fst health
  = Normal
      (mkResponse 200
         (JObject
            [("status", JString "ok");
             ("timestamp", JString (JS.toISOString (clock p + Z.of_N elapsed)));
             ("connectedClients", int (Z.of_nat (List.length (clients p))));
             ("latestData", latestData_object (latestData p))]))
  /\ latestData_object (latestData p)
     = JObject (map (fun ch => (channel_name ch, entry ch (latestData p))) all_channels)
  /\ (forall ch, entry ch (latestData p) = JNull
                 \/ holds_record ch (entry ch (latestData p)))
  /\ latestData (snd health) = latestData p
  /\ clients (snd health) = clients p
  /\ trace (snd health) = trace p
  /\ latest = (Normal (mkResponse 200 (latestData_object (latestData p))), p).
Proof.
  intros p health latest. unfold health, latest. rewrite get_health_spec.
  cbn [fst snd advance latestData clients trace].
  split.
  { unfold health_report, latestData_object, int.
    change (clf_data (latestData p)) with (entry ClfData (latestData p)).
    change (mc_data (latestData p)) with (entry McData (latestData p)).
    change (feedback_status (latestData p)) with (entry FeedbackStatus (latestData p)).
    change (run_number (latestData p)) with (entry RunNumber (latestData p)).
    change (feedback_number (latestData p)) with (entry FeedbackNumber (latestData p)).
    unfold p. now rewrite !run_health_view. }
  split; [reflexivity|].
  split; [intros ch; apply run_entries|].
  repeat (split; [reflexivity|]). reflexivity.
Qed.

Lemma received_sends ws message (l : list WebSocket) :
  NoDup l ->
  received ws (map (fun c => Sent c message) l)
  = if existsb (Nat.eqb ws) l then [message] else [].
Proof.
  induction l as [|c l IH]; intros H; [reflexivity|].
  inversion H as [|? ? Hnotin Hnd]; subst.
  cbn [map received existsb]. rewrite (Nat.eqb_sym ws c).
  destruct (Nat.eqb c ws) eqn:E.
  - apply Nat.eqb_eq in E. subst c. cbn [orb].
    rewrite IH by assumption.
    destruct (existsb (Nat.eqb ws) l) eqn:Ex; [|reflexivity].
    apply existsb_exists in Ex. destruct Ex as (x & Hx & Heq).
    apply Nat.eqb_eq in Heq. subst x. contradiction.
  - cbn [orb]. now apply IH.
Qed.

Lemma existsb_filter_open (f : WebSocket -> bool) ws l :
  existsb (Nat.eqb ws) (filter f l) = existsb (Nat.eqb ws) l && f ws.
Proof.
  induction l as [|c l IH]; [reflexivity|].
  cbn [filter existsb].
  destruct (Nat.eqb ws c) eqn:E.
  - apply Nat.eqb_eq in E. subst c.
    destruct (f ws) eqn:Hf; cbn [existsb orb andb].
    + now rewrite Nat.eqb_refl.
    + rewrite IH, ?Hf. apply andb_false_r.
  - destruct (f c); cbn [existsb orb]; rewrite ?E; exact IH.
Qed.

(** C7, as stated, fails: a connection that is still in [clients] but no
    longer open is sent nothing. *)
Lemma closing_client_is_skipped :
  let data := update_of ClfData (JNumber (Finite false 75 2)) (int 42)
                "2025-08-05T21:27:29.482Z" in
  let p' := snd (broadcast data one_closing) in
  clients one_closing = [1; 2]
  /\ readyState one_closing 2 = CLOSING
  /\ received 1 (trace p') = [JS.JSON_stringify data]
  /\ received 2 (trace p') = [].
Proof. vm_compute. repeat split. Qed.

(** C7, as the code has it. One call of [broadcast(data)] serialises
    [data] once and then sends that one string to the members of
    [clients] whose ready state is [OPEN], once each; a member in any
    other state, like a connection outside [clients], is sent nothing. *)
Theorem broadcast_sends_one_serialisation_to_open_clients t0 inputs data :
  let p := run inputs (init t0) in
  let sends := map (fun c => Sent c (JS.JSON_stringify data)) (open_clients p) in
  broadcast data p = (Normal tt, append_trace (Stringified data :: sends) p)
  /\ filter is_Stringified (Stringified data :: sends) = [Stringified data]
  /\ forall c,
       received c (Stringified data :: sends)
       = if existsb (Nat.eqb c) (clients p) && is_OPEN (readyState p c)
         then [JS.JSON_stringify data] else [].
Proof.
  intros p sends. split; [apply broadcast_spec|]. split.
  - cbn [filter is_Stringified]. f_equal. unfold sends.
    induction (open_clients p) as [|c l IH]; [reflexivity|exact IH].
  - intros c. cbn [received]. unfold sends.
    rewrite received_sends.
    + unfold open_clients. now rewrite existsb_filter_open.
    + apply NoDup_filter. apply run_clients_NoDup.
Qed.

Lemma run_step_holds_record ch i p :
  holds_record ch (entry ch (latestData p)) ->
  holds_record ch (entry ch (latestData (run_step i p))).
Proof.
  intros H. rewrite run_step_latestData. destruct i; try assumption.
  destruct (submit_store ch0 body elapsed p) as [->|(payload & rep & t & _ & _ & ->)];
    [assumption|].
  destruct (Channel_eq_dec ch0 ch) as [->|Hne].
  - rewrite set_entry_same. now exists payload, rep, t.
  - now rewrite set_entry_other.
Qed.

Lemma run_holds_record ch inputs : forall p,
  holds_record ch (entry ch (latestData p)) ->
  holds_record ch (entry ch (latestData (run inputs p))).
Proof.
  induction inputs as [|i inputs IH]; intros p H; [assumption|].
  cbn [run fold_left]. apply IH. now apply run_step_holds_record.
Qed.

(** C8. Every entry of [latestData] starts as [null].  Once a submission
    to a channel has been acknowledged, the channel's entry holds a
    record after any further inputs: submissions, reads, connections,
    closes, errors; and no single input turns a record back into
    anything else than a record. *)
Theorem entries_start_null_and_are_never_deleted :
  (forall t0 ch, entry ch (latestData (init t0)) = JNull)
  /\ (forall ch body elapsed p r p' inputs,
        submit ch body elapsed p = (Normal r, p') ->
        status r = 200 ->
        holds_record ch (entry ch (latestData (run inputs p'))))
  /\ (forall ch i p,
        holds_record ch (entry ch (latestData p)) ->
        holds_record ch (entry ch (latestData (run_step i p)))).
Proof.
  split; [intros t0 []; reflexivity|]. split.
  - intros ch body elapsed p r p' inputs H Hs. apply run_holds_record.
    destruct (submit_inv _ _ _ _ _ _ H)
      as [(-> & _)|[(-> & _)|(_ & v & rv & line & payload & rep & _ & _ & _ & _ & _ & _ & ->)]];
      [discriminate Hs|discriminate Hs|].
    cbn [accepted_process latestData]. rewrite set_entry_same.
    now eexists _, _, _.
  - intros ch i p. apply run_step_holds_record.
Qed.

Lemma entries_start_null_and_are_never_deleted_witness :
  let r := success_response "Classifier data received" in
  let p' := snd (submit ClfData clf_body 3 one_observer) in
  let inputs := [Post McData five_params_body 5; GetHealth 1; SocketClose 1;
                 Post ClfData rep_only_body 0; Connection 2; SocketError 2 "reset"] in
  submit ClfData clf_body 3 one_observer = (Normal r, p')
  /\ status r = 200
  /\ holds_record ClfData (entry ClfData (latestData (run inputs p'))).
Proof.
  intros r p' inputs. split; [reflexivity|]. split; [reflexivity|].
  apply (proj1 (proj2 entries_start_null_and_are_never_deleted)
           ClfData clf_body 3%N one_observer r p' inputs); reflexivity.
Defined.

Lemma missing_undefined ch v r :
  ch <> McData ->
  missing ch v r = true <-> v = JUndefined \/ r = JUndefined.
Proof.
  intros Hch.
  assert (E : missing ch v r = JS.is_undefined v || JS.is_undefined r)
    by (destruct ch; try reflexivity; now elim Hch).
  rewrite E, orb_true_iff. clear.
  split; (intros [H|H]; [left|right]); destruct v, r; try discriminate; reflexivity.
Qed.

(** What the five tests come to. *)
Lemma missing_cases ch v r :
  missing ch v r = true <->
  r = JUndefined \/
  match ch with
  | McData => JS.ToBoolean v = false \/ JS.Array_isArray v = false
  | _ => v = JUndefined
  end.
Proof.
  destruct ch; try (rewrite missing_undefined by discriminate; tauto).
  cbn [missing]. rewrite !orb_true_iff, !negb_true_iff.
  assert (R : JS.is_undefined r = true <-> r = JUndefined)
    by (destruct r; split; (discriminate || reflexivity)).
  rewrite R. tauto.
Qed.

(** C9, as stated, fails on the motion-correction endpoint: [params] is
    tested by truthiness, and [{ params: 0, rep: 0 }], whose [params] is
    present and falsy, is answered 400 as missing. *)
Lemma zero_params_are_answered_missing :
  JS.Get zero_params_body "params" = Normal (int 0)
  /\ JS.is_undefined (int 0) = false
  /\ JS.ToBoolean (int 0) = false
  /\ submit McData zero_params_body 3 one_observer
     = (Normal (error_response 400 "Missing required fields: params (array), rep"),
        one_observer).
Proof.
  split; [reflexivity|]. split; [reflexivity|]. split; [reflexivity|].
  apply (submit_missing McData zero_params_body 3 one_observer (int 0) (int 0));
    reflexivity.
Qed.

(** C9, as the code has it.  On the four endpoints that read [value] or
    [sent] a property is missing only when it is [undefined], and so is
    [rep] on all five: [{ value: 0, rep: 0 }] on the classifier endpoint,
    [{ sent: false, rep: 0 }] on the feedback-status endpoint and
    [{ params: [], rep: 0 }] on the motion-correction endpoint are
    acknowledged, stored and broadcast.  On the motion-correction
    endpoint [params] is tested by truthiness and by [Array.isArray]:
    every falsy [params] is answered 400 as missing, with nothing
    changed.  On every endpoint the answer is 400 exactly when the test
    of that endpoint fails. *)
Theorem falsy_values_pass_validation elapsed p :
  submit ClfData zero_body elapsed p
  = (Normal (success_response "Classifier data received"),
     accepted_process ClfData "Received classifier data - Rep: 0, Value: 0"
       (int 0) (int 0) elapsed p)
  /\ submit FeedbackStatus not_sent_body elapsed p
     = (Normal (success_response "Neurofeedback status received"),
        accepted_process FeedbackStatus
          "Received neurofeedback status - Rep: 0, Sent: false"
          (JBool false) (int 0) elapsed p)
  /\ submit McData no_params_body elapsed p
     = (Normal (success_response "Motion correction data received"),
        accepted_process McData "Received motion correction data - Rep: 0, Params: []"
          (JArray []) (int 0) elapsed p)
  /\ (forall body v r,
        JS.Get body "params" = Normal v ->
        JS.Get body "rep" = Normal r ->
        JS.ToBoolean v = false ->
        submit McData body elapsed p
        = (Normal (error_response 400 "Missing required fields: params (array), rep"),
           p))
  /\ forall ch body v r,
       JS.Get body (payload_field ch) = Normal v ->
       JS.Get body "rep" = Normal r ->
       (fst (submit ch body elapsed p)
        = Normal (error_response 400 (missing_message ch))
        <-> r = JUndefined \/
            match ch with
            | McData => JS.ToBoolean v = false \/ JS.Array_isArray v = false
            | _ => v = JUndefined
            end).
Proof.
  split; [|split; [|split; [|split]]].
  - apply (submit_accepted ClfData zero_body elapsed p (int 0) (int 0)); reflexivity.
  - apply (submit_accepted FeedbackStatus not_sent_body elapsed p (JBool false) (int 0));
      reflexivity.
  - apply (submit_accepted McData no_params_body elapsed p (JArray []) (int 0));
      reflexivity.
  - intros body v r Hv Hr Hf.
    apply (submit_missing McData body elapsed p v r Hv Hr).
    apply missing_cases. right. now left.
  - intros ch body v r Hv Hr. rewrite <- (missing_cases ch v r). split.
    + intros H.
      destruct (submit_cases ch body elapsed p) as [v' r' Hv' Hr' Hm| |];
        [congruence|discriminate H|discriminate H].
    + intros Hm. now rewrite (submit_missing ch body elapsed p v r Hv Hr Hm).
Qed.

Lemma falsy_values_pass_validation_witness :
  JS.Get zero_params_body "params" = Normal (int 0)
  /\ JS.Get zero_params_body "rep" = Normal (int 0)
  /\ JS.ToBoolean (int 0) = false
  /\ submit McData zero_params_body 0 one_observer
     = (Normal (error_response 400 "Missing required fields: params (array), rep"),
        one_observer)
  /\ (fst (submit RunNumber rep_only_body 0 one_observer)
      = Normal (error_response 400 (missing_message RunNumber))
      <-> int 42 = JUndefined \/ JUndefined = JUndefined).
Proof.
  split; [reflexivity|]. split; [reflexivity|]. split; [reflexivity|]. split.
  - apply (proj1 (proj2 (proj2 (proj2 (falsy_values_pass_validation 0%N one_observer))))
             zero_params_body (int 0) (int 0)); reflexivity.
  - apply (proj2 (proj2 (proj2 (proj2 (falsy_values_pass_validation 0%N one_observer))))
             RunNumber rep_only_body JUndefined (int 42)); reflexivity.
Defined.

(** C10. [broadcast] completes normally and leaves [latestData] and
    [clients] as they were, whatever the ready states of the members.
    [clients] is changed by no input other than a connection, a close or
    an error of a socket, which add and delete the socket. *)
Theorem broadcast_leaves_shared_state_alone :
  (forall data p,
     fst (broadcast data p) = Normal tt
     /\ latestData (snd (broadcast data p)) = latestData p
     /\ clients (snd (broadcast data p)) = clients p)
  /\ (forall i p,
        clients (run_step i p) <> clients p ->
        exists ws,
          i = Connection ws \/ i = SocketClose ws \/ exists error, i = SocketError ws error)
  /\ (forall ws error p,
        clients (run_step (Connection ws) p) = Set_add ws (clients p)
        /\ clients (run_step (SocketClose ws) p) = Set_delete ws (clients p)
        /\ clients (run_step (SocketError ws error) p) = Set_delete ws (clients p)).
Proof.
  split; [|split].
  - intros data p. now rewrite broadcast_spec.
  - intros i p H. rewrite run_step_clients in H.
    destruct i; try (now elim H); eauto.
  - intros ws error p. now rewrite !run_step_clients.
Qed.

Lemma broadcast_leaves_shared_state_alone_witness :
  clients (run_step (Connection 2) one_observer) <> clients one_observer
  /\ exists ws,
       Connection 2 = Connection ws \/ Connection 2 = SocketClose ws
       \/ exists error, Connection 2 = SocketError ws error.
Proof.
  split; [discriminate|].
  apply (proj1 (proj2 broadcast_leaves_shared_state_alone) (Connection 2) one_observer).
  discriminate.
Defined.

(* ===================================================================== *)
(** ** Further properties of the relay *)
(* ===================================================================== *)

(** *** What a POST handler reads *)

(** X1. A POST handler reads two properties of the body and nothing
    else: two bodies that agree on the payload property and on [rep]
    get the same answer and leave the same process, so a [timestamp],
    a [type] or any other property sent by the producer is ignored. *)
Theorem submit_reads_payload_and_rep_only ch body1 body2 elapsed p :
  JS.Get body1 (payload_field ch) = JS.Get body2 (payload_field ch) ->
  JS.Get body1 "rep" = JS.Get body2 "rep" ->
  submit ch body1 elapsed p = submit ch body2 elapsed p.
Proof.
  intros Hf Hr.
  destruct ch; cbn [submit payload_field] in *;
    unfold post_clf_data, post_mc_data, post_feedback_status, post_run_number,
      post_feedback_number;
    rewrite Hf, Hr; reflexivity.
Qed.

Lemma submit_reads_payload_and_rep_only_witness :
  let stamped :=
    JObject [("timestamp", JString "1999-01-01T00:00:00.000Z");
             ("value", JNumber (Finite false 75 2)); ("type", JString "mc_data");
             ("rep", int 42)] in
  JS.Get stamped (payload_field ClfData) = JS.Get clf_body (payload_field ClfData)
  /\ JS.Get stamped "rep" = JS.Get clf_body "rep"
  /\ submit ClfData stamped 3 one_observer = submit ClfData clf_body 3 one_observer.
Proof.
  intros stamped. split; [reflexivity|]. split; [reflexivity|].
  apply (submit_reads_payload_and_rep_only ClfData stamped clf_body 3 one_observer);
    reflexivity.
Defined.

(** *** Which requests end in the [catch] *)

(** X2. How a POST with an object body ends is decided by the two
    properties it reads.  It is answered 400 when one is missing.
    Otherwise it is acknowledged when both can be printed for the log,
    and answered 500 when one of them is, or holds inside an array, an
    object with an own [toString] property; numbers, strings, booleans,
    [null] and plain objects never end in the [catch]. *)
Theorem answer_of_a_submission ch props elapsed p :
  let v := JS.lookup props (payload_field ch) in
  let r := JS.lookup props "rep" in
  fst (submit ch (JObject props) elapsed p)
  = Normal (if missing ch v r then error_response 400 (missing_message ch)
            else if printable r && printable v
                 then success_response (acknowledgement ch)
                 else error_response 500 "Internal server error").
Proof.
  intros v r.
  destruct (submit_cases ch (JObject props) elapsed p)
    as [v' r' Hv Hr Hm|e [H|[H|(v' & r' & Hv & Hr & Hm & Hl)]]
       |v' r' line payload rep Hv Hr Hm Hl _ _];
    try discriminate H;
    cbn [JS.Get] in Hv, Hr; injection Hv as <-; injection Hr as <-;
    fold v r in Hm; rewrite Hm; cbn [fst]; try reflexivity;
    pose proof (log_line_printable ch _ _ Hm) as Hp; fold v r in Hl;
    destruct (printable r && printable v); try reflexivity.
  - destruct Hp as [line Hline]. congruence.
  - congruence.
Qed.

(** *** Motion-correction parameters *)

Lemma mapC_pointwise (f : JSValue -> Completion JSValue) elems : forall ys,
  mapC f elems = Normal ys ->
  List.length ys = List.length elems /\
  forall i x, nth_error elems i = Some x ->
              exists y, f x = Normal y /\ nth_error ys i = Some y.
Proof.
  induction elems as [|x rest IH]; intros ys H; cbn [mapC] in H.
  - injection H as <-. split; [reflexivity|]. intros [|i] y Hy; discriminate Hy.
  - destruct (f x) as [y|] eqn:Hy; [|discriminate].
    cbn [bindC] in H. destruct (mapC f rest) as [ys'|]; [|discriminate].
    cbn [bindC] in H. injection H as <-.
    destruct (IH ys' eq_refl) as [Hlen Hnth].
    split; [cbn; now rewrite Hlen|].
    intros [|i] z Hz; cbn [nth_error] in *.
    + injection Hz as <-. eauto.
    + now apply Hnth.
Qed.

(** X3. An acknowledged motion-correction submission has stored an array
    as long as the one it was sent, whatever that length is, the empty
    array included; its element at each index is [parseFloat] of the
    element sent at that index, so one element that is not numeric
    becomes [NaN] without touching the others. *)
Theorem mc_params_are_coerced_pointwise body elapsed p r p' :
  submit McData body elapsed p = (Normal r, p') ->
  status r = 200 ->
  exists elems stored,
    JS.Get body "params" = Normal (JArray elems) /\
    own_property (entry McData (latestData p')) "params" = JArray stored /\
    List.length stored = List.length elems /\
    forall i x,
      nth_error elems i = Some x ->
      exists n, JS.parseFloat x = Normal n /\ nth_error stored i = Some (JNumber n).
Proof.
  intros H Hs.
  destruct (submit_inv _ _ _ _ _ _ H)
    as [(-> & _)|[(-> & _)|(_ & v & rv & line & payload & rep & Hv & _ & Hm & _ & Hc & _ & ->)]];
    [discriminate Hs|discriminate Hs|].
  destruct (missing_mc_array _ _ Hm) as [elems ->].
  cbn [coerce method_map] in Hc.
  destruct (mapC _ elems) as [ys|] eqn:E; [|discriminate Hc].
  cbn [bindC] in Hc. injection Hc as <-.
  exists elems, ys. split; [exact Hv|]. split; [reflexivity|].
  destruct (mapC_pointwise _ _ _ E) as [Hlen Hnth]. split; [exact Hlen|].
  intros i x Hx. destruct (Hnth i x Hx) as (y & Hy & Hiy).
  unfold number in Hy. destruct (JS.parseFloat x) as [n|]; [|discriminate Hy].
  cbn [bindC] in Hy. injection Hy as <-. eauto.
Qed.

Lemma mc_params_are_coerced_pointwise_witness :
  let body := JObject [("params", JArray [int 1; JString "x"; JNull]); ("rep", int 7)] in
  let r := success_response "Motion correction data received" in
  let p' := snd (submit McData body 0 one_observer) in
  submit McData body 0 one_observer = (Normal r, p')
  /\ status r = 200
  /\ exists elems stored,
       JS.Get body "params" = Normal (JArray elems) /\
       own_property (entry McData (latestData p')) "params" = JArray stored /\
       List.length stored = List.length elems /\
       forall i x,
         nth_error elems i = Some x ->
         exists n, JS.parseFloat x = Normal n /\ nth_error stored i = Some (JNumber n).
Proof.
  intros body r p'. split; [reflexivity|]. split; [reflexivity|].
  apply (mc_params_are_coerced_pointwise body 0 one_observer r p'); reflexivity.
Defined.

(** *** The live set *)

Lemma In_Set_add ws x s : In x (Set_add ws s) <-> x = ws \/ In x s.
Proof.
  unfold Set_add. destruct (existsb (Nat.eqb ws) s) eqn:E.
  - split; [now right|]. intros [->|H]; [|assumption].
    apply existsb_exists in E. destruct E as (y & Hy & Heq).
    apply Nat.eqb_eq in Heq. now subst y.
  - rewrite in_app_iff. cbn. intuition congruence.
Qed.

Lemma In_Set_delete ws x s : In x (Set_delete ws s) <-> x <> ws /\ In x s.
Proof.
  unfold Set_delete. rewrite filter_In, negb_true_iff, Nat.eqb_neq.
  intuition congruence.
Qed.

Lemma run_step_tracks ws i p :
  In ws (clients (run_step i p)) <->
  tracks ws (if in_dec Nat.eq_dec ws (clients p) then true else false) i = true.
Proof.
  rewrite run_step_clients.
  assert (Hin : (if in_dec Nat.eq_dec ws (clients p) then true else false) = true
                <-> In ws (clients p))
    by (destruct (in_dec Nat.eq_dec ws (clients p)); intuition discriminate).
  destruct i; cbn [tracks]; try (symmetry; exact Hin).
  - rewrite In_Set_add. destruct (Nat.eqb_spec ws0 ws) as [->|Hne].
    + intuition.
    + rewrite Hin. intuition congruence.
  - rewrite In_Set_delete. destruct (Nat.eqb_spec ws0 ws) as [->|Hne].
    + intuition discriminate.
    + rewrite Hin. intuition congruence.
  - rewrite In_Set_delete. destruct (Nat.eqb_spec ws0 ws) as [->|Hne].
    + intuition discriminate.
    + rewrite Hin. intuition congruence.
Qed.

(** X4. Whatever the inputs, [clients] holds exactly the sockets whose
    last connection, close or error event was a connection, each once;
    so the [connectedClients] of the health report counts the
    connections that are open from the server's point of view, and a
    socket that connects twice is counted once. *)
Theorem clients_are_the_connected_sockets t0 inputs :
  let p := run inputs (init t0) in
  NoDup (clients p)
  /\ (forall ws, In ws (clients p) <-> fold_left (tracks ws) inputs false = true)
  /\ (forall elapsed,
        own_property (json_of (fst (get_health elapsed p))) "connectedClients"
        = int (Z.of_nat (List.length (clients p)))).
Proof.
  intros p. split; [apply run_clients_NoDup|]. split.
  - unfold p. clear p. induction inputs as [|i inputs IH] using rev_ind; intros ws.
    + cbn. intuition discriminate.
    + rewrite run_snoc, fold_left_app. cbn [fold_left].
      rewrite run_step_tracks.
      destruct (in_dec Nat.eq_dec ws (clients (run inputs (init t0)))) as [Hin|Hnin];
        destruct (fold_left (tracks ws) inputs false) eqn:E; try reflexivity.
      * apply IH in Hin. congruence.
      * exfalso. apply Hnin. now apply IH.
  - intros elapsed. now rewrite get_health_spec.
Qed.

(** *** Who is sent what *)

Lemma received_app ws tr1 tr2 :
  received ws (tr1 ++ tr2) = (received ws tr1 ++ received ws tr2)%list.
Proof.
  induction tr1 as [|e tr1 IH]; [reflexivity|].
  destruct e; cbn [received app]; try assumption.
  destruct (Nat.eqb ws0 ws); cbn [app]; now rewrite IH.
Qed.

Lemma received_sends_outside ws message (l : list WebSocket) :
  ~ In ws l -> received ws (map (fun c => Sent c message) l) = [].
Proof.
  induction l as [|c l IH]; intros H; [reflexivity|].
  cbn [map received]. destruct (Nat.eqb_spec c ws) as [->|_].
  - elim H. now left.
  - apply IH. intros Hin. apply H. now right.
Qed.

Lemma received_replay_events c ws ld :
  received c (replay_events ws ld)
  = if Nat.eqb c ws
    then map (fun ch => JS.JSON_stringify (replay_of ch (entry ch ld)))
           (populated_channels ld)
    else [].
Proof.
  destruct ld as [e1 e2 e3 e4 e5]. unfold replay_events, populated_channels.
  cbn [all_channels flat_map filter entry clf_data mc_data feedback_status
       run_number feedback_number].
  rewrite (Nat.eqb_sym c ws).
  destruct (JS.ToBoolean e1), (JS.ToBoolean e2), (JS.ToBoolean e3),
    (JS.ToBoolean e4), (JS.ToBoolean e5);
    cbn [app received map]; destruct (Nat.eqb ws c); reflexivity.
Qed.

(** X5. A new connection is sent the replay and nobody else is: the
    socket that connects receives one message per populated channel, in
    the order [clf_data], [mc_data], [feedback_status], [run_number],
    [feedback_number], each built from the channel's current entry; no
    other socket receives anything; and the socket is in [clients]
    afterwards. *)
Theorem replay_goes_to_the_new_connection_only ws p c :
  let p' := run_step (Connection ws) p in
  received c (trace p')
  = (received c (trace p)
       ++ if Nat.eqb c ws
          then map (fun ch => JS.JSON_stringify (replay_of ch (entry ch (latestData p))))
                 (populated_channels (latestData p))
          else [])%list
  /\ In ws (clients p')
  /\ latestData p' = latestData p.
Proof.
  intros p'. unfold p'. rewrite run_step_Connection.
  cbn [trace clients latestData]. split; [|split].
  - rewrite received_app. cbn [received]. now rewrite received_replay_events.
  - apply In_Set_add. now left.
  - reflexivity.
Qed.

Lemma update_of_record_of ch payload rep t :
  update_of_record ch (record_of ch payload rep t) = update_of ch payload rep t.
Proof. destruct ch; reflexivity. Qed.

Lemma received_broadcast_events c data p :
  NoDup (clients p) ->
  received c (broadcast_events data p)
  = if existsb (Nat.eqb c) (clients p) && is_OPEN (readyState p c)
    then [JS.JSON_stringify data] else [].
Proof.
  intros H. unfold broadcast_events. cbn [received].
  rewrite received_sends by (apply NoDup_filter; exact H).
  unfold open_clients. now rewrite existsb_filter_open.
Qed.

(** X6. Whatever the process has been through, a submission sends each
    socket at most one message: the serialisation of
    [{ type, <payload>, rep, timestamp }] read back from the entry just
    assigned, to the sockets that are in [clients] and open, when the
    submission is acknowledged; nothing to anybody when it is answered
    400 or 500. *)
Theorem each_open_observer_is_sent_the_update_once t0 inputs ch body elapsed c :
  let p := run inputs (init t0) in
  let result := submit ch body elapsed p in
  received c (trace (snd result))
  = (received c (trace p)
       ++ if is_acknowledged (fst result)
             && (existsb (Nat.eqb c) (clients p) && is_OPEN (readyState p c))
          then [JS.JSON_stringify
                  (update_of_record ch (entry ch (latestData (snd result))))]
          else [])%list.
Proof.
  intros p result. unfold result.
  destruct (submit_cases ch body elapsed p)
    as [v r _ _ _|e _|v r line payload rep _ _ _ _ _ _]; cbn [fst snd is_acknowledged].
  - cbn. now rewrite app_nil_r.
  - cbn [append_trace trace]. rewrite received_app. reflexivity.
  - cbn [accepted_process trace latestData]. rewrite received_app.
    cbn [received]. rewrite received_broadcast_events by apply run_clients_NoDup.
    rewrite set_entry_same, update_of_record_of. reflexivity.
Qed.

Lemma run_step_quiet ws i p :
  is_Connection_of ws i = false ->
  ~ In ws (clients p) ->
  ~ In ws (clients (run_step i p))
  /\ received ws (trace (run_step i p)) = received ws (trace p).
Proof.
  intros Hi Hnin. split.
  - rewrite run_step_clients. destruct i; try assumption.
    + cbn in Hi. rewrite In_Set_add. intros [->|H]; [|contradiction].
      now rewrite Nat.eqb_refl in Hi.
    + rewrite In_Set_delete. tauto.
    + rewrite In_Set_delete. tauto.
  - destruct i; try (cbn; now rewrite ?received_app, ?app_nil_r).
    + rewrite run_step_Connection. cbn [trace]. rewrite received_app.
      cbn [received]. rewrite received_replay_events.
      cbn in Hi. rewrite Nat.eqb_sym, Hi. apply app_nil_r.
    + rewrite run_step_Post.
      destruct (submit_cases ch body elapsed p)
        as [v r _ _ _|e _|v r line payload rep _ _ _ _ _ _]; cbn [snd].
      * reflexivity.
      * cbn [append_trace trace]. rewrite received_app. apply app_nil_r.
      * cbn [accepted_process trace]. rewrite received_app.
        unfold broadcast_events. cbn [received].
        rewrite received_sends_outside; [apply app_nil_r|].
        unfold open_clients. rewrite filter_In. tauto.
    + now rewrite run_step_GetHealth.
Qed.

Lemma run_quiet ws inputs : forall p,
  forallb (fun i => negb (is_Connection_of ws i)) inputs = true ->
  ~ In ws (clients p) ->
  received ws (trace (run inputs p)) = received ws (trace p).
Proof.
  induction inputs as [|i inputs IH]; intros p H Hnin; [reflexivity|].
  cbn [forallb] in H. apply andb_prop in H. destruct H as [Hi H].
  apply negb_true_iff in Hi.
  destruct (run_step_quiet ws i p Hi Hnin) as [Hnin' Hrec].
  cbn [run fold_left]. fold (run inputs (run_step i p)).
  rewrite (IH _ H Hnin'). exact Hrec.
Qed.

(** X7. Once the [close] or the [error] event of a socket has been
    handled, the socket is sent nothing more, whatever is submitted and
    whoever else connects, for as long as it does not connect again. *)
Theorem closed_socket_is_sent_nothing_more ws closing inputs p :
  is_close_of ws closing = true ->
  forallb (fun i => negb (is_Connection_of ws i)) inputs = true ->
  received ws (trace (run (closing :: inputs) p)) = received ws (trace p).
Proof.
  intros Hc Hi. cbn [run fold_left]. fold (run inputs (run_step closing p)).
  assert (Hdel : ~ In ws (clients (run_step closing p))
                 /\ received ws (trace (run_step closing p)) = received ws (trace p)).
  { destruct closing; try discriminate Hc; cbn in Hc; apply Nat.eqb_eq in Hc; subst ws0.
    - split; [rewrite run_step_clients, In_Set_delete; tauto|].
      cbn. rewrite received_app. apply app_nil_r.
    - split; [rewrite run_step_clients, In_Set_delete; tauto|].
      cbn. rewrite received_app. apply app_nil_r. }
  destruct Hdel as [Hnin Hrec]. now rewrite (run_quiet ws inputs _ Hi Hnin).
Qed.

Lemma closed_socket_is_sent_nothing_more_witness :
  let inputs := [Post ClfData clf_body 3; Connection 2; Post McData five_params_body 1] in
  is_close_of 1 (SocketClose 1) = true
  /\ forallb (fun i => negb (is_Connection_of 1 i)) inputs = true
  /\ received 1 (trace (run (SocketClose 1 :: inputs) one_observer))
     = received 1 (trace one_observer).
Proof.
  intros inputs. split; [reflexivity|]. split; [reflexivity|].
  apply (closed_socket_is_sent_nothing_more 1 (SocketClose 1) inputs one_observer);
    reflexivity.
Defined.

(** *** What is sent *)

Lemma stringify_object props :
  exists text, JS.JSON_stringify (JObject props) = JString text.
Proof. unfold JS.JSON_stringify. cbn [JS.SerializeJSONProperty]. eauto. Qed.

Lemma wire_message_replay ch record :
  wire_message (JS.JSON_stringify (replay_of ch record)).
Proof.
  unfold replay_of.
  destruct (stringify_object
              [("type", JString (channel_name ch));
               (payload_field ch, own_property record (payload_field ch));
               ("timestamp", own_property record "timestamp")]) as [text H].
  exists ch, [(payload_field ch, own_property record (payload_field ch));
              ("timestamp", own_property record "timestamp")], text.
  split; exact H.
Qed.

Lemma wire_message_update ch payload rep t :
  wire_message (JS.JSON_stringify (update_of ch payload rep t)).
Proof.
  unfold update_of.
  destruct (stringify_object
              [("type", JString (channel_name ch)); (payload_field ch, payload);
               ("rep", rep); ("timestamp", JString t)]) as [text H].
  exists ch, [(payload_field ch, payload); ("rep", rep); ("timestamp", JString t)], text.
  split; exact H.
Qed.

Lemma replay_events_wire ws ld : Forall sends_wire_messages (replay_events ws ld).
Proof.
  unfold replay_events. apply Forall_flat_map. apply Forall_forall. intros ch _.
  destruct (JS.ToBoolean (entry ch ld)); repeat constructor.
  apply wire_message_replay.
Qed.

Lemma broadcast_events_wire ch payload rep t p :
  Forall sends_wire_messages (broadcast_events (update_of ch payload rep t) p).
Proof.
  unfold broadcast_events. constructor; [exact I|].
  apply Forall_map. apply Forall_forall. intros c _. apply wire_message_update.
Qed.

Lemma run_step_wire i p :
  Forall sends_wire_messages (trace p) ->
  Forall sends_wire_messages (trace (run_step i p)).
Proof.
  intros H. destruct i; try exact H.
  - rewrite run_step_Connection. cbn [trace]. apply Forall_app. split; [exact H|].
    constructor; [exact I|apply replay_events_wire].
  - cbn. apply Forall_app. split; [exact H|]. repeat constructor.
  - cbn. apply Forall_app. split; [exact H|]. repeat constructor.
  - rewrite run_step_Post.
    destruct (submit_cases ch body elapsed p)
      as [v r _ _ _|e _|v r line payload rep _ _ _ _ _ _]; cbn [snd].
    + exact H.
    + cbn [append_trace trace]. apply Forall_app. split; [exact H|]. repeat constructor.
    + cbn [accepted_process trace]. apply Forall_app. split; [exact H|].
      constructor; [exact I|]. constructor; [exact I|]. apply broadcast_events_wire.
  - now rewrite run_step_GetHealth.
Qed.

(** X8. Everything the server ever sends to a socket is a text frame
    holding the serialisation of an object whose first property is
    [type], with one of the five channel names as its value; a socket is
    never sent [undefined] or an untagged message. *)
Theorem every_frame_is_a_tagged_object t0 inputs ws m :
  In (Sent ws m) (trace (run inputs (init t0))) -> wire_message m.
Proof.
  intros H.
  assert (F : Forall sends_wire_messages (trace (run inputs (init t0)))).
  { clear H. induction inputs as [|i inputs IH] using rev_ind; [constructor|].
    rewrite run_snoc. now apply run_step_wire. }
  rewrite Forall_forall in F. exact (F _ H).
Qed.

Lemma every_frame_is_a_tagged_object_witness :
  let inputs := [Connection 1; Post ClfData clf_body 3] in
  let m := JS.JSON_stringify
             (update_of ClfData (JNumber (Finite false 75 2)) (int 42)
                "2025-08-05T21:27:29.482Z") in
  In (Sent 1 m) (trace (run inputs (init t_example))) /\ wire_message m.
Proof.
  intros inputs m.
  assert (H : In (Sent 1 m) (trace (run inputs (init t_example)))).
  { vm_compute. right. right. right. right. left. reflexivity. }
  split; [exact H|].
  exact (every_frame_is_a_tagged_object t_example inputs 1 m H).
Defined.

(** *** Time *)

Lemma run_step_clock i p :
  (clock p <= clock (run_step i p))%Z.
Proof.
  destruct i; try (cbn; lia).
  - rewrite run_step_Connection. cbn. lia.
  - rewrite run_step_Post.
    destruct (submit_cases ch body elapsed p); cbn; lia.
  - rewrite run_step_GetHealth. cbn. lia.
Qed.

Lemma stamped_between_later t0 now now' v :
  (now <= now')%Z -> stamped_between t0 now v -> stamped_between t0 now' v.
Proof.
  intros Hle [->|(t & Ht & E)]; [now left|right].
  exists t. split; [lia|exact E].
Qed.

Lemma run_step_stamped t0 i p :
  (t0 <= clock p)%Z ->
  (forall ch, stamped_between t0 (clock p) (entry ch (latestData p))) ->
  forall ch, stamped_between t0 (clock (run_step i p)) (entry ch (latestData (run_step i p))).
Proof.
  intros H0 H ch.
  pose proof (run_step_clock i p) as Hle.
  destruct i;
    try (rewrite run_step_latestData;
         apply (stamped_between_later t0 (clock p)); [exact Hle|apply H]).
  rewrite run_step_Post in *.
  destruct (submit_cases ch0 body elapsed p)
    as [v r _ _ _|e _|v r line payload rep _ _ _ _ _ _]; cbn [snd] in *.
  - apply H.
  - apply H.
  - cbn [accepted_process latestData clock] in *.
    destruct (Channel_eq_dec ch0 ch) as [->|Hne].
    + rewrite set_entry_same. right. exists (clock p + Z.of_N elapsed)%Z.
      split; [lia|]. destruct ch; reflexivity.
    + rewrite set_entry_other by assumption.
      apply (stamped_between_later t0 (clock p)); [lia|apply H].
Qed.

(** X9. The clock only moves forward, and every record in the store
    carries the ISO rendering of a time the server clock showed between
    the start of the process and now: a timestamp is never supplied by
    the producer and never lies in the server's future. *)
Theorem records_are_stamped_by_the_server_clock t0 inputs :
  let p := run inputs (init t0) in
  (t0 <= clock p)%Z
  /\ (forall i, clock p <= clock (run_step i p))%Z
  /\ forall ch, stamped_between t0 (clock p) (entry ch (latestData p)).
Proof.
  intros p. unfold p. clear p.
  assert (H : (t0 <= clock (run inputs (init t0)))%Z
              /\ forall ch, stamped_between t0 (clock (run inputs (init t0)))
                              (entry ch (latestData (run inputs (init t0))))).
  { induction inputs as [|i inputs [IH0 IH]] using rev_ind.
    - split; [cbn; lia|]. intros []; now left.
    - rewrite run_snoc. split.
      + pose proof (run_step_clock i (run inputs (init t0))). lia.
      + now apply run_step_stamped. }
  destruct H as [H0 H]. split; [exact H0|]. split; [|exact H].
  intros i. apply run_step_clock.
Qed.

(** *** A body that is an array *)

(** X13. A JSON array is a body the JSON middleware hands to a handler
    as it does an object.  It has none of the properties a POST handler
    reads, so it is answered 400 with nothing changed, on every endpoint
    and whatever its elements. *)
Theorem array_body_is_answered_missing ch elems elapsed p :
  submit ch (JArray elems) elapsed p
  = (Normal (error_response 400 (missing_message ch)), p).
Proof.
  apply (submit_missing ch _ elapsed p JUndefined JUndefined);
    [reflexivity|reflexivity|destruct ch; reflexivity].
Qed.

(** *** Late joiners *)

Lemma run_step_entry_other ch i p :
  is_Post_to ch i = false ->
  entry ch (latestData (run_step i p)) = entry ch (latestData p).
Proof.
  intros H. rewrite run_step_latestData. destruct i; try reflexivity.
  cbn [is_Post_to] in H. destruct (Channel_eq_dec ch0 ch) as [|Hne]; [discriminate|].
  destruct (submit_store ch0 body elapsed p) as [->|(payload & rep & t & _ & _ & ->)];
    [reflexivity|now apply set_entry_other].
Qed.

Lemma run_entry_other ch inputs : forall p,
  forallb (fun i => negb (is_Post_to ch i)) inputs = true ->
  entry ch (latestData (run inputs p)) = entry ch (latestData p).
Proof.
  induction inputs as [|i inputs IH]; intros p H; [reflexivity|].
  cbn [forallb] in H. apply andb_prop in H. destruct H as [Hi H].
  apply negb_true_iff in Hi. cbn [run fold_left]. fold (run inputs (run_step i p)).
  rewrite (IH _ H). now apply run_step_entry_other.
Qed.

Lemma populated_channels_In ch ld :
  In ch (populated_channels ld) <-> JS.ToBoolean (entry ch ld) = true.
Proof.
  unfold populated_channels. rewrite filter_In. split; [tauto|].
  intros H. split; [destruct ch; cbn; tauto|exact H].
Qed.

(** X14. An acknowledged record reaches the observers that join later:
    as long as nothing else is posted to the channel, whatever else
    happens, a socket that connects is sent the replay message built
    from that very record, with its payload and its timestamp. *)
Theorem late_joiner_is_replayed_the_acknowledged_record
    ch body elapsed p r p' inputs ws :
  submit ch body elapsed p = (Normal r, p') ->
  status r = 200 ->
  forallb (fun i => negb (is_Post_to ch i)) inputs = true ->
  let p'' := run inputs p' in
  entry ch (latestData p'') = entry ch (latestData p')
  /\ holds_record ch (entry ch (latestData p'))
  /\ In (JS.JSON_stringify (replay_of ch (entry ch (latestData p'))))
       (received ws (trace (run_step (Connection ws) p''))).
Proof.
  intros H Hs Hi p''.
  assert (E : entry ch (latestData p'') = entry ch (latestData p'))
    by (apply run_entry_other; exact Hi).
  assert (R : holds_record ch (entry ch (latestData p'))).
  { destruct (submit_inv _ _ _ _ _ _ H)
      as [(-> & _)|[(-> & _)|(_ & v & rv & line & payload & rep & _ & _ & _ & _ & _ & _ & ->)]];
      [discriminate Hs|discriminate Hs|].
    cbn [accepted_process latestData]. rewrite set_entry_same. now eexists _, _, _. }
  split; [exact E|]. split; [exact R|].
  rewrite run_step_Connection. cbn [trace]. rewrite received_app. cbn [received].
  rewrite received_replay_events, Nat.eqb_refl. apply in_or_app. right.
  rewrite <- E. apply (in_map (fun c => JS.JSON_stringify (replay_of c (entry c (latestData p''))))).
  apply populated_channels_In. rewrite E.
  destruct R as (payload & rep & t & ->). reflexivity.
Qed.

Lemma late_joiner_is_replayed_the_acknowledged_record_witness :
  let r := success_response "Classifier data received" in
  let p' := snd (submit ClfData clf_body 3 one_observer) in
  let inputs := [Post McData five_params_body 5; SocketClose 1; GetHealth 2] in
  let p'' := run inputs p' in
  submit ClfData clf_body 3 one_observer = (Normal r, p')
  /\ status r = 200
  /\ forallb (fun i => negb (is_Post_to ClfData i)) inputs = true
  /\ entry ClfData (latestData p'') = entry ClfData (latestData p')
  /\ holds_record ClfData (entry ClfData (latestData p'))
  /\ In (JS.JSON_stringify (replay_of ClfData (entry ClfData (latestData p'))))
       (received 9 (trace (run_step (Connection 9) p''))).
Proof.
  intros r p' inputs p''. split; [reflexivity|]. split; [reflexivity|].
  split; [reflexivity|].
  apply (late_joiner_is_replayed_the_acknowledged_record
           ClfData clf_body 3 one_observer r p' inputs 9); reflexivity.
Defined.

(** *** Printing and reading digits *)

(** The value of a digit string, piece by piece. *)
Lemma digits_value_from_app acc a b :
  JS.digits_value_from acc (a ++ b) = JS.digits_value_from (JS.digits_value_from acc a) b.
Proof. revert acc. induction a as [|c a IH]; intros acc; [reflexivity|apply IH]. Qed.

Lemma digits_value_from_acc s : forall acc,
  JS.digits_value_from acc s
  = (acc * 10 ^ N.of_nat (String.length s) + JS.digits_value_from 0 s)%N.
Proof.
  induction s as [|c s IH]; intros acc.
  - cbn. lia.
  - cbn [JS.digits_value_from String.length].
    rewrite IH, (IH (10 * 0 + JS.digit_value c)%N).
    rewrite Nat2N.inj_succ, N.pow_succ_r'. lia.
Qed.

Lemma digits_value_app a b :
  JS.digits_value (a ++ b)
  = (JS.digits_value a * 10 ^ N.of_nat (String.length b) + JS.digits_value b)%N.
Proof.
  unfold JS.digits_value. rewrite digits_value_from_app. apply digits_value_from_acc.
Qed.

(** Evaluates the value of a digit character. *)
Ltac eval_digit :=
  repeat match goal with
         | |- context [JS.digit_value ?c] =>
             let v := eval vm_compute in (JS.digit_value c) in
             change (JS.digit_value c) with v
         end.

(** What the Standard Library prints for a number is made of digits and
    reads back as the number. *)
Lemma string_of_uint_digits d : all_digits (NilEmpty.string_of_uint d) = true.
Proof. induction d; cbn; auto. Qed.

Lemma digits_value_from_uint d : forall acc,
  JS.digits_value_from (Npos acc) (NilEmpty.string_of_uint d) = Npos (Pos.of_uint_acc d acc).
Proof.
  induction d; intros acc; cbn [NilEmpty.string_of_uint JS.digits_value_from Pos.of_uint_acc];
    try reflexivity;
    match goal with
    | |- JS.digits_value_from ?a _ = Npos (Pos.of_uint_acc _ ?b) =>
        replace a with (Npos b) by (eval_digit; lia); apply IHd
    end.
Qed.

Lemma digits_value_uint d :
  JS.digits_value (NilEmpty.string_of_uint d) = N.of_uint d.
Proof.
  unfold JS.digits_value, N.of_uint.
  induction d; cbn [NilEmpty.string_of_uint JS.digits_value_from Pos.of_uint];
    try reflexivity; try exact IHd;
    match goal with
    | |- JS.digits_value_from ?a _ = Npos (Pos.of_uint_acc _ ?b) =>
        replace a with (Npos b) by (eval_digit; lia); apply digits_value_from_uint
    end.
Qed.

Lemma string_of_N_unfold n :
  JS.string_of_N n = NilEmpty.string_of_uint (N.to_uint n)
  /\ N.to_uint n <> Decimal.Nil.
Proof.
  unfold JS.string_of_N, NilZero.string_of_uint.
  assert (H : N.to_uint n <> Decimal.Nil).
  { destruct n as [|p]; [discriminate|]. cbn.
    intros E. pose proof (DecimalPos.Unsigned.of_to p) as O.
    rewrite E in O. discriminate O. }
  split; [|exact H]. destruct (N.to_uint n); [now elim H|reflexivity..].
Qed.

Lemma string_of_N_digits n : all_digits (JS.string_of_N n) = true.
Proof. rewrite (proj1 (string_of_N_unfold n)). apply string_of_uint_digits. Qed.

Lemma digits_value_string_of_N n : JS.digits_value (JS.string_of_N n) = n.
Proof.
  rewrite (proj1 (string_of_N_unfold n)), digits_value_uint.
  apply DecimalN.Unsigned.of_to.
Qed.

Lemma string_of_N_nonempty n : JS.string_of_N n <> "".
Proof.
  destruct (string_of_N_unfold n) as [-> H].
  destruct (N.to_uint n); [now elim H|discriminate..].
Qed.

(** The digits of a number have no leading zero. *)
Lemma to_uint_normal n : Decimal.unorm (N.to_uint n) = N.to_uint n.
Proof.
  rewrite <- (DecimalN.Unsigned.to_of (N.to_uint n)).
  now rewrite DecimalN.Unsigned.of_to.
Qed.

Lemma to_uint_head n :
  n <> 0%N -> match N.to_uint n with Decimal.D0 _ => False | _ => True end.
Proof.
  intros Hn. pose proof (to_uint_normal n) as U.
  pose proof (DecimalN.Unsigned.of_to n) as O.
  destruct (N.to_uint n) as [|d'| | | | | | | | |] eqn:E; try exact I.
  rewrite DecimalFacts.unorm_D0 in U.
  destruct d' eqn:E'; [cbn in O; congruence|..];
    match type of U with
    | Decimal.unorm ?d = _ =>
        assert (Hne : d <> Decimal.Nil) by discriminate;
        pose proof (DecimalFacts.nb_digits_unorm _ Hne) as B;
        rewrite U in B; cbn in B; lia
    end.
Qed.

(** The decimal rendering of a positive number starts with a digit that
    is not zero. *)
Lemma string_of_N_head n :
  n <> 0%N ->
  exists c rest,
    JS.string_of_N n = String c rest /\ JS.is_digit c = true /\
    (1 <= JS.digit_value c)%N.
Proof.
  intros Hn. destruct (string_of_N_unfold n) as [-> Hnil].
  pose proof (to_uint_head n Hn) as Hh.
  destruct (N.to_uint n); try contradiction; cbn [NilEmpty.string_of_uint];
    eexists _, _; (split; [reflexivity|]); split; try reflexivity; eval_digit; lia.
Qed.

(** A number below [10^width] prints in at most [width] digits. *)
Lemma string_of_N_length n (width : nat) :
  (n < 10 ^ N.of_nat width)%N -> (0 < width)%nat ->
  (String.length (JS.string_of_N n) <= width)%nat.
Proof.
  intros Hlt Hw. destruct (N.eq_dec n 0) as [->|Hn]; [cbn; lia|].
  destruct (string_of_N_head n Hn) as (c & rest & E & _ & Hc).
  pose proof (digits_value_string_of_N n) as V. rewrite E in V |- *.
  unfold JS.digits_value in V. cbn [JS.digits_value_from] in V.
  rewrite digits_value_from_acc in V. cbn [String.length].
  destruct (Nat.le_gt_cases (S (String.length rest)) width) as [|Hgt]; [assumption|].
  exfalso.
  assert (P : (10 ^ N.of_nat width <= 10 ^ N.of_nat (String.length rest))%N)
    by (apply N.pow_le_mono_r; lia).
  assert (Q : (10 * 0 + JS.digit_value c = JS.digit_value c)%N) by lia.
  rewrite Q in V.
  assert (R : (1 * 10 ^ N.of_nat (String.length rest)
               <= JS.digit_value c * 10 ^ N.of_nat (String.length rest))%N)
    by (apply N.mul_le_mono_r; exact Hc).
  lia.
Qed.

(** *** Reading what was printed *)

Lemma digit_is_no_white_space c : JS.is_digit c = true -> JS.is_white_space c = false.
Proof.
  unfold JS.is_digit, JS.is_white_space. intros H.
  apply andb_prop in H. destruct H as [H1 H2].
  apply Nat.leb_le in H1. apply Nat.leb_le in H2.
  apply orb_false_intro.
  - apply andb_false_intro2. apply Nat.leb_gt. lia.
  - apply Nat.eqb_neq. lia.
Qed.

Lemma digit_cases c :
  JS.is_digit c = true ->
  In c ["0"; "1"; "2"; "3"; "4"; "5"; "6"; "7"; "8"; "9"]%char.
Proof.
  destruct c as [[] [] [] [] [] [] [] []]; intros H; try discriminate H;
    cbn; tauto.
Qed.

(** Runs a statement about a digit character on the ten digits. *)
Ltac on_digits H :=
  apply digit_cases in H; cbn [In] in H;
  repeat (destruct H as [H|H]; [subst|]); try contradiction.

Lemma split_sign_digit c rest :
  JS.is_digit c = true -> JS.split_sign (String c rest) = (false, String c rest).
Proof. intros H. on_digits H; reflexivity. Qed.

Lemma prefix_Infinity_digit c rest :
  JS.is_digit c = true -> prefix "Infinity" (String c rest) = false.
Proof. intros H. on_digits H; reflexivity. Qed.

Lemma strip_hex_prefix_digits s : all_digits s = true -> JS.strip_hex_prefix s = None.
Proof.
  destruct s as [|c [|x rest]]; try reflexivity.
  cbn [all_digits]. intros H. apply andb_prop in H. destruct H as [_ H].
  apply andb_prop in H. destruct H as [H _].
  unfold JS.strip_hex_prefix. on_digits H; cbn; now rewrite andb_false_r.
Qed.

Lemma append_nil_r_string (s : string) : s ++ "" = s.
Proof. induction s as [|c s IH]; [reflexivity|cbn; now rewrite IH]. Qed.

Lemma span_digits_app ds rest :
  all_digits ds = true -> stops rest = true ->
  JS.span_digits (ds ++ rest) = (ds, rest).
Proof.
  intros Hd Hs. induction ds as [|c ds IH].
  - cbn [append]. destruct rest as [|c rest]; [reflexivity|].
    cbn in Hs |- *. apply negb_true_iff in Hs. now rewrite Hs.
  - cbn [all_digits] in Hd. apply andb_prop in Hd. destruct Hd as [Hc Hd].
    cbn [append JS.span_digits]. rewrite Hc, (IH Hd). reflexivity.
Qed.

Lemma span_digits_all ds : all_digits ds = true -> JS.span_digits ds = (ds, "").
Proof.
  intros H. pose proof (span_digits_app ds "" H eq_refl) as E.
  now rewrite append_nil_r_string in E.
Qed.

(** *** Trailing zeros *)

Lemma strip_trailing_zeros_length s :
  (String.length (JS.strip_trailing_zeros s) <= String.length s)%nat.
Proof.
  induction s as [|c s IH]; [cbn; lia|].
  cbn [JS.strip_trailing_zeros String.length].
  destruct (JS.strip_trailing_zeros s) as [|c' tl].
  - destruct (Ascii.eqb c "0"); cbn; lia.
  - cbn [String.length] in *. lia.
Qed.

Lemma strip_trailing_zeros_restore s :
  JS.strip_trailing_zeros s
    ++ JS.repeat_char "0"
         (String.length s - String.length (JS.strip_trailing_zeros s))
  = s.
Proof.
  induction s as [|c s IH]; [reflexivity|].
  pose proof (strip_trailing_zeros_length s) as Hlen.
  cbn [JS.strip_trailing_zeros String.length].
  destruct (JS.strip_trailing_zeros s) as [|c' tl] eqn:E.
  - cbn [String.length append] in IH. rewrite Nat.sub_0_r in IH.
    destruct (Ascii.eqb_spec c "0") as [->|_].
    + cbn [String.length append]. rewrite Nat.sub_0_r.
      cbn [JS.repeat_char]. now rewrite IH.
    + cbn [String.length append]. rewrite Nat.sub_succ, Nat.sub_0_r. now rewrite IH.
  - cbn [String.length append] in IH |- *. rewrite Nat.sub_succ. now rewrite IH.
Qed.

Lemma strip_trailing_zeros_digits s :
  all_digits s = true -> all_digits (JS.strip_trailing_zeros s) = true.
Proof.
  induction s as [|c s IH]; [reflexivity|].
  cbn [all_digits JS.strip_trailing_zeros]. intros H.
  apply andb_prop in H. destruct H as [Hc Hs]. specialize (IH Hs).
  destruct (JS.strip_trailing_zeros s) as [|c' tl].
  - destruct (Ascii.eqb c "0"); cbn; now rewrite ?Hc.
  - cbn [all_digits] in *. now rewrite Hc, IH.
Qed.

Lemma digits_value_zeros k : JS.digits_value (JS.repeat_char "0" k) = 0%N.
Proof.
  unfold JS.digits_value. induction k as [|k IH]; [reflexivity|].
  cbn [JS.repeat_char JS.digits_value_from]. exact IH.
Qed.

Lemma length_repeat_char c k : String.length (JS.repeat_char c k) = k.
Proof. induction k as [|k IH]; [reflexivity|cbn; now rewrite IH]. Qed.

Lemma all_digits_zeros k : all_digits (JS.repeat_char "0" k) = true.
Proof. induction k as [|k IH]; [reflexivity|exact IH]. Qed.

Lemma all_digits_app a b :
  all_digits (a ++ b) = all_digits a && all_digits b.
Proof.
  induction a as [|c a IH]; [reflexivity|].
  cbn [append all_digits]. now rewrite IH, andb_assoc.
Qed.

Lemma length_append (a b : string) :
  String.length (a ++ b) = (String.length a + String.length b)%nat.
Proof. induction a as [|c a IH]; [reflexivity|cbn; now rewrite IH]. Qed.

(** The value of a digit string is that of its significant digits,
    shifted by the zeros dropped. *)
Lemma digits_value_strip s :
  JS.digits_value s
  = (JS.digits_value (JS.strip_trailing_zeros s)
     * 10 ^ N.of_nat (String.length s - String.length (JS.strip_trailing_zeros s)))%N.
Proof.
  rewrite <- (strip_trailing_zeros_restore s) at 1.
  rewrite digits_value_app, digits_value_zeros, length_repeat_char. lia.
Qed.

Lemma strip_trailing_zeros_nonempty s :
  JS.digits_value s <> 0%N -> JS.strip_trailing_zeros s <> "".
Proof.
  intros H E. apply H. rewrite digits_value_strip, E. reflexivity.
Qed.

(** A digit string whose value is not a multiple of ten ends in a digit
    that is not zero: there is nothing to drop. *)
Lemma strip_trailing_zeros_id s : forall acc,
  all_digits s = true -> s <> "" ->
  (JS.digits_value_from acc s mod 10 <> 0)%N ->
  JS.strip_trailing_zeros s = s.
Proof.
  induction s as [|c s IH]; intros acc Hd Hne Hm; [now elim Hne|].
  cbn [all_digits] in Hd. apply andb_prop in Hd. destruct Hd as [Hc Hs].
  cbn [JS.digits_value_from] in Hm. cbn [JS.strip_trailing_zeros].
  destruct s as [|c' s'].
  - cbn [JS.strip_trailing_zeros JS.digits_value_from] in *.
    destruct (Ascii.eqb_spec c "0") as [->|_]; [|reflexivity].
    exfalso. apply Hm. eval_digit.
    rewrite N.add_0_r, N.mul_comm. apply N.Div0.mod_mul.
  - rewrite (IH _ Hs ltac:(discriminate) Hm). reflexivity.
Qed.

(** *** Integers *)

Lemma read_int_prefix_digits (neg : bool) (s : string) :
  all_digits s = true -> s <> "" ->
  JS.read_int_prefix ((if neg then "-" else "") ++ s)
  = Finite neg (JS.digits_value s) 0.
Proof.
  intros Hd Hne. unfold JS.read_int_prefix.
  assert (E : JS.split_sign ((if neg then "-" else "") ++ s) = (neg, s)).
  { destruct neg; [reflexivity|]. cbn [append].
    destruct s as [|c s]; [now elim Hne|].
    cbn [all_digits] in Hd. apply andb_prop in Hd. destruct Hd as [Hc _].
    now apply split_sign_digit. }
  rewrite E, (strip_hex_prefix_digits s Hd), (span_digits_all s Hd).
  destruct s; [now elim Hne|reflexivity].
Qed.

(** A string that begins with a character of the ASCII range that is
    no white space has no leading white space. *)
Lemma trim_start_ascii c rest :
  JS.is_white_space c = false -> (nat_of_ascii c < 128)%nat ->
  JS.trim_start (String c rest) = String c rest.
Proof.
  intros Hw Hc. cbn [JS.trim_start]. rewrite Hw.
  assert (L : forall k, (128 <= k)%nat -> (nat_of_ascii c =? k)%nat = false)
    by (intros k Hk; apply Nat.eqb_neq; lia).
  assert (E2 : forall c2, JS.is_white_space2 c c2 = false)
    by (intros c2; unfold JS.is_white_space2; now rewrite L by lia).
  assert (E3 : forall c2 c3, JS.is_white_space3 c c2 c3 = false).
  { intros c2 c3. unfold JS.is_white_space3. cbv zeta.
    now rewrite (L 225), (L 226), (L 227), (L 239) by lia. }
  destruct rest as [|c2 [|c3 rest]]; now rewrite ?E2, ?E3.
Qed.

Lemma digit_is_ascii c : JS.is_digit c = true -> (nat_of_ascii c < 128)%nat.
Proof.
  unfold JS.is_digit. intros H. apply andb_prop in H. destruct H as [_ H].
  apply Nat.leb_le in H. lia.
Qed.

Lemma trim_start_minus rest : JS.trim_start (String "-" rest) = String "-" rest.
Proof. apply trim_start_ascii; [reflexivity|]. cbn. lia. Qed.

Lemma trim_start_digit c rest :
  JS.is_digit c = true -> JS.trim_start (String c rest) = String c rest.
Proof.
  intros Hc. apply trim_start_ascii;
    [now apply digit_is_no_white_space|now apply digit_is_ascii].
Qed.

Lemma trim_start_number (neg : bool) (s : string) :
  all_digits s = true -> s <> "" ->
  JS.trim_start ((if neg then "-" else "") ++ s) = (if neg then "-" else "") ++ s.
Proof.
  intros Hd Hne. destruct neg; [apply trim_start_minus|]. cbn [append].
  destruct s as [|c s]; [now elim Hne|].
  cbn [all_digits] in Hd. apply andb_prop in Hd. destruct Hd as [Hc _].
  now apply trim_start_digit.
Qed.

(** A positive integer below 10^21 prints as its digits. *)
Lemma Number_toString_integer (neg : bool) (m : N) :
  m <> 0%N -> (m < 10 ^ 21)%N ->
  JS.Number_toString (Finite neg m 0) = (if neg then "-" else "") ++ JS.string_of_N m.
Proof.
  intros Hm Hlt. unfold JS.Number_toString.
  destruct (N.eqb_spec m 0) as [->|_]; [now elim Hm|].
  pose proof (string_of_N_length m 21 Hlt ltac:(lia)) as HL.
  pose proof (strip_trailing_zeros_length (JS.string_of_N m)) as Hk.
  pose proof (strip_trailing_zeros_restore (JS.string_of_N m)) as Hr.
  cbv zeta.
  set (all := JS.string_of_N m) in *.
  set (s := JS.strip_trailing_zeros all) in *.
  replace (Z.of_nat (String.length all) - Z.of_N 0)%Z
    with (Z.of_nat (String.length all)) by lia.
  assert (C : ((Z.of_nat (String.length s) <=? Z.of_nat (String.length all))
               && (Z.of_nat (String.length all) <=? 21))%Z = true).
  { apply andb_true_intro. split; apply Z.leb_le; lia. }
  rewrite C. f_equal.
  replace (Z.to_nat (Z.of_nat (String.length all) - Z.of_nat (String.length s)))
    with (String.length all - String.length s)%nat by lia.
  exact Hr.
Qed.

Lemma same_number_eq x y : JS.same_number x y = true -> x = y.
Proof.
  destruct x as [|a|a m s], y as [|b|b m' s']; try discriminate; cbn [JS.same_number].
  - reflexivity.
  - now intros ->%Bool.eqb_prop.
  - intros H. apply andb_prop in H. destruct H as [H Hs].
    apply andb_prop in H. destruct H as [Ha Hm].
    apply Bool.eqb_prop in Ha. apply N.eqb_eq in Hm. apply N.eqb_eq in Hs.
    now subst.
Qed.

Lemma is_double_fixed x : JS.is_double x = true -> JS.to_double x = x.
Proof. apply same_number_eq. Qed.

(** The integer in front of the printed form of an integer that prints
    without an exponent is the integer. *)
Lemma read_int_prefix_plain_integer neg m :
  (m < 10 ^ 21)%N -> (neg && (m =? 0)%N) = false ->
  JS.read_int_prefix (JS.trim_start (JS.Number_toString (Finite neg m 0)))
  = Finite neg m 0.
Proof.
  intros Hlt Hz.
  destruct (N.eqb_spec m 0) as [->|Hm].
  - rewrite andb_true_r in Hz. subst neg. reflexivity.
  - rewrite (Number_toString_integer neg m Hm Hlt).
    pose proof (string_of_N_digits m) as Hd.
    pose proof (string_of_N_nonempty m) as Hne.
    rewrite (trim_start_number neg _ Hd Hne), (read_int_prefix_digits neg _ Hd Hne).
    now rewrite digits_value_string_of_N.
Qed.

(** [parseInt] of an integer Number that prints without an exponent is
    the integer. *)
Lemma parseInt_plain_integer neg m :
  (m < 10 ^ 21)%N -> (neg && (m =? 0)%N) = false ->
  JS.is_double (Finite neg m 0) = true ->
  JS.parseInt (JNumber (Finite neg m 0)) = Normal (Finite neg m 0).
Proof.
  intros Hlt Hz Hd. unfold JS.parseInt, JS.parse_int_prefix. cbn [JS.ToString bindC].
  now rewrite (read_int_prefix_plain_integer neg m Hlt Hz), (is_double_fixed _ Hd).
Qed.

(** *** Decimal literals *)

Lemma substring_full s : substring 0 (String.length s) s = s.
Proof. induction s as [|c s IH]; [reflexivity|cbn; now rewrite IH]. Qed.

Lemma substring_split s : forall n,
  (n <= String.length s)%nat ->
  substring 0 n s ++ substring n (String.length s - n) s = s
  /\ String.length (substring 0 n s) = n.
Proof.
  induction s as [|c s IH]; intros [|n] H; cbn [String.length] in *.
  - split; reflexivity.
  - lia.
  - split; [|reflexivity]. cbn [substring append Nat.sub]. now rewrite substring_full.
  - destruct (IH n ltac:(lia)) as [E L].
    cbn [substring append String.length Nat.sub]. split; [now rewrite E|now rewrite L].
Qed.

Lemma stops_exponent_text e : stops (exponent_text e) = true.
Proof. destruct e; reflexivity. Qed.

Lemma parse_exponent_text e : JS.parse_exponent (exponent_text e) = exponent_value e.
Proof.
  destruct e as [z|]; [|reflexivity].
  unfold exponent_text, JS.parse_exponent. cbn [append Ascii.eqb Bool.eqb orb andb].
  assert (E : JS.split_sign ((if (z <? 0)%Z then "-" else "+") ++ JS.string_of_N (Z.abs_N z))
              = ((z <? 0)%Z, JS.string_of_N (Z.abs_N z)))
    by (destruct (z <? 0)%Z; reflexivity).
  cbn [exponent_value].
  rewrite E, (span_digits_all _ (string_of_N_digits _)).
  pose proof (string_of_N_nonempty (Z.abs_N z)) as Hne.
  destruct (JS.string_of_N (Z.abs_N z)) eqn:S; [now elim Hne|].
  rewrite <- S, digits_value_string_of_N.
  destruct (Z.ltb_spec z 0); lia.
Qed.

(** Reading a literal [sign digits [. digits] [e exponent]]. *)
Lemma parse_decimal_literal (neg : bool) (int_digits : string) (frac : option string) e :
  all_digits int_digits = true -> int_digits <> "" ->
  (forall f, frac = Some f -> all_digits f = true) ->
  let frac_digits := match frac with Some f => f | None => "" end in
  JS.read_decimal_prefix
    ((if neg then "-" else "") ++ int_digits
       ++ match frac with Some f => "." ++ f | None => "" end
       ++ exponent_text e)
  = JS.decimal_value neg (JS.digits_value (int_digits ++ frac_digits))
      (exponent_value e - Z.of_nat (String.length frac_digits)).
Proof.
  intros Hd Hne Hf frac_digits. unfold JS.read_decimal_prefix.
  destruct int_digits as [|c ds] eqn:Ei; [now elim Hne|]. rewrite <- Ei in *.
  assert (Hc : JS.is_digit c = true)
    by (rewrite Ei in Hd; cbn in Hd; now apply andb_prop in Hd).
  set (tail := match frac with Some f => "." ++ f | None => "" end ++ exponent_text e).
  assert (E : JS.split_sign ((if neg then "-" else "") ++ int_digits ++ tail)
              = (neg, int_digits ++ tail)).
  { destruct neg; [reflexivity|]. cbn [append]. rewrite Ei. cbn [append].
    now apply split_sign_digit. }
  rewrite E.
  assert (P : prefix "Infinity" (int_digits ++ tail) = false)
    by (rewrite Ei; cbn [append]; now apply prefix_Infinity_digit).
  rewrite P.
  assert (St : stops tail = true).
  { unfold tail. destruct frac; [reflexivity|]. cbn [append]. apply stops_exponent_text. }
  rewrite (span_digits_app int_digits tail Hd St).
  assert (F : match tail with
              | String "." rest => JS.span_digits rest
              | _ => ("", tail)
              end = (frac_digits, exponent_text e)).
  { unfold tail, frac_digits. destruct frac as [f|].
    - cbn [append]. apply span_digits_app; [now apply Hf|apply stops_exponent_text].
    - cbn [append]. destruct e; reflexivity. }
  rewrite F, parse_exponent_text.
  rewrite Ei at 1. reflexivity.
Qed.

Lemma mkFinite_canonical neg m scale :
  m <> 0%N -> (scale = 0%N \/ (m mod 10 <> 0)%N) ->
  JS.mkFinite neg m scale = Finite neg m scale.
Proof.
  intros Hm Hc. unfold JS.mkFinite.
  destruct (N.eqb_spec m 0) as [E|_]; [now elim Hm|].
  destruct (N.to_nat scale) as [|fuel] eqn:F; [reflexivity|].
  cbn [JS.reduce_scale].
  destruct (N.eqb_spec scale 0) as [->|Hs]; [reflexivity|].
  destruct Hc as [->|Hc]; [now elim Hs|].
  destruct (N.eqb_spec (m mod 10) 0) as [E|_]; [now elim Hc|reflexivity].
Qed.

Lemma decimal_value_shift neg digits (j : nat) m :
  (digits * 10 ^ N.of_nat j)%N = m -> m <> 0%N ->
  JS.decimal_value neg digits (Z.of_nat j) = Finite neg m 0.
Proof.
  intros E Hm. unfold JS.decimal_value.
  destruct (Z.leb_spec 0 (Z.of_nat j)) as [_|H]; [|lia].
  replace (Z.to_N (Z.of_nat j)) with (N.of_nat j) by lia.
  rewrite E. apply mkFinite_canonical; [exact Hm|now left].
Qed.

Lemma decimal_value_scale neg m scale :
  m <> 0%N -> scale <> 0%N -> (m mod 10 <> 0)%N ->
  JS.decimal_value neg m (- Z.of_N scale) = Finite neg m scale.
Proof.
  intros Hm Hs Hc. unfold JS.decimal_value.
  destruct (Z.leb_spec 0 (- Z.of_N scale)) as [H|_]; [lia|].
  replace (Z.to_N (- - Z.of_N scale)) with scale by lia.
  apply mkFinite_canonical; [exact Hm|now right].
Qed.

Lemma digits_value_leading_zeros k s :
  JS.digits_value (JS.repeat_char "0" k ++ s) = JS.digits_value s.
Proof. rewrite digits_value_app, digits_value_zeros. lia. Qed.

(** How a finite number other than zero prints: a literal that reads
    back as the number. *)
Lemma Number_toString_literal neg m scale :
  m <> 0%N -> (scale = 0%N \/ (m mod 10 <> 0)%N) ->
  exists int_digits frac e,
    JS.Number_toString (Finite neg m scale)
    = (if neg then "-" else "") ++ int_digits
        ++ match frac with Some f => "." ++ f | None => "" end
        ++ exponent_text e
    /\ all_digits int_digits = true /\ int_digits <> ""
    /\ (forall f, frac = Some f -> all_digits f = true)
    /\ JS.decimal_value neg
         (JS.digits_value (int_digits ++ match frac with Some f => f | None => "" end))
         (exponent_value e
          - Z.of_nat (String.length match frac with Some f => f | None => "" end))
       = Finite neg m scale.
Proof.
  intros Hm Hc. unfold JS.Number_toString.
  destruct (N.eqb_spec m 0) as [E|_]; [now elim Hm|]. cbv zeta.
  pose proof (string_of_N_digits m) as Hd.
  pose proof (string_of_N_nonempty m) as Hne.
  pose proof (digits_value_string_of_N m) as V.
  pose proof (strip_trailing_zeros_length (JS.string_of_N m)) as Hk.
  pose proof (strip_trailing_zeros_restore (JS.string_of_N m)) as Hr.
  pose proof (strip_trailing_zeros_digits _ Hd) as Hsd.
  pose proof (digits_value_strip (JS.string_of_N m)) as Vs.
  assert (Hsne : JS.strip_trailing_zeros (JS.string_of_N m) <> "")
    by (apply strip_trailing_zeros_nonempty; congruence).
  set (all := JS.string_of_N m) in *.
  set (s := JS.strip_trailing_zeros all) in *.
  assert (Hk1 : (1 <= String.length s)%nat)
    by (destruct s; [now elim Hsne|cbn; lia]).
  destruct (substring_split s 1 Hk1) as [Esplit Lsplit].
  assert (Hsplit : all_digits (substring 0 1 s) = true
                   /\ all_digits (substring 1 (String.length s - 1) s) = true).
  { rewrite <- Esplit, all_digits_app in Hsd. now apply andb_prop in Hsd. }
  assert (Hane : substring 0 1 s <> "")
    by (intros E; rewrite E in Lsplit; discriminate Lsplit).
  destruct (N.eq_dec scale 0) as [->|Hs].
  - (* an integer *)
    replace (Z.of_nat (String.length all) - Z.of_N 0)%Z
      with (Z.of_nat (String.length all)) by lia.
    destruct (Z.leb_spec (Z.of_nat (String.length all)) 21) as [H21|H21].
    + assert (C : (Z.of_nat (String.length s) <=? Z.of_nat (String.length all))%Z = true)
        by (apply Z.leb_le; lia).
      rewrite C. cbn [andb].
      exists all, None, None. cbn [exponent_text exponent_value String.length].
      rewrite !append_nil_r_string.
      replace (Z.to_nat (Z.of_nat (String.length all) - Z.of_nat (String.length s)))
        with (String.length all - String.length s)%nat by lia.
      rewrite Hr. repeat split; try assumption; try discriminate.
      rewrite V. apply (decimal_value_shift neg m 0 m); [cbn; lia|exact Hm].
    + rewrite !andb_false_r.
      assert (C3 : ((-6 <? Z.of_nat (String.length all))
                    && (Z.of_nat (String.length all) <=? 0))%Z = false)
        by (apply andb_false_intro2; apply Z.leb_gt; lia).
      rewrite C3.
      set (e := (Z.of_nat (String.length all) - 1)%Z).
      destruct (Z.eqb_spec (Z.of_nat (String.length s)) 1) as [K1|K1].
      * exists s, None, (Some e).
        cbn [exponent_text exponent_value String.length append].
        rewrite append_nil_r_string.
        repeat split; try assumption; try discriminate.
        replace (e - Z.of_nat 0)%Z with (Z.of_nat (String.length all - 1)) by lia.
        apply decimal_value_shift; [|exact Hm].
        rewrite <- V, Vs. repeat f_equal. lia.
      * exists (substring 0 1 s), (Some (substring 1 (String.length s - 1) s)), (Some e).
        cbn [exponent_text exponent_value].
        replace (Z.to_nat (Z.of_nat (String.length s) - 1)) with (String.length s - 1)%nat
          by lia.
        split; [reflexivity|]. split; [apply Hsplit|]. split; [exact Hane|].
        split; [intros f [= <-]; apply Hsplit|].
        rewrite Esplit.
        assert (Lb : String.length (substring 1 (String.length s - 1) s)
                     = (String.length s - 1)%nat).
        { pose proof (f_equal String.length Esplit) as Q.
          rewrite length_append, Lsplit in Q. lia. }
        rewrite Lb.
        replace (e - Z.of_nat (String.length s - 1))%Z
          with (Z.of_nat (String.length all - String.length s)) by lia.
        apply decimal_value_shift; [|exact Hm]. now rewrite <- V, Vs.
  - (* a fraction *)
    destruct Hc as [->|Hc]; [now elim Hs|].
    assert (Es : s = all).
    { unfold s. apply (strip_trailing_zeros_id all 0%N Hd Hne).
      fold (JS.digits_value all). now rewrite V. }
    rewrite Es in *. clear Es Hk Hr Hsd Vs Hsne.
    set (n := (Z.of_nat (String.length all) - Z.of_N scale)%Z).
    assert (C1 : ((Z.of_nat (String.length all) <=? n) && (n <=? 21))%Z = false)
      by (apply andb_false_intro1; apply Z.leb_gt; lia).
    rewrite C1.
    destruct ((0 <? n) && (n <=? 21))%Z eqn:C2.
    + apply andb_prop in C2. destruct C2 as [P1 P2].
      apply Z.ltb_lt in P1. apply Z.leb_le in P2.
      assert (Hj : (Z.to_nat n <= String.length all)%nat) by lia.
      destruct (substring_split all (Z.to_nat n) Hj) as [Ej Lj].
      assert (Hdj : all_digits (substring 0 (Z.to_nat n) all) = true
                    /\ all_digits (substring (Z.to_nat n)
                                     (String.length all - Z.to_nat n) all) = true).
      { rewrite <- Ej, all_digits_app in Hd. now apply andb_prop in Hd. }
      replace (Z.to_nat (Z.of_nat (String.length all) - n))
        with (String.length all - Z.to_nat n)%nat by lia.
      exists (substring 0 (Z.to_nat n) all),
        (Some (substring (Z.to_nat n) (String.length all - Z.to_nat n) all)), None.
      cbn [exponent_text exponent_value]. rewrite append_nil_r_string.
      split; [reflexivity|]. split; [apply Hdj|].
      split; [intros E; rewrite E in Lj; cbn in Lj; lia|].
      split; [intros f [= <-]; apply Hdj|].
      rewrite Ej, V.
      assert (Lb : String.length (substring (Z.to_nat n)
                                    (String.length all - Z.to_nat n) all)
                   = (String.length all - Z.to_nat n)%nat).
      { pose proof (f_equal String.length Ej) as Q.
        rewrite length_append, Lj in Q. lia. }
      rewrite Lb.
      replace (0 - Z.of_nat (String.length all - Z.to_nat n))%Z with (- Z.of_N scale)%Z
        by lia.
      now apply decimal_value_scale.
    + destruct ((-6 <? n) && (n <=? 0))%Z eqn:C3.
      * apply andb_prop in C3. destruct C3 as [P1 P2].
        apply Z.ltb_lt in P1. apply Z.leb_le in P2.
        exists "0", (Some (JS.repeat_char "0" (Z.to_nat (- n)) ++ all)), None.
        cbn [exponent_text exponent_value]. rewrite append_nil_r_string.
        split; [reflexivity|]. split; [reflexivity|]. split; [discriminate|].
        split; [intros f [= <-]; rewrite all_digits_app, all_digits_zeros; exact Hd|].
        rewrite length_append, length_repeat_char.
        change ("0" ++ JS.repeat_char "0" (Z.to_nat (- n)) ++ all)
          with (JS.repeat_char "0" (S (Z.to_nat (- n))) ++ all).
        rewrite digits_value_leading_zeros, V.
        replace (0 - Z.of_nat (Z.to_nat (- n) + String.length all))%Z
          with (- Z.of_N scale)%Z by lia.
        now apply decimal_value_scale.
      * set (e := (n - 1)%Z).
        destruct (Z.eqb_spec (Z.of_nat (String.length all)) 1) as [K1|K1].
        -- exists all, None, (Some e).
           cbn [exponent_text exponent_value String.length append].
           rewrite append_nil_r_string.
           repeat split; try assumption; try discriminate.
           rewrite V.
           replace (e - Z.of_nat 0)%Z with (- Z.of_N scale)%Z by lia.
           now apply decimal_value_scale.
        -- exists (substring 0 1 all),
             (Some (substring 1 (String.length all - 1) all)), (Some e).
           cbn [exponent_text exponent_value].
           replace (Z.to_nat (Z.of_nat (String.length all) - 1))
             with (String.length all - 1)%nat by lia.
           split; [reflexivity|]. split; [apply Hsplit|]. split; [exact Hane|].
           split; [intros f [= <-]; apply Hsplit|].
           rewrite Esplit, V.
           assert (Lb : String.length (substring 1 (String.length all - 1) all)
                        = (String.length all - 1)%nat).
           { pose proof (f_equal String.length Esplit) as Q.
             rewrite length_append, Lsplit in Q. lia. }
           rewrite Lb.
           replace (e - Z.of_nat (String.length all - 1))%Z with (- Z.of_N scale)%Z
             by lia.
           now apply decimal_value_scale.
Qed.

Lemma trim_start_literal (neg : bool) (ds tail : string) :
  all_digits ds = true -> ds <> "" ->
  JS.trim_start ((if neg then "-" else "") ++ ds ++ tail)
  = (if neg then "-" else "") ++ ds ++ tail.
Proof.
  intros Hd Hne. destruct neg; [apply trim_start_minus|]. cbn [append].
  destruct ds as [|c ds]; [now elim Hne|].
  cbn [all_digits] in Hd. apply andb_prop in Hd. destruct Hd as [Hc _].
  cbn [append]. now apply trim_start_digit.
Qed.

(** The decimal literal in front of the printed form of a number is the
    number. *)
Lemma read_decimal_prefix_canonical x :
  canonical x = true ->
  JS.read_decimal_prefix (JS.trim_start (JS.Number_toString x)) = x.
Proof.
  destruct x as [|neg|neg m scale]; try discriminate. cbn [canonical]. intros H.
  destruct (N.eqb_spec m 0) as [->|Hm].
  - apply andb_prop in H. destruct H as [Hn Hs].
    apply negb_true_iff in Hn. apply N.eqb_eq in Hs. subst. reflexivity.
  - assert (Hc : scale = 0%N \/ (m mod 10 <> 0)%N).
    { apply orb_prop in H. destruct H as [H|H].
      - left. now apply N.eqb_eq.
      - right. apply negb_true_iff in H. now apply N.eqb_neq. }
    destruct (Number_toString_literal neg m scale Hm Hc)
      as (int_digits & frac & e & -> & Hd & Hne & Hf & V).
    rewrite (trim_start_literal neg int_digits _ Hd Hne).
    rewrite (parse_decimal_literal neg int_digits frac e Hd Hne Hf).
    now rewrite V.
Qed.

(** [parseFloat] of a finite Number is the number: the decimal it prints
    as is the one that reads back as it. *)
Lemma parseFloat_canonical x :
  canonical x = true -> JS.is_double x = true ->
  JS.parseFloat (JNumber x) = Normal x.
Proof.
  intros Hc Hd. unfold JS.parseFloat, JS.parse_decimal_prefix. cbn [JS.ToString bindC].
  now rewrite (read_decimal_prefix_canonical x Hc), (is_double_fixed x Hd).
Qed.

Lemma mapC_parseFloat_canonical elems :
  forallb is_canonical_number elems = true ->
  mapC (fun p => number (JS.parseFloat p)) elems = Normal elems.
Proof.
  induction elems as [|x rest IH]; [reflexivity|].
  cbn [forallb mapC]. intros H. apply andb_prop in H. destruct H as [Hx Hr].
  destruct x as [| | |n| | |]; try discriminate Hx. cbn [is_canonical_number] in Hx.
  apply andb_prop in Hx. destruct Hx as [Hc Hd].
  unfold number at 1. rewrite (parseFloat_canonical n Hc Hd). cbn [bindC].
  now rewrite (IH Hr).
Qed.

Lemma parseInt_plain v : plain_integer v = true -> number (JS.parseInt v) = Normal v.
Proof.
  destruct v as [| | |[| |neg m scale]| | |]; try discriminate. cbn [plain_integer].
  intros H. apply andb_prop in H. destruct H as [H Hd].
  apply andb_prop in H. destruct H as [H Hz].
  apply andb_prop in H. destruct H as [Hs Hlt].
  apply N.eqb_eq in Hs. subst scale. apply N.ltb_lt in Hlt.
  apply negb_true_iff in Hz.
  unfold number. now rewrite (parseInt_plain_integer neg m Hlt Hz Hd).
Qed.

Lemma coerce_well_typed ch v : well_typed ch v = true -> coerce ch v = Normal v.
Proof.
  destruct ch; cbn [well_typed coerce].
  - destruct v as [| | |n| | |]; try discriminate. cbn [is_canonical_number].
    intros H. apply andb_prop in H. destruct H as [Hc Hd].
    unfold number. now rewrite (parseFloat_canonical n Hc Hd).
  - destruct v as [| | | | |elems|]; try discriminate. intros H.
    cbn [method_map]. now rewrite (mapC_parseFloat_canonical elems H).
  - destruct v; try discriminate. reflexivity.
  - apply parseInt_plain.
  - apply parseInt_plain.
Qed.

Lemma printable_numbers elems :
  forallb is_canonical_number elems = true -> forallb printable elems = true.
Proof.
  induction elems as [|x rest IH]; [reflexivity|].
  cbn [forallb]. intros H. apply andb_prop in H. destruct H as [Hx Hr].
  rewrite (IH Hr). destruct x; try discriminate Hx. reflexivity.
Qed.

Lemma well_typed_printable ch v : well_typed ch v = true -> printable v = true.
Proof.
  destruct ch, v; try discriminate; try reflexivity.
  cbn [well_typed printable]. apply printable_numbers.
Qed.

Lemma well_typed_present ch v r :
  well_typed ch v = true -> plain_integer r = true -> missing ch v r = false.
Proof.
  intros Hv Hr.
  assert (R : JS.is_undefined r = false) by (destruct r; try discriminate; reflexivity).
  destruct ch, v; try discriminate Hv; cbn [missing JS.is_undefined JS.ToBoolean
    JS.Array_isArray negb orb]; exact R.
Qed.

(** X10. A payload of the documented type is stored exactly as sent.
    The numbers of a request are finite Number values; take them other
    than negative zero.  A number on the classifier endpoint, an array
    of numbers of any length on the motion-correction endpoint, a
    boolean on the feedback-status endpoint, an integer below 10^21 in
    absolute value on the two counter endpoints, each with a [rep] that
    is an integer below 10^21 in absolute value, is acknowledged, and
    the record and the broadcast carry the very values of the request:
    [parseFloat] reads a number back from its printed form, [parseInt]
    does for an integer that prints without an exponent, and [Boolean]
    leaves a boolean alone. *)
Theorem well_typed_payload_is_stored_as_sent ch body elapsed p v r :
  JS.Get body (payload_field ch) = Normal v ->
  JS.Get body "rep" = Normal r ->
  well_typed ch v = true ->
  plain_integer r = true ->
  exists line,
    submit ch body elapsed p
    = (Normal (success_response (acknowledgement ch)),
       accepted_process ch line v r elapsed p).
Proof.
  intros Hv Hr Hw Hi.
  pose proof (well_typed_present ch v r Hw Hi) as Hm.
  pose proof (log_line_printable ch v r Hm) as Hl.
  assert (Hp : printable r && printable v = true).
  { rewrite (well_typed_printable ch v Hw).
    destruct r as [| | |[| |]| | |]; try discriminate Hi; reflexivity. }
  rewrite Hp in Hl. destruct Hl as [line Hl]. exists line.
  apply (submit_accepted ch body elapsed p v r line v r);
    auto using coerce_well_typed, parseInt_plain.
Qed.

Lemma well_typed_payload_is_stored_as_sent_witness :
  let v := JArray [JNumber (Finite false 1 3); JNumber (Finite true 2 3);
                   JNumber (Finite false 15 8); JNumber (Finite false 314 2);
                   JNumber (Finite false 1000000000000000000000000 0);
                   JNumber (Finite false 0 0)] in
  let body := JObject [("params", v); ("rep", int (-7))] in
  JS.Get body (payload_field McData) = Normal v
  /\ JS.Get body "rep" = Normal (int (-7))
  /\ well_typed McData v = true
  /\ plain_integer (int (-7)) = true
  /\ exists line,
       submit McData body 3 one_observer
       = (Normal (success_response (acknowledgement McData)),
          accepted_process McData line v (int (-7)) 3 one_observer).
Proof.
  intros v body. split; [reflexivity|]. split; [reflexivity|].
  split; [reflexivity|]. split; [reflexivity|].
  apply (well_typed_payload_is_stored_as_sent McData body 3 one_observer v (int (-7)));
    reflexivity.
Defined.

(* ===================================================================== *)
(** ** The three-channel server inside the five-channel one *)
(* ===================================================================== *)

Lemma legacy_bind_normal {A B} (m : Legacy.Handler A) (k : A -> Legacy.Handler B) q a q' :
  m q = (Normal a, q') -> Legacy.bind m k q = k a q'.
Proof. intros H. unfold Legacy.bind. now rewrite H. Qed.

Lemma legacy_append_trace_nil q : legacy_append_trace [] q = q.
Proof. destruct q. unfold legacy_append_trace. cbn. now rewrite app_nil_r. Qed.

Lemma legacy_append_trace_app e1 e2 q :
  legacy_append_trace e2 (legacy_append_trace e1 q) = legacy_append_trace (e1 ++ e2) q.
Proof. unfold legacy_append_trace. cbn. now rewrite app_assoc. Qed.

Lemma legacy_forEach_send (f : WebSocket -> Legacy.Handler unit) message :
  (forall c q, f c q = (Normal tt,
                        if is_OPEN (Legacy.readyState q c)
                        then legacy_append_trace [Sent c message] q else q)) ->
  forall l q,
    Legacy.forEach l f q
    = (Normal tt,
       legacy_append_trace
         (map (fun c => Sent c message)
            (filter (fun c => is_OPEN (Legacy.readyState q c)) l)) q).
Proof.
  intros Hf. induction l as [|c l IH]; intros q.
  - cbn. now rewrite legacy_append_trace_nil.
  - cbn [Legacy.forEach filter].
    rewrite (legacy_bind_normal _ _ _ _ _ (Hf c q)).
    rewrite IH.
    destruct (is_OPEN (Legacy.readyState q c)); [|reflexivity].
    now rewrite legacy_append_trace_app.
Qed.

(** The broadcast of the three-channel server leaves the trace its
    five-channel counterpart leaves. *)
Lemma legacy_broadcast_spec data q :
  Legacy.broadcast data q
  = (Normal tt, legacy_append_trace (broadcast_events data (upgrade q)) q).
Proof.
  unfold Legacy.broadcast, Legacy.stringify.
  rewrite (legacy_bind_normal _ _ q (JS.JSON_stringify data)
             (legacy_append_trace [Stringified data] q)) by reflexivity.
  rewrite (legacy_bind_normal _ _ _ (Legacy.clients q)
             (legacy_append_trace [Stringified data] q)) by reflexivity.
  rewrite (legacy_forEach_send _ (JS.JSON_stringify data)).
  - now rewrite legacy_append_trace_app.
  - intros c q'. unfold Legacy.bind, Legacy.read_readyState.
    destruct (is_OPEN (Legacy.readyState q' c)); reflexivity.
Qed.

(** Unfolds the sequencing of a handler of the three-channel server. *)
Ltac unfold_legacy :=
  cbv beta iota zeta delta
    [Legacy.bind Legacy.lift Legacy.ret Legacy.try_catch Legacy.console_log
     Legacy.console_error Legacy.emit Legacy.assign_clf_data Legacy.assign_mc_data
     Legacy.assign_feedback_status Legacy.read_latestData Legacy.new_Date_toISOString
     Legacy.latestData Legacy.clients Legacy.readyState Legacy.clock Legacy.trace
     Legacy.clf_data Legacy.mc_data Legacy.feedback_status].

(** Closes the acknowledged branch of a pair of handlers. *)
Ltac same_broadcast :=
  compute_gets; rewrite broadcast_spec, legacy_broadcast_spec;
  unfold upgrade, append_trace, legacy_append_trace;
  cbn [fst snd latestData clients readyState clock trace
       Legacy.latestData Legacy.clients Legacy.readyState Legacy.clock Legacy.trace
       Legacy.clf_data Legacy.mc_data Legacy.feedback_status];
  reflexivity.

Lemma post_clf_data_upgrade body elapsed q :
  post_clf_data body elapsed (upgrade q)
  = (fst (Legacy.post_clf_data body elapsed q),
     upgrade (snd (Legacy.post_clf_data body elapsed q))).
Proof.
  destruct q as [[l1 l2 l3] cl rs ck tr].
  unfold post_clf_data, Legacy.post_clf_data, upgrade. unfold_handler. unfold_legacy.
  destruct (JS.Get body "value") as [v|e]; [|reflexivity].
  destruct (JS.Get body "rep") as [r|e]; [|reflexivity].
  destruct (JS.is_undefined v || JS.is_undefined r); [reflexivity|].
  destruct (JS.ToString r) as [rt|e] eqn:Hrt; [|reflexivity].
  destruct (JS.ToString v) as [vt|e] eqn:Hvt; [|reflexivity].
  rewrite (parseFloat_ToString _ _ Hvt), (parseInt_ToString _ _ Hrt).
  same_broadcast.
Qed.

Lemma post_feedback_status_upgrade body elapsed q :
  post_feedback_status body elapsed (upgrade q)
  = (fst (Legacy.post_feedback_status body elapsed q),
     upgrade (snd (Legacy.post_feedback_status body elapsed q))).
Proof.
  destruct q as [[l1 l2 l3] cl rs ck tr].
  unfold post_feedback_status, Legacy.post_feedback_status, upgrade.
  unfold_handler. unfold_legacy.
  destruct (JS.Get body "sent") as [v|e]; [|reflexivity].
  destruct (JS.Get body "rep") as [r|e]; [|reflexivity].
  destruct (JS.is_undefined v || JS.is_undefined r); [reflexivity|].
  destruct (JS.ToString r) as [rt|e] eqn:Hrt; [|reflexivity].
  destruct (JS.ToString v) as [vt|e] eqn:Hvt; [|reflexivity].
  rewrite (parseInt_ToString _ _ Hrt).
  same_broadcast.
Qed.

Lemma post_mc_data_upgrade body elapsed q :
  post_mc_data body elapsed (upgrade q)
  = (fst (Legacy.post_mc_data body elapsed q),
     upgrade (snd (Legacy.post_mc_data body elapsed q))).
Proof.
  destruct q as [[l1 l2 l3] cl rs ck tr].
  unfold post_mc_data, Legacy.post_mc_data, upgrade. unfold_handler. unfold_legacy.
  destruct (JS.Get body "params") as [v|e]; [|reflexivity].
  destruct (JS.Get body "rep") as [r|e]; [|reflexivity].
  destruct (negb (JS.ToBoolean v) || negb (JS.Array_isArray v) || JS.is_undefined r);
    [reflexivity|].
  destruct (JS.ToString r) as [rt|e] eqn:Hrt; [|reflexivity].
  destruct (method_join v ", ") as [pt|e] eqn:Hpt; [|reflexivity].
  destruct v as [| | | | |elems|]; try discriminate Hpt.
  destruct (join_then_map elems ", " pt Hpt) as [ys Hys].
  cbn [method_map]. rewrite Hys, (parseInt_ToString _ _ Hrt). cbn [bindC].
  same_broadcast.
Qed.

(** Unfolds the sequencing of the connection listener of the
    three-channel server. *)
Ltac unfold_legacy_listener :=
  cbv beta iota zeta delta
    [Legacy.bind Legacy.lift Legacy.ret Legacy.console_log Legacy.emit Legacy.stringify
     Legacy.send Legacy.clients_add Legacy.read_latestData
     Legacy.latestData Legacy.clients Legacy.readyState Legacy.clock Legacy.trace
     Legacy.clf_data Legacy.mc_data Legacy.feedback_status].

Lemma on_connection_upgrade ws q :
  on_connection ws (upgrade q)
  = (fst (Legacy.on_connection ws q), upgrade (snd (Legacy.on_connection ws q))).
Proof.
  rewrite on_connection_spec.
  destruct q as [[l1 l2 l3] cl rs ck tr].
  unfold Legacy.on_connection, upgrade, replay_events, replay_of.
  cbn [flat_map all_channels entry clf_data mc_data feedback_status run_number
       feedback_number latestData clients readyState clock trace
       Legacy.latestData Legacy.clients Legacy.readyState Legacy.clock Legacy.trace
       Legacy.clf_data Legacy.mc_data Legacy.feedback_status
       payload_field channel_name JS.ToBoolean].
  unfold_legacy_listener.
  split_truthy l1; split_truthy l2; split_truthy l3;
    cbv beta iota; cbn [fst snd app]; rewrite <- ?app_assoc; reflexivity.
Qed.

Lemma run_step_upgrade i q :
  run_step (upgrade_input i) (upgrade q) = upgrade (Legacy.run_step i q).
Proof.
  destruct i; cbn [upgrade_input]; try reflexivity.
  - unfold run_step, Legacy.run_step, step, Legacy.step, silently, Legacy.silently.
    unfold bind at 1. unfold bind at 1. unfold Legacy.bind at 1. unfold Legacy.bind at 1.
    cbn [set_readyState Legacy.set_readyState].
    match goal with
    | |- context [on_connection ws ?p] =>
        change p with
          (upgrade (Legacy.mkProcess (Legacy.latestData q) (Legacy.clients q)
                      (fun x => if Nat.eqb x ws then OPEN else Legacy.readyState q x)
                      (Legacy.clock q) (Legacy.trace q)))
    end.
    rewrite on_connection_upgrade.
    destruct (Legacy.on_connection ws _) as [[[]|e] q']; reflexivity.
  - rewrite run_step_Post. cbn [submit]. rewrite post_clf_data_upgrade.
    unfold Legacy.run_step, Legacy.step, Legacy.respond, Legacy.bind.
    destruct (Legacy.post_clf_data body elapsed q) as [[r|e] q']; reflexivity.
  - rewrite run_step_Post. cbn [submit]. rewrite post_mc_data_upgrade.
    unfold Legacy.run_step, Legacy.step, Legacy.respond, Legacy.bind.
    destruct (Legacy.post_mc_data body elapsed q) as [[r|e] q']; reflexivity.
  - rewrite run_step_Post. cbn [submit]. rewrite post_feedback_status_upgrade.
    unfold Legacy.run_step, Legacy.step, Legacy.respond, Legacy.bind.
    destruct (Legacy.post_feedback_status body elapsed q) as [[r|e] q']; reflexivity.
  - rewrite run_step_GetHealth.
    destruct q as [[l1 l2 l3] cl rs ck tr].
    unfold Legacy.run_step, Legacy.step, Legacy.respond, Legacy.get_health,
      Legacy.health_entry.
    cbv beta iota zeta delta
      [Legacy.bind Legacy.lift Legacy.ret Legacy.new_Date_toISOString Legacy.clients_size
       Legacy.read_latestData Legacy.latestData Legacy.clients Legacy.readyState
       Legacy.clock Legacy.trace Legacy.clf_data Legacy.mc_data Legacy.feedback_status].
    split_truthy l1; split_truthy l2; split_truthy l3; reflexivity.
Qed.

(** X11. The five-channel server is the three-channel one with two
    channels added: fed the same connections, closes, errors, reads and
    POSTs to [/clf_data], [/mc_data] and [/feedback_status], it ends
    with the same three entries, the same [clients], the same clock and
    the same trace, hence the same frames sent to the same sockets in
    the same order, and with [null] in the two entries added. *)
Theorem five_channel_server_extends_the_three_channel_one t0 inputs :
  run (map upgrade_input inputs) (init t0) = upgrade (Legacy.run inputs (Legacy.init t0)).
Proof.
  change (init t0) with (upgrade (Legacy.init t0)).
  generalize (Legacy.init t0). induction inputs as [|i inputs IH]; intros q.
  - reflexivity.
  - cbn [map run Legacy.run fold_left].
    fold (run (map upgrade_input inputs) (run_step (upgrade_input i) (upgrade q))).
    fold (Legacy.run inputs (Legacy.run_step i q)).
    rewrite run_step_upgrade. apply IH.
Qed.

(** X12. The two servers give a POST the same answer.  To a read the
    five-channel server gives the answer of the three-channel one with
    [run_number: null] and [feedback_number: null] added to the entries;
    a connection, a close or an error has no answer in either. *)
Theorem answers_of_the_two_servers i q :
  response_of (fst (step (upgrade_input i) (upgrade q)))
  = match i with
    | Legacy.GetLatestData =>
        option_map (fun r => mkResponse (status r) (with_new_channels (json r)))
          (response_of (fst (Legacy.step i q)))
    | Legacy.GetHealth _ =>
        option_map (fun r => mkResponse (status r) (with_new_channels_in_health (json r)))
          (response_of (fst (Legacy.step i q)))
    | _ => response_of (fst (Legacy.step i q))
    end.
Proof.
  destruct i; cbn [upgrade_input]; try reflexivity.
  - unfold step, Legacy.step, silently, Legacy.silently.
    unfold bind at 1. unfold bind at 1. unfold Legacy.bind at 1. unfold Legacy.bind at 1.
    cbn [set_readyState Legacy.set_readyState].
    match goal with
    | |- context [on_connection ws ?p] =>
        change p with
          (upgrade (Legacy.mkProcess (Legacy.latestData q) (Legacy.clients q)
                      (fun x => if Nat.eqb x ws then OPEN else Legacy.readyState q x)
                      (Legacy.clock q) (Legacy.trace q)))
    end.
    rewrite on_connection_upgrade.
    destruct (Legacy.on_connection ws _) as [[[]|e] q']; reflexivity.
  - unfold step, Legacy.step, respond, Legacy.respond, bind, Legacy.bind.
    cbn [submit]. rewrite post_clf_data_upgrade.
    destruct (Legacy.post_clf_data body elapsed q) as [[r|e] q']; reflexivity.
  - unfold step, Legacy.step, respond, Legacy.respond, bind, Legacy.bind.
    cbn [submit]. rewrite post_mc_data_upgrade.
    destruct (Legacy.post_mc_data body elapsed q) as [[r|e] q']; reflexivity.
  - unfold step, Legacy.step, respond, Legacy.respond, bind, Legacy.bind.
    cbn [submit]. rewrite post_feedback_status_upgrade.
    destruct (Legacy.post_feedback_status body elapsed q) as [[r|e] q']; reflexivity.
  - unfold step, respond, bind. rewrite get_health_spec.
    destruct q as [[l1 l2 l3] cl rs ck tr].
    unfold Legacy.step, Legacy.respond, Legacy.get_health, Legacy.health_entry,
      health_report, health_view, upgrade.
    cbv beta iota zeta delta
      [Legacy.bind Legacy.lift Legacy.ret Legacy.new_Date_toISOString Legacy.clients_size
       Legacy.read_latestData Legacy.latestData Legacy.clients Legacy.readyState
       Legacy.clock Legacy.trace Legacy.clf_data Legacy.mc_data Legacy.feedback_status].
    cbn [latestData clients clock clf_data mc_data feedback_status run_number
         feedback_number payload_field JS.ToBoolean].
    split_truthy l1; split_truthy l2; split_truthy l3; reflexivity.
Qed.
